(** * mesh-metrics: the Prometheus renderer, the file and push sinks, the
    roster decryption and the daemon's statistics, embedded from
    [src/lib/prometheus_manager.py] and [scripts/meshmetricsd.py]. *)

From Stdlib Require Import ZArith NArith List String Ascii Bool Lia DecimalString Uint63 Btauto.
From Stdlib.Strings Require Import Byte.
From stdpp Require Import gmap strings list.

Open Scope string_scope.
Open Scope Z_scope.

(** ** Python text: the fragment of [str] the program uses.

    Text is modelled as Rocq's [string] (a sequence of 8-bit characters),
    holding the UTF-8 bytes of the Python text.  [lower] maps the ASCII
    letters and leaves every other byte: it is Python's [str.lower] on
    ASCII text only, and what is proved of the lower-casing itself is
    stated for ASCII text. *)
Module Py.

Definition nl : ascii := "010"%char.
Definition dq : ascii := "034"%char.
Definition backslash : ascii := "092"%char.

Definition str1 (c : ascii) : string := String c EmptyString.

(** [s.replace(c, r)] for a one-character pattern [c]. *)
Fixpoint replace (c : ascii) (r : string) (s : string) : string :=
  match s with
  | EmptyString => EmptyString
  | String a t => if Ascii.eqb a c then r +:+ replace c r t else String a (replace c r t)
  end.

Definition is_upper (c : ascii) : bool :=
  (65 <=? nat_of_ascii c)%nat && (nat_of_ascii c <=? 90)%nat.

Definition lower_char (c : ascii) : ascii :=
  if is_upper c then ascii_of_nat (nat_of_ascii c + 32) else c.

Fixpoint lower (s : string) : string :=
  match s with
  | EmptyString => EmptyString
  | String a t => String (lower_char a) (lower t)
  end.

(** [sep.join(l)] *)
Fixpoint join (sep : string) (l : list string) : string :=
  match l with
  | [] => ""
  | [x] => x
  | x :: t => x +:+ sep +:+ join sep t
  end.

(** [str(n)] for an int. *)
Definition str_int (z : Z) : string := NilZero.string_of_int (Z.to_int z).

(** Truth value of a string: non-empty. *)
Definition truthy (s : string) : bool :=
  match s with EmptyString => false | _ => true end.

Fixpoint mem_char (c : ascii) (s : string) : bool :=
  match s with
  | EmptyString => false
  | String a t => Ascii.eqb a c || mem_char c t
  end.

(** [s.startswith(p)] *)
Fixpoint startswith (p s : string) : bool :=
  match p with
  | EmptyString => true
  | String a p' =>
      match s with
      | EmptyString => false
      | String b s' => Ascii.eqb a b && startswith p' s'
      end
  end.

(** [s.rstrip(c)]: drop the trailing run of [c]. *)
Fixpoint rstrip (c : ascii) (s : string) : string :=
  match s with
  | EmptyString => EmptyString
  | String a t =>
      match rstrip c t with
      | EmptyString => if Ascii.eqb a c then EmptyString else str1 a
      | t' => String a t'
      end
  end.

(** Text-mode reading: a carriage return, alone or before a line feed,
    is read as one line feed. *)
Fixpoint universal_newlines (s : string) : string :=
  match s with
  | EmptyString => EmptyString
  | String c t =>
      if Ascii.eqb c "013"%char then
        String nl (match t with
                   | String c' t' =>
                       if Ascii.eqb c' nl then universal_newlines t'
                       else universal_newlines t
                   | EmptyString => EmptyString
                   end)
      else String c (universal_newlines t)
  end.

(** [chr(n)], for a code point below 65536, in UTF-8. *)
Definition chr (n : N) : string :=
  (if n <? 128 then str1 (ascii_of_N n)
   else if n <? 2048
   then String (ascii_of_N (192 + n / 64)) (str1 (ascii_of_N (128 + n mod 64)))
   else String (ascii_of_N (224 + n / 4096))
          (String (ascii_of_N (128 + (n / 64) mod 64))
             (str1 (ascii_of_N (128 + n mod 64)))))%N.

(** The code points from [a] to [b]. *)
Definition code_points (a b : N) : list N :=
  map (fun i => (a + N.of_nat i)%N) (seq 0 (N.to_nat (b + 1 - a))).

(** The characters for which [str.isspace] holds, which [str.strip]
    removes: the code points 9 to 13, 28 to 32, 133, 160, 5760, 8192 to
    8202, 8232, 8233, 8239, 8287 and 12288. *)
Definition whitespace : list string :=
  map chr (code_points 9 13 ++ code_points 28 32 ++ [133; 160; 5760]
           ++ code_points 8192 8202 ++ [8232; 8233; 8239; 8287; 12288])%N%list.

(** [s[len(p):]] when [s] starts with [p]. *)
Fixpoint drop_prefix (p s : string) : option string :=
  match p with
  | EmptyString => Some s
  | String a p' =>
      match s with
      | String b s' => if Ascii.eqb a b then drop_prefix p' s' else None
      | EmptyString => None
      end
  end.

Fixpoint drop_first (ps : list string) (s : string) : option string :=
  match ps with
  | [] => None
  | p :: rest =>
      match drop_prefix p s with
      | Some t => Some t
      | None => drop_first rest s
      end
  end.

(** Drop a leading run of the texts [ps]; at most [fuel] of them. *)
Fixpoint lstrip_run (ps : list string) (fuel : nat) (s : string) : string :=
  match fuel with
  | O => s
  | S fuel' =>
      match drop_first ps s with
      | Some t => lstrip_run ps fuel' t
      | None => s
      end
  end.

Fixpoint rev_str (acc s : string) : string :=
  match s with
  | EmptyString => acc
  | String a t => rev_str (String a acc) t
  end.

(** [s.strip()] *)
Definition strip (s : string) : string :=
  let s1 := lstrip_run whitespace (String.length s) s in
  rev_str "" (lstrip_run (map (rev_str "") whitespace) (String.length s1) (rev_str "" s1)).

(** [s.rpartition(c)]: [Some (before, after)] the last [c], or [None]
    without one. *)
Fixpoint rpartition (c : ascii) (s : string) : option (string * string) :=
  match s with
  | EmptyString => None
  | String a t =>
      match rpartition c t with
      | Some (pre, post) => Some (String a pre, post)
      | None => if Ascii.eqb a c then Some ("", t) else None
      end
  end.

(** [s[:-1]] *)
Fixpoint drop_last (s : string) : string :=
  match s with
  | EmptyString => EmptyString
  | String a EmptyString => EmptyString
  | String a t => String a (drop_last t)
  end.

Fixpoint last_char (s : string) : option ascii :=
  match s with
  | EmptyString => None
  | String a EmptyString => Some a
  | String a t => last_char t
  end.

Definition hex_lower (n : nat) : ascii :=
  match get n "0123456789abcdef" with Some c => c | None => "0"%char end.

Fixpoint repr_body (q : ascii) (s : string) : string :=
  match s with
  | EmptyString => EmptyString
  | String a t =>
      let n := nat_of_ascii a in
      (if Ascii.eqb a backslash || Ascii.eqb a q then String backslash (str1 a)
       else if Ascii.eqb a "009"%char then String backslash "t"
       else if Ascii.eqb a nl then String backslash "n"
       else if Ascii.eqb a "013"%char then String backslash "r"
       else if (n <? 32)%nat || (n =? 127)%nat
       then String backslash
              (String "x" (String (hex_lower (Nat.div n 16)) (str1 (hex_lower (Nat.modulo n 16)))))
       else str1 a)
      +:+ repr_body q t
  end.

(** [repr(s)]: the text in quotes, with the quote, the backslash and the
    ASCII control characters escaped.  Characters outside ASCII are
    written as they are, which is what [repr] does to the printable
    ones. *)
Definition repr (s : string) : string :=
  let q := if mem_char "'"%char s && negb (mem_char dq s) then dq else "'"%char in
  str1 q +:+ repr_body q s +:+ str1 q.

End Py.

(** ** Python [re]: a backtracking matcher for the constructs of the two
    patterns of the program.  The matcher tries alternatives in Python's
    order (greedy first) and hands the rest of the subject to a
    continuation, so a later failure falls back to the next alternative. *)
Module Re.

Inductive regex : Type :=
| Bol                            (* ^  *)
| Eol                            (* $  *)
| Chr (c : ascii)                (* a literal character *)
| Cls (p : ascii -> bool)        (* a character class *)
| StarCls (p : ascii -> bool)    (* [..]* *)
| PlusCls (p : ascii -> bool)    (* [..]+ *)
| Opt (r : regex)                (* r? *)
| Grp (r : regex)                (* ( r ) *)
| Seq (r1 r2 : regex).

(** [$] without MULTILINE: at the end of the subject, or just before a
    newline that is the subject's last character. *)
Definition at_eol (s : string) : bool :=
  match s with
  | EmptyString => true
  | String c EmptyString => Ascii.eqb c Py.nl
  | _ => false
  end.

Definition first_some {A} (x : option A) (y : option A) : option A :=
  match x with Some _ => x | None => y end.

(** Greedy [p*] with backtracking: the longest run first, then shorter ones. *)
Fixpoint star_cls {R} (p : ascii -> bool) (i : nat) (s : string)
         (k : nat -> string -> option R) : option R :=
  match s with
  | EmptyString => k i s
  | String a t =>
      if p a then first_some (star_cls p (S i) t k) (k i s) else k i s
  end.

Definition take_str (n : nat) (s : string) : string := substring 0 n s.

(** [go r i s caps k]: match [r] at offset [i], where [s] is the subject
    from [i] on and [caps] the groups closed so far. *)
Fixpoint go (r : regex) (i : nat) (s : string) (caps : list string)
         (k : nat -> string -> list string -> option (list string))
  : option (list string) :=
  match r with
  | Bol => if Nat.eqb i 0 then k i s caps else None
  | Eol => if at_eol s then k i s caps else None
  | Chr c =>
      match s with
      | String a t => if Ascii.eqb a c then k (S i) t caps else None
      | EmptyString => None
      end
  | Cls p =>
      match s with
      | String a t => if p a then k (S i) t caps else None
      | EmptyString => None
      end
  | StarCls p => star_cls p i s (fun j t => k j t caps)
  | PlusCls p =>
      match s with
      | String a t => if p a then star_cls p (S i) t (fun j t' => k j t' caps) else None
      | EmptyString => None
      end
  | Opt r1 => first_some (go r1 i s caps k) (k i s caps)
  | Grp r1 => go r1 i s caps (fun j t caps' => k j t (caps' ++ [take_str (j - i) s])%list)
  | Seq r1 r2 => go r1 i s caps (fun j t caps' => go r2 j t caps' k)
  end.

(** [re.match(r, s)]: anchored at offset 0; the result is the list of groups. *)
Definition re_match (r : regex) (s : string) : option (list string) :=
  go r 0 s [] (fun _ _ caps => Some caps).

(** [re.search(r, s)]: the leftmost offset at which [r] matches. *)
Fixpoint search_from (r : regex) (i : nat) (s : string) : option (list string) :=
  match go r i s [] (fun _ _ caps => Some caps) with
  | Some caps => Some caps
  | None =>
      match s with
      | EmptyString => None
      | String _ t => search_from r (S i) t
      end
  end.

Definition re_search (r : regex) (s : string) : option (list string) :=
  search_from r 0 s.

Fixpoint lit (s : string) (rest : regex) : regex :=
  match s with
  | EmptyString => rest
  | String c t => Seq (Chr c) (lit t rest)
  end.

Definition is_digit (c : ascii) : bool :=
  (48 <=? nat_of_ascii c)%nat && (nat_of_ascii c <=? 57)%nat.

Definition is_sign (c : ascii) : bool :=
  Ascii.eqb c "+"%char || Ascii.eqb c "-"%char.

Definition not_dq (c : ascii) : bool := negb (Ascii.eqb c Py.dq).

(** The pattern of a numeric value, [^[+-]?[0-9]+\.?[0-9]*$]. *)
Definition numeric_re : regex :=
  Seq Bol (Seq (Opt (Cls is_sign)) (Seq (PlusCls is_digit)
    (Seq (Opt (Chr "."%char)) (Seq (StarCls is_digit) Eol)))).

(** The pattern of the node label, [node=Q([^Q]+)Q] with [Q] the double
    quote character. *)
Definition node_re : regex :=
  lit "node=" (Seq (Chr Py.dq) (Seq (Grp (PlusCls not_dq)) (Chr Py.dq))).

End Re.

(** ** Data model *)

(** A Python float, carried by the text [str()] gives for it; the binary
    format itself plays no role in the renderer. *)
Record pyfloat := { float_repr : string }.

(** A telemetry value: an int, a float or a str. *)
Inductive value : Type :=
| VInt (z : Z)
| VFloat (f : pyfloat)
| VStr (s : string).

(** [f'{value}'] *)
Definition format_value (v : value) : string :=
  match v with
  | VInt z => Py.str_int z
  | VFloat f => float_repr f
  | VStr s => s
  end.

(** A telemetry reading set: a dict, in insertion order. *)
Definition telemetry := list (string * value).

(** [device_info.get(k)] taken as a condition: present and non-empty. *)
Definition field_set (device_info : gmap string string) (k : string) : bool :=
  match device_info !! k with
  | Some s => Py.truthy s
  | None => false
  end.

(** [device_info[k]] once [field_set] holds. *)
Definition field (device_info : gmap string string) (k : string) : string :=
  default "" (device_info !! k).

(** ** PrometheusFormatter (prometheus_manager.py) *)
Module PrometheusFormatter.

Record t := { node_id_format : string; version : string }.

(** The constructor's defaults. *)
Definition default_formatter : t :=
  {| node_id_format := "default"; version := "MTM-v0.98-Daemon" |}.

Definition format_node_id_for_metric (self : t) (node_id : string) : string :=
  if String.eqb (node_id_format self) "clean"
  then Py.replace "!"%char "" node_id
  else node_id.

Definition sanitize_filename (node_id : string) : string :=
  Py.replace Py.backslash "_"
    (Py.replace "/"%char "_" (Py.replace "!"%char "" node_id)).

Definition metric_name (key : string) : string :=
  "meshtastic_" +:+ Py.replace " "%char "_" (Py.lower key).

(** The test of line 56: an int or a float, or a str the pattern matches. *)
Definition is_numeric (v : value) : bool :=
  match v with
  | VInt _ | VFloat _ => true
  | VStr s => bool_decide (is_Some (Re.re_match Re.numeric_re s))
  end.

Definition node_label (id : string) : string :=
  "{node=" +:+ Py.str1 Py.dq +:+ id +:+ Py.str1 Py.dq.

Definition label (name val : string) : string :=
  "," +:+ name +:+ "=" +:+ Py.str1 Py.dq +:+ val +:+ Py.str1 Py.dq.

Definition numeric_line (name id : string) (v : string) : string :=
  name +:+ node_label id +:+ "} " +:+ v.

Definition labelled_line (name id lname lval : string) (v : string) : string :=
  name +:+ node_label id +:+ label lname lval +:+ "} " +:+ v.

Definition reading_line (id : string) (kv : string * value) : string :=
  let '(key, v) := kv in
  if is_numeric v
  then numeric_line (metric_name key) id (format_value v)
  else labelled_line (metric_name key) id "str" (format_value v) "1".

Definition opt_line (c : bool) (l : string) : list string := if c then [l] else [].

Definition metadata_lines (id : string) (device_info : gmap string string) : list string :=
  (opt_line (field_set device_info "contact_name")
    (labelled_line "meshtastic_contact" id "contact" (field device_info "contact_name") "1")
  ++ opt_line (field_set device_info "location")
    (labelled_line "meshtastic_location" id "location" (field device_info "location") "1")
  ++ opt_line (field_set device_info "latitude")
    (numeric_line "meshtastic_latitude" id (field device_info "latitude"))
  ++ opt_line (field_set device_info "longitude")
    (numeric_line "meshtastic_longitude" id (field device_info "longitude")))%list.

Definition up_value (telemetry_data : telemetry) : Z :=
  match telemetry_data with [] => 0 | _ => 1 end.

Definition up_line (self : t) (id : string) (telemetry_data : telemetry) : string :=
  labelled_line "meshtastic_up" id "version" (version self)
    (Py.str_int (up_value telemetry_data)).

Definition format_prometheus_metrics (self : t) (node_id : string)
    (telemetry_data : telemetry) (device_info : gmap string string) : list string :=
  let metric_node_id := format_node_id_for_metric self node_id in
  (map (reading_line metric_node_id) telemetry_data
   ++ metadata_lines metric_node_id device_info
   ++ [up_line self metric_node_id telemetry_data])%list.

End PrometheusFormatter.

(** ** Exceptions, results and the world the sinks act on *)

Inductive pyexn : Type :=
| NameError (name : string)
| OSError (what : string)
| FileExistsError
| URLError (reason : string)
| HTTPError (code : Z) (msg : string)
| ValueError (what : string)
| BinasciiError (what : string)
| UnicodeDecodeError
| IndexError (what : string)
| ImportError (what : string)
| PyException (message : string).

(** [isinstance(e, urllib.error.URLError)]: [HTTPError] is a subclass. *)
Definition is_URLError (e : pyexn) : bool :=
  match e with URLError _ | HTTPError _ _ => true | _ => false end.

(** [str(e)] *)
Definition exn_text (e : pyexn) : string :=
  match e with
  | NameError n => "name '" +:+ n +:+ "' is not defined"
  | OSError w => w
  | FileExistsError => "No usable temporary file name found"
  | URLError r => "<urlopen error " +:+ r +:+ ">"
  | HTTPError code msg => "HTTP Error " +:+ Py.str_int code +:+ ": " +:+ msg
  | ValueError w => w
  | BinasciiError w => w
  | UnicodeDecodeError => "'utf-8' codec can't decode bytes"
  | IndexError w => w
  | ImportError w => w
  | PyException m => m
  end.

Inductive result (A : Type) : Type :=
| Ok (a : A)
| Raise (e : pyexn).
Arguments Ok {A} a.
Arguments Raise {A} e.

Definition returns {A} (r : result A) : bool :=
  match r with Ok _ => true | Raise _ => false end.

Definition rbind {A B} (r : result A) (f : A -> result B) : result B :=
  match r with Ok a => f a | Raise e => Raise e end.

(** A path, as [pathlib] splits it: [parent] and [name]. *)
Record path := Path { parent : string; name : string }.

Global Instance path_eq_dec : EqDecision path.
Proof. solve_decision. Defined.

Global Instance path_countable : Countable path.
Proof.
  refine (inj_countable' (fun p => (parent p, name p))
                         (fun q => Path (fst q) (snd q)) _).
  intros []; reflexivity.
Defined.

Definition path_text (p : path) : string := parent p +:+ "/" +:+ name p.

(** What happens to the files, one event per system call that changes them. *)
Inductive event : Type :=
| Created (p : path)
| Wrote (p : path) (text : string)
| Synced (p : path)
| Renamed (src dst : path)
| Unlinked (p : path)
| Truncated (p : path).

Record request := {
  req_url : string;
  req_method : string;
  req_content_type : string;
  req_content_length : string;
  req_body : string
}.

(** [self.stats] of the daemon. *)
Record stats := {
  start_time : option string;
  last_poll : option string;
  total_polls : Z;
  successful_polls : Z;
  failed_polls : Z;
  nodes_processed : Z;
  nodes_successful : Z;
  push_successful : Z;
  push_failed : Z
}.

(** The world: file contents, every state the files went through (newest
    first, with the call that produced it), the requests handed to
    [urlopen], the messages handed to the logger, and the daemon's
    statistics. *)
Record world := {
  files : gmap path string;
  history : list (event * gmap path string);
  requests : list request;
  logged : list (string * string);
  daemon_stats : stats
}.

Definition set_files (ev : event) (fs : gmap path string) (w : world) : world :=
  {| files := fs; history := (ev, fs) :: history w;
     requests := requests w; logged := logged w; daemon_stats := daemon_stats w |}.

Definition add_request (r : request) (w : world) : world :=
  {| files := files w; history := history w;
     requests := (requests w ++ [r])%list; logged := logged w;
     daemon_stats := daemon_stats w |}.

Definition add_log (level msg : string) (w : world) : world :=
  {| files := files w; history := history w;
     requests := requests w; logged := (logged w ++ [(level, msg)])%list;
     daemon_stats := daemon_stats w |}.

Definition set_stats (s : stats) (w : world) : world :=
  {| files := files w; history := history w;
     requests := requests w; logged := logged w; daemon_stats := s |}.

(** State and exceptions. *)
Definition M (A : Type) : Type := world -> result A * world.

Definition ret {A} (a : A) : M A := fun w => (Ok a, w).
Definition raise {A} (e : pyexn) : M A := fun w => (Raise e, w).
Definition bind {A B} (m : M A) (f : A -> M B) : M B :=
  fun w => match m w with
           | (Ok a, w') => f a w'
           | (Raise e, w') => (Raise e, w')
           end.
(** [try: m except Exception as e: h e] *)
Definition try_except {A} (m : M A) (h : pyexn -> M A) : M A :=
  fun w => match m w with
           | (Ok a, w') => (Ok a, w')
           | (Raise e, w') => h e w'
           end.
Definition log (level msg : string) : M unit := fun w => (Ok tt, add_log level msg w).
Definition get_stats : M stats := fun w => (Ok (daemon_stats w), w).
Definition put_stats (s : stats) : M unit := fun w => (Ok tt, set_stats s w).
Definition lift {A} (r : result A) : M A := fun w => (r, w).

Notation "x <- m ;; f" := (bind m (fun x => f))
  (at level 100, m at next level, right associativity).
Notation "m ;;; f" := (bind m (fun _ => f))
  (at level 100, right associativity).

Fixpoint for_each {A} (l : list A) (body : A -> M unit) : M unit :=
  match l with
  | [] => ret tt
  | x :: t => body x ;;; for_each t body
  end.

(** ** The operating system, as far as one file write sees it *)

Inductive os_name : Type := posix | nt.

(** What the system does during one write of one file. *)
Record plan := {
  tmp_names : list string;      (* the random infixes mkstemp draws, in order *)
  mkstemp_error : bool;         (* the directory is missing or not writable *)
  write_error : option nat;     (* Some n: the write fails after n characters *)
  fsync_error : bool;
  rename_error : bool;
  unlink_error : bool;          (* unlink of the temporary file fails *)
  target_unlink_error : bool;   (* unlink of the target fails (nt only) *)
  open_error : bool;            (* open(filepath, 'w') fails *)
  copy_open_error : bool;       (* shutil.move, copying: an open fails *)
  copy_write_error : option nat;   (* ... the copy fails after n characters *)
  copystat_error : bool;        (* ... the copy of the metadata fails *)
  move_unlink_error : bool      (* ... the unlink of the source fails *)
}.

Definition no_faults (names : list string) : plan :=
  {| tmp_names := names; mkstemp_error := false; write_error := None;
     fsync_error := false; rename_error := false; unlink_error := false;
     target_unlink_error := false; open_error := false;
     copy_open_error := false; copy_write_error := None; copystat_error := false;
     move_unlink_error := false |}.

Module Os.

Definition tmp_path (filepath : path) (infix : string) : path :=
  Path (parent filepath) ("." +:+ name filepath +:+ "." +:+ infix +:+ ".tmp").

Fixpoint first_free (fs : gmap path string) (filepath : path) (names : list string)
  : option path :=
  match names with
  | [] => None
  | r :: rest =>
      match fs !! tmp_path filepath r with
      | None => Some (tmp_path filepath r)
      | Some _ => first_free fs filepath rest
      end
  end.

(** [tempfile.mkstemp(suffix='.tmp', prefix='.NAME.', dir=PARENT)]: an
    exclusive create under the first drawn name that is free. *)
Definition mkstemp (pl : plan) (filepath : path) : M path :=
  fun w =>
    if mkstemp_error pl then (Raise (OSError "mkstemp"), w)
    else match first_free (files w) filepath (tmp_names pl) with
         | None => (Raise FileExistsError, w)
         | Some tmp => (Ok tmp, set_files (Created tmp) (<[tmp := ""]> (files w)) w)
         end.

(** [f.write(content); f.flush()] on an open file: all of [content], or
    on an error the characters that got through. *)
Definition write_flush (pl : plan) (p : path) (content : string) : M unit :=
  fun w =>
    match write_error pl with
    | Some n =>
        let part := Re.take_str n content in
        (Raise (OSError "write"), set_files (Wrote p part) (<[p := part]> (files w)) w)
    | None => (Ok tt, set_files (Wrote p content) (<[p := content]> (files w)) w)
    end.

Definition fsync (pl : plan) (p : path) : M unit :=
  fun w =>
    if fsync_error pl then (Raise (OSError "fsync"), w)
    else (Ok tt, set_files (Synced p) (files w) w).

(** [os.rename(src, dst)] on a POSIX system: an existing [dst] is replaced. *)
Definition rename (pl : plan) (src dst : path) : M unit :=
  fun w =>
    if rename_error pl then (Raise (OSError "rename"), w)
    else match files w !! src with
         | None => (Raise (OSError "rename: no such file"), w)
         | Some c => (Ok tt, set_files (Renamed src dst)
                                (delete src (<[dst := c]> (files w))) w)
         end.

Definition unlink (fails : bool) (p : path) : M unit :=
  fun w =>
    if fails then (Raise (OSError "unlink"), w)
    else match files w !! p with
         | None => (Raise (OSError "unlink: no such file"), w)
         | Some _ => (Ok tt, set_files (Unlinked p) (delete p (files w)) w)
         end.

Definition exists_ (p : path) : M bool :=
  fun w => (Ok (bool_decide (is_Some (files w !! p))), w).

(** [open(filepath, 'w')]: creates or truncates. *)
Definition open_w (pl : plan) (p : path) : M unit :=
  fun w =>
    if open_error pl then (Raise (OSError "open"), w)
    else (Ok tt, set_files (Truncated p) (<[p := ""]> (files w)) w).

(** [os.rename(src, dst)] on Windows: it raises when [dst] exists. *)
Definition rename_nt (pl : plan) (src dst : path) : M unit :=
  fun w =>
    match files w !! dst with
    | Some _ => (Raise (OSError "rename: file exists"), w)
    | None => rename pl src dst w
    end.

(** [shutil.copy2(src, dst)] for a regular file and a [dst] that is not a
    directory: [dst] is opened for writing, which creates or truncates
    it, the content of [src] is written into it, all of it or on an error
    the characters that got through, and the metadata is copied. *)
Definition copy2 (pl : plan) (src dst : path) : M unit :=
  fun w =>
    match files w !! src with
    | None => (Raise (OSError "copy: no such file"), w)
    | Some c =>
        if copy_open_error pl then (Raise (OSError "copy: open"), w)
        else
          let w1 := set_files (Truncated dst) (<[dst := ""]> (files w)) w in
          match copy_write_error pl with
          | Some n =>
              let part := Re.take_str n c in
              (Raise (OSError "copy: write"),
               set_files (Wrote dst part) (<[dst := part]> (files w1)) w1)
          | None =>
              let w2 := set_files (Wrote dst c) (<[dst := c]> (files w1)) w1 in
              if copystat_error pl then (Raise (OSError "copystat"), w2) else (Ok tt, w2)
          end
    end.

(** [shutil.move(src, dst)] for a regular file and a [dst] that is not a
    directory, as the writers call it on Windows: [os.rename], and when
    that raises [OSError] the file is copied onto [dst] in place and the
    source is unlinked. *)
Definition move (pl : plan) (src dst : path) : M unit :=
  try_except (rename_nt pl src dst)
    (fun e =>
       match e with
       | OSError _ => copy2 pl src dst ;;; unlink (move_unlink_error pl) src
       | _ => raise e
       end).

End Os.

(** What [urlopen] ends with: the final response, with its status and
    reason phrase, or an exception raised on the way. *)
Inductive http_outcome : Type :=
| Responded (status : Z) (reason : string)
| Failed (e : pyexn).

(** Everything outside the program that a cycle depends on. *)
Record env := {
  platform : os_name;                    (* os.name *)
  plan_for : path -> plan;               (* faults while a file is written *)
  mkdir_error : string -> bool;          (* mkdir / makedirs of a directory fails *)
  url_refused : string -> option pyexn;  (* Request(): the checks of the host part raise *)
  urlopen : request -> http_outcome;     (* the remote end *)
  now : string;                          (* datetime.now().isoformat() *)
  running_at : nat -> bool;              (* self.running when device i is reached *)
  telemetry_of : string -> list (string * value)   (* what a node answers *)
}.

(** ** Paths built from text *)
Module PathLib.

(** Split at the last slash: [Some (before, after)], or [None] without one. *)
Fixpoint split_last (s : string) : option (string * string) :=
  match s with
  | EmptyString => None
  | String c t =>
      match split_last t with
      | Some (pre, last) => Some (String c pre, last)
      | None => if Ascii.eqb c "/"%char then Some ("", t) else None
      end
  end.

Definition is_absolute (s : string) : bool :=
  match s with String c _ => Ascii.eqb c "/"%char | EmptyString => false end.

(** [Path(d) / f]: [f] is appended to [d], unless [f] is absolute. *)
Definition join (d f : string) : path :=
  match split_last f with
  | None => Path d f
  | Some (pre, last) =>
      if is_absolute f then Path pre last else Path (d +:+ "/" +:+ pre) last
  end.

(** [os.path.dirname(s)] and the path of [s]. *)
Definition dirname (s : string) : string :=
  match split_last s with Some (pre, _) => pre | None => "" end.

Definition of_text (s : string) : path :=
  match split_last s with Some (pre, last) => Path pre last | None => Path "" s end.

End PathLib.

(** ** Atomic publication of one file *)
Module Atomic.

(** The statements of the [try] block of [write_output_atomic].  The
    middle component is the value of [temp_path] when the block is left:
    [None] before [mkstemp] returned and after the move, the temporary
    path in between. *)
Definition try_block (os : os_name) (pl : plan) (content : string) (filepath : path)
  : world -> result unit * option path * world :=
  fun w =>
    match Os.mkstemp pl filepath w with
    | (Raise e, w1) => (Raise e, None, w1)
    | (Ok tmp, w1) =>
        match (Os.write_flush pl tmp content ;;; Os.fsync pl tmp) w1 with
        | (Raise e, w2) => (Raise e, Some tmp, w2)
        | (Ok _, w2) =>
            match (match os with
                   | nt =>
                       present <- Os.exists_ filepath ;;
                       (if present then Os.unlink (target_unlink_error pl) filepath
                        else ret tt) ;;;
                       Os.move pl tmp filepath
                   | posix => Os.rename pl tmp filepath
                   end) w2 with
            | (Raise e, w3) => (Raise e, Some tmp, w3)
            | (Ok _, w3) => (Ok tt, None, w3)
            end
        end
    end.

(** The clean-up of the [except] block: the temporary file is unlinked when
    it is still there; a failure of that unlink is swallowed. *)
Definition cleanup (pl : plan) (temp_path : option path) : M unit :=
  match temp_path with
  | Some tmp =>
      present <- Os.exists_ tmp ;;
      if present
      then try_except (Os.unlink (unlink_error pl) tmp) (fun _ => ret tt)
      else ret tt
  | None => ret tt
  end.

End Atomic.

(** ** PrometheusFileWriter (prometheus_manager.py) *)
Module PrometheusFileWriter.

Record t := {
  output_dir : option string;
  atomic_writes : bool;
  individual_files : bool
}.

(** The constructor: an empty directory text means no directory. *)
Definition make (dir : string) (atomic individual : bool) : t :=
  {| output_dir := if Py.truthy dir then Some dir else None;
     atomic_writes := atomic; individual_files := individual |}.

Definition write_output_atomic (E : env) (content : string) (filepath : path) : M unit :=
  fun w =>
    let pl := plan_for E filepath in
    match Atomic.try_block (platform E) pl content filepath w with
    | (Ok _, _, w') => (Ok tt, w')
    | (Raise e, temp_path, w') =>
        (Atomic.cleanup pl temp_path ;;;
         raise (PyException ("Failed to write file atomically " +:+ path_text filepath
                             +:+ ": " +:+ exn_text e))) w'
    end.

(** [with open(filepath, 'w') as f: f.write(content)] *)
Definition write_plain (E : env) (content : string) (filepath : path) : M unit :=
  Os.open_w (plan_for E filepath) filepath ;;;
  Os.write_flush (plan_for E filepath) filepath content.

(** [node_outputs[node_id].append(line)], creating the entry when missing. *)
Fixpoint add_line (node_id line : string) (node_outputs : list (string * list string))
  : list (string * list string) :=
  match node_outputs with
  | [] => [(node_id, [line])]
  | (n, ls) :: rest =>
      if String.eqb n node_id then (n, (ls ++ [line])%list) :: rest
      else (n, ls) :: add_line node_id line rest
  end.

Definition group_by_node (all_output_lines : list string) : list (string * list string) :=
  fold_left
    (fun node_outputs line =>
       match Re.re_search Re.node_re line with
       | Some (node_id :: _) => add_line node_id line node_outputs
       | _ => node_outputs
       end)
    all_output_lines [].

Definition individual_filename (node_id : string) : string :=
  "meshtastic-" +:+ PrometheusFormatter.sanitize_filename node_id +:+ ".prom".

Definition file_content (lines : list string) : string :=
  Py.join (Py.str1 Py.nl) lines +:+ Py.str1 Py.nl.

Definition write_one (E : env) (self : t) (content : string) (filepath : path) : M unit :=
  if atomic_writes self then write_output_atomic E content filepath
  else write_plain E content filepath.

Definition _write_individual_files (E : env) (self : t) (dir : string)
    (all_output_lines : list string) : M bool :=
  for_each (group_by_node all_output_lines)
    (fun '(node_id, lines) =>
       try_except
         (write_one E self (file_content lines)
                    (PathLib.join dir (individual_filename node_id)))
         (fun e => raise (PyException ("Failed to write individual file for node "
                                       +:+ node_id +:+ ": " +:+ exn_text e)))) ;;;
  ret true.

Definition _write_single_file (E : env) (self : t) (dir : string)
    (all_output_lines : list string) : M bool :=
  try_except
    (write_one E self (file_content all_output_lines) (PathLib.join dir "meshtastic.prom") ;;;
     ret true)
    (fun e => raise (PyException ("Failed to write single metrics file: " +:+ exn_text e))).

Definition mkdir (E : env) (dir : string) : M unit :=
  if mkdir_error E dir then raise (OSError "mkdir") else ret tt.

Definition write_metrics_files (E : env) (self : t) (all_output_lines : list string) : M bool :=
  match output_dir self with
  | None => ret true
  | Some dir =>
      try_except
        (mkdir E dir ;;;
         if individual_files self
         then _write_individual_files E self dir all_output_lines
         else _write_single_file E self dir all_output_lines)
        (fun e => raise (PyException ("Failed to write metrics files: " +:+ exn_text e)))
  end.

(** The paths the per-device mode writes to, in order. *)
Definition individual_targets (dir : string) (all_output_lines : list string) : list path :=
  map (fun '(node_id, _) => PathLib.join dir (individual_filename node_id))
      (group_by_node all_output_lines).

End PrometheusFileWriter.

(** ** Push delivery *)
Module Url.

Definition is_unreserved (c : ascii) : bool :=
  let n := nat_of_ascii c in
  ((65 <=? n) && (n <=? 90) || (97 <=? n) && (n <=? 122) || (48 <=? n) && (n <=? 57))%nat
  || Py.mem_char c "_.-~".

Definition hex_digit (n : nat) : ascii :=
  match get n "0123456789ABCDEF" with Some c => c | None => "0"%char end.

(** [urllib.parse.quote(s)], with its default [safe='/']. *)
Fixpoint quote (s : string) : string :=
  match s with
  | EmptyString => EmptyString
  | String c t =>
      if is_unreserved c || Ascii.eqb c "/"%char then String c (quote t)
      else String "%"%char
             (String (hex_digit (nat_of_ascii c / 16))
                (String (hex_digit (nat_of_ascii c mod 16)) (quote t)))
  end.

(** [urllib.parse.unwrap(url)]: the text stripped, and taken out of
    angle brackets and of a leading [URL:]. *)
Definition unwrap (url : string) : string :=
  let url := Py.strip url in
  let url :=
    if Py.startswith "<" url
       && match Py.last_char url with Some c => Ascii.eqb c ">"%char | None => false end
    then Py.strip (Py.drop_last (substring 1 (String.length url) url))
    else url in
  match Py.drop_prefix "URL:" url with
  | Some rest => Py.strip rest
  | None => url
  end.

(** [urllib.parse._splittag(url)]: the text before the last [#], and the
    fragment after it. *)
Definition splittag (url : string) : string * option string :=
  match Py.rpartition "#"%char url with
  | Some (path, tag) => (path, Some tag)
  | None => (url, None)
  end.

(** The match of the type pattern at the start of the text (one or more
    characters other than slash and colon, then a colon): the run before
    the first colon, when it holds no slash, and the rest. *)
Fixpoint type_prefix (url : string) : option (string * string) :=
  match url with
  | EmptyString => None
  | String c t =>
      if Ascii.eqb c ":"%char then Some ("", t)
      else if Ascii.eqb c "/"%char then None
      else match type_prefix t with
           | Some (scheme, data) => Some (String c scheme, data)
           | None => None
           end
  end.

(** [urllib.parse._splittype(url)] *)
Definition splittype (url : string) : option string * string :=
  match type_prefix url with
  | Some (String c scheme, data) => (Some (Py.lower (String c scheme)), data)
  | _ => (None, url)
  end.

(** The [full_url] setter of [urllib.request.Request] with [_parse]: a
    URL without a type is refused with [ValueError]. *)
Definition unknown_type (url : string) : option pyexn :=
  let '(full, fragment) := splittag (unwrap url) in
  match fst (splittype full) with
  | Some _ => None
  | None =>
      let full_url :=
        match fragment with
        | Some tag => if Py.truthy tag then full +:+ "#" +:+ tag else full
        | None => full
        end in
      Some (ValueError ("unknown url type: " +:+ Py.repr full_url))
  end.

End Url.

Module PrometheusPushGateway.

Record t := {
  push_url : string;
  job_name : string;
  instance : string;
  timeout : Z
}.

Definition target_url (self : t) : string :=
  Py.join "/"
    ([Py.rstrip "/"%char (push_url self); "metrics"; "job"; Url.quote (job_name self)]
     ++ (if Py.truthy (instance self) then ["instance"; Url.quote (instance self)] else []))%list.

Definition payload (metrics_data : list string) : string :=
  Py.join (Py.str1 Py.nl) metrics_data +:+ Py.str1 Py.nl.

Definition build_request (self : t) (metrics_data : list string) : request :=
  {| req_url := target_url self;
     req_method := "POST";
     req_content_type := "text/plain; version=0.0.4; charset=utf-8";
     req_content_length := Py.str_int (Z.of_nat (String.length (payload metrics_data)));
     req_body := payload metrics_data |}.

(** [urllib.request.Request(push_url, ...)]: the exception it raises for
    a URL it does not accept, if any.  The check for the type of the URL
    is [Url.unknown_type]; the checks of the host part that follow are the
    environment's. *)
Definition request_error (E : env) (req : request) : option pyexn :=
  match Url.unknown_type (req_url req) with
  | Some e => Some e
  | None => url_refused E (req_url req)
  end.

(** [urllib.request.urlopen(req, timeout=...)]: the request goes out; a
    final response with a status from 200 to 299 is returned, any other
    is raised as [HTTPError] by the opener, and an exception on the way
    is raised as it is. *)
Definition urlopen_request (E : env) (req : request) : M Z :=
  fun w =>
    match urlopen E req with
    | Responded status reason =>
        if (200 <=? status) && (status <? 300) then (Ok status, add_request req w)
        else (Raise (HTTPError status reason), add_request req w)
    | Failed e => (Raise e, add_request req w)
    end.

(** The two statements that build and send the request: nothing is sent
    when [Request] raises. *)
Definition send (E : env) (req : request) : M Z :=
  match request_error E req with
  | Some e => raise e
  | None => urlopen_request E req
  end.

Definition push_metrics (E : env) (self : t) (metrics_data : list string)
  : M (bool * string) :=
  if negb (Py.truthy (push_url self)) then ret (true, "")
  else
    try_except
      (status <- send E (build_request self metrics_data) ;;
       if status =? 200 then ret (true, "")
       else ret (false, "Push gateway returned status " +:+ Py.str_int status))
      (fun e =>
         if is_URLError e
         then ret (false, "Failed to push metrics to " +:+ push_url self +:+ ": " +:+ exn_text e)
         else ret (false, "Unexpected error pushing metrics: " +:+ exn_text e)).

End PrometheusPushGateway.

(** ** Bytes: Python's [bytes] objects *)
Module Bytes.
Local Open Scope list_scope.

Definition bytes : Type := list byte.

(** The low eight bits of a number, as a byte. *)
Definition of_N (n : N) : byte :=
  match Byte.of_N (N.land n 255) with Some b => b | None => x00 end.

(** Text is held as its UTF-8 encoding, one character per byte:
    [s.encode()] and the reading of a file in binary mode. *)
Definition of_string (s : string) : bytes := map byte_of_ascii (list_ascii_of_string s).
Definition to_string (bs : bytes) : string := string_of_list_ascii (map ascii_of_byte bs).

Definition bits8 : Type := bool * (bool * (bool * (bool * (bool * (bool * (bool * bool)))))).

Definition xor8 (a b : bits8) : bits8 :=
  let '(a0, (a1, (a2, (a3, (a4, (a5, (a6, a7))))))) := a in
  let '(b0, (b1, (b2, (b3, (b4, (b5, (b6, b7))))))) := b in
  (xorb a0 b0, (xorb a1 b1, (xorb a2 b2, (xorb a3 b3,
   (xorb a4 b4, (xorb a5 b5, (xorb a6 b6, xorb a7 b7))))))).

Definition bxor (a b : byte) : byte :=
  Byte.of_bits (xor8 (Byte.to_bits a) (Byte.to_bits b)).

(** Byte-wise xor of [s] with [k]; where [k] is shorter, [s] is kept. *)
Fixpoint xor_bytes (s k : bytes) : bytes :=
  match s, k with
  | a :: s', b :: k' => bxor a b :: xor_bytes s' k'
  | _, _ => s
  end.

(** [bs.startswith(prefix)] *)
Fixpoint startswith (prefix bs : bytes) : bool :=
  match prefix, bs with
  | [], _ => true
  | p :: prefix', b :: bs' => Byte.eqb p b && startswith prefix' bs'
  | _ :: _, [] => false
  end.

(** [bs[i:j]] and [bs[i:]] for indices that are not negative. *)
Definition slice (i j : nat) (bs : bytes) : bytes := firstn (j - i) (skipn i bs).
Definition slice_from (i : nat) (bs : bytes) : bytes := skipn i bs.

(** [bs[-1]]: the last byte, when there is one. *)
Definition last_byte (bs : bytes) : option byte := List.last (map Some bs) None.

(** [bs[:-n]] for [n >= 0]: the stop index [-n] counts from the end and is
    clipped at the start; [-0] is [0], so [bs[:-0]] is empty. *)
Definition slice_to_minus (n : nat) (bs : bytes) : bytes :=
  match n with
  | O => []
  | S _ => firstn (List.length bs - n) bs
  end.

End Bytes.

(** ** Base64

    [b64decode] is [base64.b64decode(s)] with its default [validate=False],
    which is [binascii.a2b_base64(s)] in its lenient mode (CPython 3.11 and
    later): a character outside the alphabet is skipped, a pad that
    completes a quad ends the decoding, and data that stops inside a quad
    raises [binascii.Error]. *)
Module Base64.
Import Bytes.
Local Open Scope list_scope.

(** Six bits, most significant first. *)
Definition sextet : Type := bool * bool * bool * bool * bool * bool.

Definition sextet_value (s : sextet) : N :=
  let '(s5, s4, s3, s2, s1, s0) := s in
  (N.b2n s5 * 32 + N.b2n s4 * 16 + N.b2n s3 * 8 + N.b2n s2 * 4 + N.b2n s1 * 2 + N.b2n s0)%N.

Definition sextet_of_value (n : N) : sextet :=
  (N.testbit n 5, N.testbit n 4, N.testbit n 3, N.testbit n 2, N.testbit n 1, N.testbit n 0).

(** The alphabet: A-Z, a-z, 0-9, plus and slash. *)
Definition alphabet (s : sextet) : byte :=
  let v := sextet_value s in
  if (v <? 26)%N then of_N (65 + v)
  else if (v <? 52)%N then of_N (97 + (v - 26))
  else if (v <? 62)%N then of_N (48 + (v - 52))
  else if (v =? 62)%N then of_N 43 else of_N 47.

(** [table_a2b_base64]: the value of a character of the alphabet. *)
Definition table_a2b (c : byte) : option sextet :=
  let n := Byte.to_N c in
  if ((65 <=? n) && (n <=? 90))%N then Some (sextet_of_value (n - 65))
  else if ((97 <=? n) && (n <=? 122))%N then Some (sextet_of_value (n - 97 + 26))
  else if ((48 <=? n) && (n <=? 57))%N then Some (sextet_of_value (n - 48 + 52))
  else if (n =? 43)%N then Some (sextet_of_value 62)
  else if (n =? 47)%N then Some (sextet_of_value 63)
  else None.

Definition pad_char : byte := of_N 61.

(** Where the decoder stands in a quad, with the bits left over from the
    last character ([quad_pos] and [leftchar]). *)
Inductive quad : Type :=
| Q0
| Q1 (c0 : sextet)
| Q2 (l3 l2 l1 l0 : bool)
| Q3 (l1 l0 : bool).

Definition quad_pos (q : quad) : nat :=
  match q with Q0 => 0 | Q1 _ => 1 | Q2 _ _ _ _ => 2 | Q3 _ _ => 3 end.

(** One character of the alphabet: the next state and the byte that is
    complete, if one is. *)
Definition feed (q : quad) (c : sextet) : quad * option byte :=
  let '(c5, c4, c3, c2, c1, c0) := c in
  match q with
  | Q0 => (Q1 c, None)
  | Q1 (p5, p4, p3, p2, p1, p0) =>
      (Q2 c3 c2 c1 c0, Some (Byte.of_bits (c4, (c5, (p0, (p1, (p2, (p3, (p4, p5)))))))))
  | Q2 l3 l2 l1 l0 =>
      (Q3 c1 c0, Some (Byte.of_bits (c2, (c3, (c4, (c5, (l0, (l1, (l2, l3)))))))))
  | Q3 l1 l0 =>
      (Q0, Some (Byte.of_bits (c0, (c1, (c2, (c3, (c4, (c5, (l0, l1)))))))))
  end.

Fixpoint a2b_base64 (data : bytes) (q : quad) (pads : nat) (out : bytes) : result bytes :=
  match data with
  | [] =>
      match q with
      | Q0 => Ok out
      | Q1 _ => Raise (BinasciiError "Invalid base64-encoded string")
      | _ => Raise (BinasciiError "Incorrect padding")
      end
  | c :: rest =>
      if Byte.eqb c pad_char then
        if (2 <=? quad_pos q)%nat then
          if (4 <=? quad_pos q + S pads)%nat then Ok out
          else a2b_base64 rest q (S pads) out
        else a2b_base64 rest q pads out
      else
        match table_a2b c with
        | None => a2b_base64 rest q pads out
        | Some v =>
            let '(q', b) := feed q v in
            a2b_base64 rest q' 0 (match b with Some b => out ++ [b] | None => out end)%list
        end
  end.

Definition b64decode (s : bytes) : result bytes := a2b_base64 s Q0 0 [].

(** The four characters of three bytes. *)
Definition encode3 (x y z : byte) : bytes :=
  let '(x0, (x1, (x2, (x3, (x4, (x5, (x6, x7))))))) := Byte.to_bits x in
  let '(y0, (y1, (y2, (y3, (y4, (y5, (y6, y7))))))) := Byte.to_bits y in
  let '(z0, (z1, (z2, (z3, (z4, (z5, (z6, z7))))))) := Byte.to_bits z in
  [alphabet (x7, x6, x5, x4, x3, x2); alphabet (x1, x0, y7, y6, y5, y4);
   alphabet (y3, y2, y1, y0, z7, z6); alphabet (z5, z4, z3, z2, z1, z0)].

(** [base64.b64encode(s)]: three bytes give four characters, and a last
    group of one or two bytes is padded. *)
Fixpoint b64encode (s : bytes) : bytes :=
  match s with
  | x :: y :: z :: rest => (encode3 x y z ++ b64encode rest)%list
  | [x; y] => (firstn 3 (encode3 x y x00) ++ [pad_char])%list
  | [x] => (firstn 2 (encode3 x x00 x00) ++ [pad_char; pad_char])%list
  | [] => []
  end.

End Base64.

(** ** UTF-8: [bs.decode('utf-8')] *)
Module Utf8.
Import Bytes.
Local Open Scope list_scope.

Definition between (lo hi : N) (b : byte) : bool :=
  ((lo <=? Byte.to_N b) && (Byte.to_N b <=? hi))%N.

Definition cont : byte -> bool := between 0x80 0xbf.

(** Well-formed byte sequences (Unicode, table 3-7): no overlong form, no
    surrogate, nothing above U+10FFFF. *)
Fixpoint valid (bs : bytes) : bool :=
  match bs with
  | [] => true
  | a :: rest =>
      if between 0x00 0x7f a then valid rest
      else if between 0xc2 0xdf a then
        match rest with
        | b :: rest' => cont b && valid rest'
        | _ => false
        end
      else if between 0xe0 0xef a then
        match rest with
        | b :: c :: rest' =>
            (if between 0xe0 0xe0 a then between 0xa0 0xbf b
             else if between 0xed 0xed a then between 0x80 0x9f b
             else cont b)
            && cont c && valid rest'
        | _ => false
        end
      else if between 0xf0 0xf4 a then
        match rest with
        | b :: c :: d :: rest' =>
            (if between 0xf0 0xf0 a then between 0x90 0xbf b
             else if between 0xf4 0xf4 a then between 0x80 0x8f b
             else cont b)
            && cont c && cont d && valid rest'
        | _ => false
        end
      else false
  end.

Definition decode (bs : bytes) : result string :=
  if valid bs then Ok (to_string bs) else Raise UnicodeDecodeError.

End Utf8.

(** ** SHA-256 (FIPS 180-4)

    The 32-bit words are held in 63-bit machine integers, with the
    wrap-around written as a mask, so that a key derivation of a thousand
    rounds can be evaluated. *)
Module Sha256.
Import Bytes.
Local Open Scope list_scope.
Local Open Scope uint63_scope.

Definition word : Type := PrimInt63.int.
Definition mask32 : word := 0xffffffff%uint63.
Definition add32 (a b : word) : word := PrimInt63.land (PrimInt63.add a b) mask32.
Definition rotr (n x : word) : word :=
  PrimInt63.lor (PrimInt63.lsr x n)
                (PrimInt63.land (PrimInt63.lsl x (PrimInt63.sub 32%uint63 n)) mask32).
Definition xor3 (a b c : word) : word := PrimInt63.lxor (PrimInt63.lxor a b) c.

Definition Sigma0 x := xor3 (rotr 2 x) (rotr 13 x) (rotr 22 x).
Definition Sigma1 x := xor3 (rotr 6 x) (rotr 11 x) (rotr 25 x).
Definition sigma0 x := xor3 (rotr 7 x) (rotr 18 x) (PrimInt63.lsr x 3).
Definition sigma1 x := xor3 (rotr 17 x) (rotr 19 x) (PrimInt63.lsr x 10).
Definition Ch e f g :=
  PrimInt63.lxor (PrimInt63.land e f) (PrimInt63.land (PrimInt63.lxor e mask32) g).
Definition Maj a b c :=
  xor3 (PrimInt63.land a b) (PrimInt63.land a c) (PrimInt63.land b c).

(** The constants are the first 32 bits of the fractional parts of the
    cube roots (for [K]) and of the square roots (for [H0]) of the first
    primes; they are computed from that definition. *)
Fixpoint first_primes (fuel : nat) (count : nat) (candidate : Z) (found : list Z) : list Z :=
  match fuel, count with
  | S fuel', S count' =>
      if forallb (fun p => negb (Z.eqb (Z.modulo candidate p) 0)) found
      then first_primes fuel' count' (candidate + 1) (found ++ [candidate])
      else first_primes fuel' count (candidate + 1) found
  | _, _ => found
  end.

(** The integer cube root, by bisection between [lo] and [hi]. *)
Fixpoint cube_root (fuel : nat) (n lo hi : Z) : Z :=
  match fuel with
  | O => lo
  | S fuel' =>
      let mid := Z.div (lo + hi + 1) 2 in
      if Z.leb (mid * mid * mid) n then cube_root fuel' n mid hi
      else cube_root fuel' n lo (mid - 1)
  end.

Definition fraction_of_cube_root (p : Z) : word :=
  Uint63.of_Z (Z.modulo (cube_root 40 (p * Z.pow 2 96) 0 (Z.pow 2 36)) (Z.pow 2 32)).

Definition fraction_of_square_root (p : Z) : word :=
  Uint63.of_Z (Z.modulo (Z.sqrt (p * Z.pow 2 64)) (Z.pow 2 32)).

Definition K : list word :=
  Eval vm_compute in map fraction_of_cube_root (first_primes 400 64 2%Z []).

Definition H0 : list word :=
  Eval vm_compute in map fraction_of_square_root (first_primes 400 8 2%Z []).

(** The words W16 .. W63 from the window of the last sixteen words (oldest first). *)
Fixpoint schedule (n : nat) (win : list word) : list word :=
  match n, win with
  | S n', w16 :: rest =>
      let w := add32 (add32 (sigma1 (nth 13 rest 0%uint63)) (nth 8 rest 0%uint63))
                     (add32 (sigma0 (nth 0 rest 0%uint63)) w16) in
      w :: schedule n' (rest ++ [w])
  | _, _ => []
  end.

Definition round (s : list word) (kw : word * word) : list word :=
  match s with
  | [a; b; c; d; e; f; g; h] =>
      let t1 := add32 (add32 (add32 h (Sigma1 e)) (add32 (Ch e f g) (fst kw))) (snd kw) in
      let t2 := add32 (Sigma0 a) (Maj a b c) in
      [add32 t1 t2; a; b; c; add32 d t1; e; f; g]
  | _ => s
  end.

Fixpoint zip {A B} (l : list A) (m : list B) : list (A * B) :=
  match l, m with
  | a :: l', b :: m' => (a, b) :: zip l' m'
  | _, _ => []
  end.

(** One block of sixteen words. *)
Definition compress (h : list word) (block : list word) : list word :=
  map (fun p => add32 (fst p) (snd p))
      (zip h (fold_left round (zip K (block ++ schedule 48 block)) h)).

Definition word_of_byte (b : byte) : word := Uint63.of_Z (Z.of_N (Byte.to_N b)).
Definition byte_of_word (w : word) : byte :=
  of_N (Z.to_N (Uint63.to_Z (PrimInt63.land w 255%uint63))).

Definition word_of_bytes (b3 b2 b1 b0 : byte) : word :=
  PrimInt63.lor (PrimInt63.lsl (word_of_byte b3) 24)
    (PrimInt63.lor (PrimInt63.lsl (word_of_byte b2) 16)
       (PrimInt63.lor (PrimInt63.lsl (word_of_byte b1) 8) (word_of_byte b0))).

Fixpoint words (bs : bytes) : list word :=
  match bs with
  | b3 :: b2 :: b1 :: b0 :: rest => word_of_bytes b3 b2 b1 b0 :: words rest
  | _ => []
  end.

Definition bytes_of_word (w : word) : bytes :=
  [byte_of_word (PrimInt63.lsr w 24); byte_of_word (PrimInt63.lsr w 16);
   byte_of_word (PrimInt63.lsr w 8); byte_of_word w].

(** The message followed by 0x80, zeros and its bit length in 64 bits. *)
Definition pad (msg : bytes) : bytes :=
  let len := List.length msg in
  let zeros := Nat.modulo (119 - Nat.modulo len 64) 64 in
  let bits := Uint63.of_Z (Z.of_nat (len * 8)) in
  msg ++ [x80] ++ repeat x00 zeros
      ++ bytes_of_word (PrimInt63.lsr bits 32)
      ++ bytes_of_word (PrimInt63.land bits mask32).

Fixpoint blocks (n : nat) (h : list word) (ws : list word) : list word :=
  match n with
  | O => h
  | S n' => blocks n' (compress h (firstn 16 ws)) (skipn 16 ws)
  end.

Definition sha256 (msg : bytes) : bytes :=
  let ws := words (pad msg) in
  flat_map bytes_of_word (blocks (Nat.div (List.length ws) 16) H0 ws).

End Sha256.

(** ** HMAC-SHA256 (RFC 2104) and PBKDF2 (RFC 8018) *)
Module Hmac.
Import Bytes.
Local Open Scope list_scope.

Definition block_key (key : bytes) : bytes :=
  let k := if Nat.ltb 64 (List.length key) then Sha256.sha256 key else key in
  k ++ repeat x00 (64 - List.length k).

Definition hmac (key msg : bytes) : bytes :=
  let k := block_key key in
  Sha256.sha256 (map (bxor x5c) k ++ Sha256.sha256 (map (bxor x36) k ++ msg)).

End Hmac.

Module Pbkdf2.
Import Bytes.
Local Open Scope list_scope.

(** U_1 xor ... xor U_c, from U_j and the sum so far. *)
Fixpoint iterate (password : bytes) (c : nat) (u acc : bytes) : bytes :=
  match c with
  | O => acc
  | S c' =>
      let u' := Hmac.hmac password u in
      iterate password c' u' (xor_bytes acc u')
  end.

Definition F (password salt : bytes) (iterations : nat) (i : N) : bytes :=
  let u1 := Hmac.hmac password (salt ++ Sha256.bytes_of_word (Uint63.of_Z (Z.of_N i))) in
  iterate password (iterations - 1) u1 u1.

Fixpoint derive_blocks (password salt : bytes) (iterations : nat) (n : nat) (i : N) : bytes :=
  match n with
  | O => []
  | S n' => F password salt iterations i ++ derive_blocks password salt iterations n' (N.succ i)
  end.

(** [PBKDF2HMAC(SHA256, length, salt, iterations).derive(password)] *)
Definition derive (length iterations : nat) (salt password : bytes) : bytes :=
  firstn length (derive_blocks password salt iterations (Nat.div (length + 31) 32) 1%N).

End Pbkdf2.

(** ** AES-256 (FIPS 197) and the CBC mode *)
Module Aes.
Import Bytes.
Local Open Scope list_scope.

(** Multiplication by x in GF(2^8) modulo x^8 + x^4 + x^3 + x + 1. *)
Definition xtime (b : byte) : byte :=
  let '(b0, (b1, (b2, (b3, (b4, (b5, (b6, b7))))))) := Byte.to_bits b in
  Byte.of_bits (b7, (xorb b0 b7, (b1, (xorb b2 b7, (xorb b3 b7, (b4, (b5, b6))))))).

Definition mul2 (b : byte) : byte := xtime b.
Definition mul3 (b : byte) : byte := bxor (xtime b) b.
Definition mul9 (b : byte) : byte := bxor (xtime (xtime (xtime b))) b.
Definition mul11 (b : byte) : byte := bxor (bxor (xtime (xtime (xtime b))) (xtime b)) b.
Definition mul13 (b : byte) : byte := bxor (bxor (xtime (xtime (xtime b))) (xtime (xtime b))) b.
Definition mul14 (b : byte) : byte :=
  bxor (bxor (xtime (xtime (xtime b))) (xtime (xtime b))) (xtime b).

(** The product in GF(2^8), by shift and add over the bits of [b]. *)
Definition gmul (a b : byte) : byte :=
  let '(b0, (b1, (b2, (b3, (b4, (b5, (b6, b7))))))) := Byte.to_bits b in
  let step (bit : bool) (acc_a : byte * byte) : byte * byte :=
    (if bit then bxor (fst acc_a) (snd acc_a) else fst acc_a, xtime (snd acc_a)) in
  fst (step b7 (step b6 (step b5 (step b4 (step b3 (step b2 (step b1 (step b0 (x00, a))))))))).

(** The multiplicative inverse, as the 254th power (zero is sent to zero). *)
Definition ginv (a : byte) : byte :=
  let a2 := gmul a a in let a4 := gmul a2 a2 in let a8 := gmul a4 a4 in
  let a16 := gmul a8 a8 in let a32 := gmul a16 a16 in let a64 := gmul a32 a32 in
  let a128 := gmul a64 a64 in
  gmul a128 (gmul a64 (gmul a32 (gmul a16 (gmul a8 (gmul a4 a2))))).

(** The affine map of the S-box. *)
Definition affine (b : byte) : byte :=
  let '(b0, (b1, (b2, (b3, (b4, (b5, (b6, b7))))))) := Byte.to_bits b in
  let x a c d e f := xorb a (xorb c (xorb d (xorb e f))) in
  bxor x63
    (Byte.of_bits (x b0 b4 b5 b6 b7, (x b1 b5 b6 b7 b0, (x b2 b6 b7 b0 b1, (x b3 b7 b0 b1 b2,
                  (x b4 b0 b1 b2 b3, (x b5 b1 b2 b3 b4, (x b6 b2 b3 b4 b5,
                   x b7 b3 b4 b5 b6)))))))).

Definition all_bytes : bytes :=
  Eval vm_compute in
    map (fun n => Bytes.of_N (N.of_nat n)) (seq 0 256).

Definition index (b : byte) : nat := N.to_nat (Byte.to_N b).

Definition sbox_table : bytes :=
  Eval vm_compute in map (fun b => affine (ginv b)) all_bytes.

Definition sbox (b : byte) : byte := nth (index b) sbox_table x00.

Definition inv_sbox_table : bytes :=
  Eval vm_compute in
    map (fun c => hd x00 (List.filter (fun b => Byte.eqb (sbox b) c) all_bytes)) all_bytes.

Definition inv_sbox (b : byte) : byte := nth (index b) inv_sbox_table x00.

Definition sub_bytes (s : bytes) : bytes := map sbox s.
Definition inv_sub_bytes (s : bytes) : bytes := map inv_sbox s.

(** The state is held column by column, as the sixteen bytes come in. *)
Definition shift_rows (s : bytes) : bytes :=
  match s with
  | [s0; s1; s2; s3; s4; s5; s6; s7; s8; s9; s10; s11; s12; s13; s14; s15] =>
      [s0; s5; s10; s15; s4; s9; s14; s3; s8; s13; s2; s7; s12; s1; s6; s11]
  | _ => s
  end.

Definition inv_shift_rows (s : bytes) : bytes :=
  match s with
  | [s0; s1; s2; s3; s4; s5; s6; s7; s8; s9; s10; s11; s12; s13; s14; s15] =>
      [s0; s13; s10; s7; s4; s1; s14; s11; s8; s5; s2; s15; s12; s9; s6; s3]
  | _ => s
  end.

Definition xor4 (a b c d : byte) : byte := bxor (bxor a b) (bxor c d).

Fixpoint mix_columns (s : bytes) : bytes :=
  match s with
  | a0 :: a1 :: a2 :: a3 :: rest =>
      xor4 (mul2 a0) (mul3 a1) a2 a3
      :: xor4 a0 (mul2 a1) (mul3 a2) a3
      :: xor4 a0 a1 (mul2 a2) (mul3 a3)
      :: xor4 (mul3 a0) a1 a2 (mul2 a3)
      :: mix_columns rest
  | _ => s
  end.

Fixpoint inv_mix_columns (s : bytes) : bytes :=
  match s with
  | a0 :: a1 :: a2 :: a3 :: rest =>
      xor4 (mul14 a0) (mul11 a1) (mul13 a2) (mul9 a3)
      :: xor4 (mul9 a0) (mul14 a1) (mul11 a2) (mul13 a3)
      :: xor4 (mul13 a0) (mul9 a1) (mul14 a2) (mul11 a3)
      :: xor4 (mul11 a0) (mul13 a1) (mul9 a2) (mul14 a3)
      :: inv_mix_columns rest
  | _ => s
  end.

Definition add_round_key (k s : bytes) : bytes := xor_bytes s k.

(** *** Key expansion for a 32-byte key: fifteen round keys *)
Definition sub_word (w : bytes) : bytes := map sbox w.
Definition rot_word (w : bytes) : bytes :=
  match w with a :: rest => rest ++ [a] | [] => [] end.

(** The words after the first eight; [prev8] holds the last eight words,
    oldest first, [i] is the index of the next word and [rc] the round
    constant in use. *)
Fixpoint expand (n : nat) (i : nat) (rc : byte) (prev8 : list bytes) : list bytes :=
  match n, prev8 with
  | S n', w8 :: rest =>
      let last := nth 6 rest [] in
      let '(temp, rc') :=
        if Nat.eqb (Nat.modulo i 8) 0
        then (xor_bytes (sub_word (rot_word last)) [rc], xtime rc)
        else if Nat.eqb (Nat.modulo i 8) 4 then (sub_word last, rc)
        else (last, rc) in
      let w := xor_bytes w8 temp in
      w :: expand n' (S i) rc' (rest ++ [w])
  | _, _ => []
  end.

Fixpoint chunks {A} (n : nat) (size : nat) (bs : list A) : list (list A) :=
  match n with
  | O => []
  | S n' => firstn size bs :: chunks n' size (skipn size bs)
  end.

Definition round_keys (key : bytes) : list bytes :=
  let w := chunks 8 4 key in
  map (fun c => List.concat c) (chunks 15 4 (w ++ expand 52 8 x01 w)).

(** *** The cipher and its inverse on one block *)
Definition enc_round (s k : bytes) : bytes :=
  add_round_key k (mix_columns (shift_rows (sub_bytes s))).
Definition dec_round (s k : bytes) : bytes :=
  inv_sub_bytes (inv_shift_rows (inv_mix_columns (add_round_key k s))).

Definition encrypt_with (keys : list bytes) (block : bytes) : bytes :=
  match keys with
  | k0 :: rest =>
      let s := fold_left enc_round (removelast rest) (add_round_key k0 block) in
      add_round_key (List.last rest []) (shift_rows (sub_bytes s))
  | [] => block
  end.

Definition decrypt_with (keys : list bytes) (block : bytes) : bytes :=
  match keys with
  | k0 :: rest =>
      let s := inv_sub_bytes (inv_shift_rows (add_round_key (List.last rest []) block)) in
      add_round_key k0 (fold_left dec_round (rev (removelast rest)) s)
  | [] => block
  end.

Definition encrypt_block (key block : bytes) : bytes := encrypt_with (round_keys key) block.
Definition decrypt_block (key block : bytes) : bytes := decrypt_with (round_keys key) block.

End Aes.

(** The CBC mode over AES-256. *)
Module Cbc.
Import Bytes.
Local Open Scope list_scope.

Fixpoint encrypt_blocks (n : nat) (keys : list bytes) (prev data : bytes) : bytes :=
  match n with
  | O => []
  | S n' =>
      let c := Aes.encrypt_with keys (xor_bytes (firstn 16 data) prev) in
      (c ++ encrypt_blocks n' keys c (skipn 16 data))%list
  end.

Fixpoint decrypt_blocks (n : nat) (keys : list bytes) (prev data : bytes) : bytes :=
  match n with
  | O => []
  | S n' =>
      let c := firstn 16 data in
      (xor_bytes (Aes.decrypt_with keys c) prev
       ++ decrypt_blocks n' keys c (skipn 16 data))%list
  end.

(** [encryptor.update(data) + encryptor.finalize()] on whole blocks. *)
Definition encrypt (key iv data : bytes) : bytes :=
  encrypt_blocks (Nat.div (List.length data) 16) (Aes.round_keys key) iv data.

(** [decryptor.update(data) + decryptor.finalize()]: [finalize] raises
    [ValueError] when the data is not a whole number of blocks. *)
Definition decrypt (key iv data : bytes) : result bytes :=
  if Nat.eqb (Nat.modulo (List.length data) 16) 0
  then Ok (decrypt_blocks (Nat.div (List.length data) 16) (Aes.round_keys key) iv data)
  else Raise (ValueError
    "The length of the provided data is not a multiple of the block length.").

End Cbc.


(** ** The daemon (meshmetricsd.py) *)
Module Daemon.

Definition VERSION : string := "MTM-v0.98-Daemon".

(** *** The encrypted device file (lines 364 to 416) *)

(** [open(filepath, 'rb').read()] *)
Definition read_bytes (filepath : path) : M Bytes.bytes :=
  fun w =>
    match files w !! filepath with
    | Some content => (Ok (Bytes.of_string content), w)
    | None => (Raise (OSError "No such file or directory"), w)
    end.

(** [open(filepath, 'r').read()], for a locale whose encoding is UTF-8. *)
Definition read_text (filepath : path) : M string :=
  fun w =>
    match files w !! filepath with
    | Some content =>
        (rbind (Utf8.decode (Bytes.of_string content))
               (fun text => Ok (Py.universal_newlines text)), w)
    | None => (Raise (OSError "No such file or directory"), w)
    end.

(** Lines 372 to 376: the base64 layer is taken off when the decoder
    accepts the data; any exception leaves the data as read. *)
Definition unwrap_base64 (encrypted_data : Bytes.bytes) : Bytes.bytes :=
  match Base64.b64decode encrypted_data with
  | Ok decoded => decoded
  | Raise _ => encrypted_data
  end.

(** Lines 378 to 383: the salt and the cipher text. *)
Definition split_salt (encrypted_data : Bytes.bytes) : Bytes.bytes * Bytes.bytes :=
  if Bytes.startswith (Bytes.of_string "Salted__") encrypted_data
  then (Bytes.slice 8 16 encrypted_data, Bytes.slice_from 16 encrypted_data)
  else (Bytes.of_string "12345678", encrypted_data).

(** Lines 385 to 393: 48 bytes from a thousand rounds of PBKDF2-HMAC-SHA256. *)
Definition derive_key_iv (salt : Bytes.bytes) (password : string) : Bytes.bytes :=
  Pbkdf2.derive 48 1000 salt (Bytes.of_string password).

(** Lines 394 to 406: AES-256-CBC, the last byte taken as the padding
    length and that many bytes sliced off, and the rest decoded. *)
Definition decrypt_payload (key_iv encrypted_data : Bytes.bytes) : result string :=
  let key := Bytes.slice 0 32 key_iv in
  let iv := Bytes.slice 32 48 key_iv in
  rbind (Cbc.decrypt key iv encrypted_data) (fun decrypted_data =>
  match Bytes.last_byte decrypted_data with
  | None => Raise (IndexError "index out of range")
  | Some padding_length =>
      Utf8.decode (Bytes.slice_to_minus (N.to_nat (Byte.to_N padding_length)) decrypted_data)
  end).

Definition decrypt_bytes (encrypted_data : Bytes.bytes) (password : string) : result string :=
  let '(salt, encrypted_data) := split_salt (unwrap_base64 encrypted_data) in
  decrypt_payload (derive_key_iv salt password) encrypted_data.

Definition decrypt_device_file (crypto_available : bool) (filepath : path)
    (password : string) : M string :=
  if negb crypto_available
  then raise (ImportError "cryptography package required for decryption")
  else
    encrypted_data <- read_bytes filepath ;;
    lift (decrypt_bytes encrypted_data password).

(** Lines 412 to 416 of [parse_device_file]: the text that is then split
    into lines and read as CSV.  A password that is [None] or empty means
    that the file is read as it is. *)
Definition device_file_content (crypto_available : bool) (filepath : path)
    (password : option string) : M string :=
  match password with
  | Some p =>
      if Py.truthy p then decrypt_device_file crypto_available filepath p
      else read_text filepath
  | None => read_text filepath
  end.

(** What a module-level name of meshmetricsd.py is bound to. *)
Inductive pyobj : Type :=
| ObjStr (s : string)
| ObjBool (b : bool)
| ObjModule
| ObjClass
| ObjFunction.

(** The names bound at module level: the imports, the two constants, the
    three classes and [main]. *)
Definition module_globals : gmap string pyobj :=
  list_to_map
    ([("argparse", ObjModule); ("csv", ObjModule); ("os", ObjModule); ("pwd", ObjModule);
      ("grp", ObjModule); ("re", ObjModule); ("sys", ObjModule); ("time", ObjModule);
      ("signal", ObjModule); ("logging", ObjModule); ("configparser", ObjModule);
      ("threading", ObjModule); ("itertools", ObjModule); ("getpass", ObjModule);
      ("json", ObjModule); ("tempfile", ObjModule); ("shutil", ObjModule);
      ("urllib", ObjModule); ("Path", ObjClass); ("List", ObjClass); ("Dict", ObjClass);
      ("Optional", ObjClass); ("Tuple", ObjClass); ("datetime", ObjClass);
      ("meshtastic", ObjModule); ("portnums_pb2", ObjModule); ("telemetry_pb2", ObjModule);
      ("Cipher", ObjClass); ("algorithms", ObjModule); ("modes", ObjModule);
      ("PBKDF2HMAC", ObjClass); ("hashes", ObjModule); ("default_backend", ObjFunction);
      ("base64", ObjModule); ("CRYPTO_AVAILABLE", ObjBool true);
      ("VERSION", ObjStr VERSION); ("DaemonConfig", ObjClass);
      ("PrometheusExporter", ObjClass); ("MeshtasticTelemetryDaemon", ObjClass);
      ("main", ObjFunction)])%list.

(** A name that no statement of the function assigns is looked up in the
    module's globals; unbound there, the lookup raises [NameError]. *)
Definition load_global (globals : gmap string pyobj) (x : string) : result pyobj :=
  match globals !! x with
  | Some o => Ok o
  | None => Raise (NameError x)
  end.

(** [f'{o}'] *)
Definition obj_text (o : pyobj) : string :=
  match o with
  | ObjStr s => s
  | ObjBool true => "True"
  | ObjBool false => "False"
  | ObjModule => "<module>"
  | ObjClass => "<class>"
  | ObjFunction => "<function>"
  end.

(** One f-string of the function: the name [clean_node_id] is loaded each
    time a line is built. *)
Definition numeric_line (globals : gmap string pyobj) (name : string) (v : string)
  : result string :=
  rbind (load_global globals "clean_node_id") (fun id =>
  Ok (PrometheusFormatter.numeric_line name (obj_text id) v)).

Definition labelled_line (globals : gmap string pyobj) (name lname lval : string)
    (v : string) : result string :=
  rbind (load_global globals "clean_node_id") (fun id =>
  Ok (PrometheusFormatter.labelled_line name (obj_text id) lname lval v)).

Definition reading_line (globals : gmap string pyobj) (kv : string * value)
  : result string :=
  let '(key, v) := kv in
  if PrometheusFormatter.is_numeric v
  then numeric_line globals (PrometheusFormatter.metric_name key) (format_value v)
  else labelled_line globals (PrometheusFormatter.metric_name key) "str" (format_value v) "1".

(** The [for] loop: one line appended per reading. *)
Fixpoint reading_lines (globals : gmap string pyobj) (output_lines : list string)
    (items : list (string * value)) : result (list string) :=
  match items with
  | [] => Ok output_lines
  | kv :: rest =>
      rbind (reading_line globals kv) (fun l =>
      reading_lines globals (output_lines ++ [l])%list rest)
  end.

(** [if device_info.get(k): output_lines.append(line)] *)
Definition append_if (c : bool) (line : result string) (output_lines : list string)
  : result (list string) :=
  if c then rbind line (fun l => Ok (output_lines ++ [l])%list) else Ok output_lines.

Definition format_prometheus_output (globals : gmap string pyobj) (node_id : string)
    (telemetry_data : list (string * value)) (device_info : gmap string string)
  : result (list string) :=
  rbind (reading_lines globals [] telemetry_data) (fun l1 =>
  rbind (append_if (field_set device_info "contact_name")
           (labelled_line globals "meshtastic_contact" "contact"
              (field device_info "contact_name") "1") l1) (fun l2 =>
  rbind (append_if (field_set device_info "location")
           (labelled_line globals "meshtastic_Location" "location"
              (field device_info "location") "1") l2) (fun l3 =>
  rbind (append_if (field_set device_info "latitude")
           (numeric_line globals "meshtastic_Latitude"
              (field device_info "latitude")) l3) (fun l4 =>
  rbind (append_if (field_set device_info "longitude")
           (numeric_line globals "meshtastic_Longitude"
              (field device_info "longitude")) l4) (fun l5 =>
  let up_value := PrometheusFormatter.up_value telemetry_data in
  rbind (load_global globals "clean_node_id") (fun id =>
  rbind (load_global globals "VERSION") (fun ver =>
  Ok (l5 ++ [PrometheusFormatter.labelled_line "meshtastic_up" (obj_text id)
               "version" (obj_text ver) (Py.str_int up_value)])%list))))))).

(** The settings the modelled methods read from [self.config]. *)
Record config := {
  output_directory : string;     (* [output] directory *)
  individual_files : bool;       (* [output] individual_files *)
  atomic_writes : bool;          (* [output] atomic_writes *)
  enable_stats : bool;           (* [monitoring] enable_stats *)
  stats_file : string;           (* [monitoring] stats_file *)
  dwell_time : Z                 (* [meshtastic] dwell_time *)
}.

(** The dict of [__init__]. *)
Definition initial_stats : stats :=
  {| start_time := None; last_poll := None; total_polls := 0; successful_polls := 0;
     failed_polls := 0; nodes_processed := 0; nodes_successful := 0;
     push_successful := 0; push_failed := 0 |}.

Definition count_push_successful (s : stats) : stats :=
  {| start_time := start_time s; last_poll := last_poll s;
     total_polls := total_polls s; successful_polls := successful_polls s;
     failed_polls := failed_polls s; nodes_processed := nodes_processed s;
     nodes_successful := nodes_successful s;
     push_successful := push_successful s + 1; push_failed := push_failed s |}.

Definition count_push_failed (s : stats) : stats :=
  {| start_time := start_time s; last_poll := last_poll s;
     total_polls := total_polls s; successful_polls := successful_polls s;
     failed_polls := failed_polls s; nodes_processed := nodes_processed s;
     nodes_successful := nodes_successful s;
     push_successful := push_successful s; push_failed := push_failed s + 1 |}.

(** The assignments of [update_stats], lines 678 to 686. *)
Definition count_poll (timestamp : string) (processed successful : Z) (s : stats) : stats :=
  {| start_time := start_time s; last_poll := Some timestamp;
     total_polls := total_polls s + 1;
     successful_polls := if 0 <? successful then successful_polls s + 1
                         else successful_polls s;
     failed_polls := if 0 <? successful then failed_polls s else failed_polls s + 1;
     nodes_processed := nodes_processed s + processed;
     nodes_successful := nodes_successful s + successful;
     push_successful := push_successful s; push_failed := push_failed s |}.

(** [PrometheusExporter.push_metrics]: the request of the library class,
    the outcome as a bool, the reason handed to the logger. *)
Definition push_metrics (E : env) (self : PrometheusPushGateway.t)
    (metrics_data : list string) : M bool :=
  if negb (Py.truthy (PrometheusPushGateway.push_url self)) then ret true
  else
    try_except
      (status <- PrometheusPushGateway.send E
                   (PrometheusPushGateway.build_request self metrics_data) ;;
       if status =? 200
       then log "debug" ("Successfully pushed "
                         +:+ Py.str_int (Z.of_nat (length metrics_data))
                         +:+ " metrics to " +:+ PrometheusPushGateway.target_url self) ;;;
            ret true
       else log "error" ("Push gateway returned status " +:+ Py.str_int status) ;;;
            ret false)
      (fun e =>
         if is_URLError e
         then log "error" ("Failed to push metrics to "
                           +:+ PrometheusPushGateway.push_url self +:+ ": " +:+ exn_text e) ;;;
              ret false
         else log "error" ("Unexpected error pushing metrics: " +:+ exn_text e) ;;;
              ret false).

(** The daemon's copy of the atomic write: it logs, cleans up and re-raises. *)
Definition write_output_atomic (E : env) (content : string) (filepath : path) : M unit :=
  fun w =>
    let pl := plan_for E filepath in
    match Atomic.try_block (platform E) pl content filepath w with
    | (Ok _, _, w') => log "debug" ("Atomically wrote file: " +:+ path_text filepath) w'
    | (Raise e, temp_path, w') =>
        (log "error" ("Failed to write file atomically " +:+ path_text filepath
                      +:+ ": " +:+ exn_text e) ;;;
         Atomic.cleanup pl temp_path ;;;
         raise e) w'
    end.

(** One [try: ... except Exception as e: self.logger.error(...)] around a write. *)
Definition write_logged (E : env) (cfg : config) (what content : string) (filepath : path)
  : M unit :=
  try_except
    (if atomic_writes cfg then write_output_atomic E content filepath
     else PrometheusFileWriter.write_plain E content filepath)
    (fun e => log "error" ("Failed to write " +:+ what +:+ " " +:+ path_text filepath
                           +:+ ": " +:+ exn_text e)).

Definition individual_filename (node_id : string) : string :=
  "meshtastic-" +:+ node_id +:+ ".prom".

(** Lines 622 to 666: the file sink. *)
Definition write_files (E : env) (cfg : config) (all_output_lines : list string) : M unit :=
  if Py.truthy (output_directory cfg) then
    PrometheusFileWriter.mkdir E (output_directory cfg) ;;;
    if individual_files cfg then
      for_each (PrometheusFileWriter.group_by_node all_output_lines)
        (fun '(node_id, lines) =>
           write_logged E cfg "individual file"
             (PrometheusFileWriter.file_content lines)
             (PathLib.join (output_directory cfg) (individual_filename node_id)))
    else
      write_logged E cfg "output file"
        (PrometheusFileWriter.file_content all_output_lines)
        (PathLib.join (output_directory cfg) "meshtastic.prom")
  else ret tt.

(** Lines 668 to 674: the push sink and its two counters. *)
Definition push_and_count (E : env) (exporter : PrometheusPushGateway.t)
    (all_output_lines : list string) : M unit :=
  if Py.truthy (PrometheusPushGateway.push_url exporter) then
    ok <- push_metrics E exporter all_output_lines ;;
    s <- get_stats ;;
    if ok
    then put_stats (count_push_successful s) ;;;
         log "debug" "Successfully pushed metrics to Prometheus gateway"
    else put_stats (count_push_failed s)
  else ret tt.

Definition write_output (E : env) (cfg : config) (exporter : PrometheusPushGateway.t)
    (all_output_lines : list string) : M unit :=
  write_files E cfg all_output_lines ;;;
  push_and_count E exporter all_output_lines.

Definition json_text (o : option string) : string :=
  match o with
  | Some s => Py.str1 Py.dq +:+ s +:+ Py.str1 Py.dq
  | None => "null"
  end.

Definition json_member (key val : string) : string :=
  "  " +:+ Py.str1 Py.dq +:+ key +:+ Py.str1 Py.dq +:+ ": " +:+ val.

(** [json.dump(self.stats, f, indent=2)]; the timestamps hold no character
    that JSON escapes. *)
Definition stats_json (s : stats) : string :=
  "{" +:+ Py.str1 Py.nl +:+
  Py.join ("," +:+ Py.str1 Py.nl)
    [json_member "start_time" (json_text (start_time s));
     json_member "last_poll" (json_text (last_poll s));
     json_member "total_polls" (Py.str_int (total_polls s));
     json_member "successful_polls" (Py.str_int (successful_polls s));
     json_member "failed_polls" (Py.str_int (failed_polls s));
     json_member "nodes_processed" (Py.str_int (nodes_processed s));
     json_member "nodes_successful" (Py.str_int (nodes_successful s));
     json_member "push_successful" (Py.str_int (push_successful s));
     json_member "push_failed" (Py.str_int (push_failed s))]
  +:+ Py.str1 Py.nl +:+ "}".

Definition update_stats (E : env) (cfg : config) (processed successful : Z) : M unit :=
  s <- get_stats ;;
  put_stats (count_poll (now E) processed successful s) ;;;
  if enable_stats cfg then
    (if Py.truthy (PathLib.dirname (stats_file cfg))
     then PrometheusFileWriter.mkdir E (PathLib.dirname (stats_file cfg))
     else ret tt) ;;;
    try_except
      (s' <- get_stats ;;
       PrometheusFileWriter.write_plain E (stats_json s') (PathLib.of_text (stats_file cfg)))
      (fun e => log "warning" ("Failed to write stats file: " +:+ exn_text e))
  else ret tt.

(** The locals of [poll_devices] that the loop updates. *)
Record poll_acc := {
  acc_processed : Z;
  acc_successful : Z;
  acc_lines : list string
}.

(** The [for] loop over the devices, for the bindings [globals] of the
    module's names; [i] counts the devices reached. *)
Fixpoint poll_loop_in (globals : gmap string pyobj) (E : env)
    (devices : list (gmap string string)) (i : nat) (acc : poll_acc) : M poll_acc :=
  match devices with
  | [] => ret acc
  | device :: rest =>
      if negb (running_at E i) then ret acc
      else
        let node_id := field device "node_id" in
        log "debug" ("Processing node: " +:+ node_id) ;;;
        let telemetry_data := telemetry_of E node_id in
        let successful :=
          match telemetry_data with
          | [] => acc_successful acc
          | _ => acc_successful acc + 1
          end in
        (match telemetry_data with
         | [] => log "warning" ("No telemetry data from " +:+ node_id)
         | _ => log "debug" ("Successfully collected telemetry from " +:+ node_id)
         end) ;;;
        output_lines <- lift (format_prometheus_output globals node_id
                                telemetry_data device) ;;
        poll_loop_in globals E rest (S i)
          {| acc_processed := acc_processed acc + 1;
             acc_successful := successful;
             acc_lines := (acc_lines acc ++ output_lines)%list |}
  end.

(** The loop as the module runs it. *)
Definition poll_loop : env -> list (gmap string string) -> nat -> poll_acc -> M poll_acc :=
  poll_loop_in module_globals.

(** Line 756 of [run]: the start of the daemon is stamped. *)
Definition stamp_start (E : env) : M unit :=
  s <- get_stats ;;
  put_stats
    {| start_time := Some (now E); last_poll := last_poll s;
       total_polls := total_polls s; successful_polls := successful_polls s;
       failed_polls := failed_polls s; nodes_processed := nodes_processed s;
       nodes_successful := nodes_successful s;
       push_successful := push_successful s; push_failed := push_failed s |}.

Definition poll_devices_in (globals : gmap string pyobj) (E : env) (cfg : config)
    (exporter : PrometheusPushGateway.t) (devices : list (gmap string string)) : M unit :=
  log "info" ("Starting poll of " +:+ Py.str_int (Z.of_nat (length devices)) +:+ " devices") ;;;
  acc <- poll_loop_in globals E devices 0
           {| acc_processed := 0; acc_successful := 0; acc_lines := [] |} ;;
  (match acc_lines acc with
   | [] => ret tt
   | _ => write_output E cfg exporter (acc_lines acc)
   end) ;;;
  update_stats E cfg (acc_processed acc) (acc_successful acc) ;;;
  log "info" ("Poll completed: " +:+ Py.str_int (acc_successful acc) +:+ "/"
              +:+ Py.str_int (acc_processed acc) +:+ " nodes successful").

(** Lines 703 to 738: [poll_devices] up to its stats update, with the
    locals the update is called with. *)
Definition poll_and_write (globals : gmap string pyobj) (E : env) (cfg : config)
    (exporter : PrometheusPushGateway.t) (devices : list (gmap string string))
  : M poll_acc :=
  log "info" ("Starting poll of " +:+ Py.str_int (Z.of_nat (length devices)) +:+ " devices") ;;;
  acc <- poll_loop_in globals E devices 0
           {| acc_processed := 0; acc_successful := 0; acc_lines := [] |} ;;
  (match acc_lines acc with
   | [] => ret tt
   | _ => write_output E cfg exporter (acc_lines acc)
   end) ;;;
  ret acc.

(** [poll_devices] as the module runs it. *)
Definition poll_devices : env -> config -> PrometheusPushGateway.t ->
    list (gmap string string) -> M unit :=
  poll_devices_in module_globals.

End Daemon.

(** ** The notions the properties below are stated with *)
Module Claims.

(** A line of the up metric: its metric name is [meshtastic_up]. *)
Definition is_up_line (line : string) : bool := Py.startswith "meshtastic_up{" line.

Definition count_up (lines : list string) : nat := length (List.filter is_up_line lines).

(** A reading key whose metric would be named [meshtastic_up] as well. *)
Definition names_up (key : string) : bool :=
  Py.startswith "up{" (Py.replace " "%char "_" (Py.lower key) +:+ "{").

Fixpoint all_digits (s : string) : bool :=
  match s with
  | EmptyString => true
  | String c t => Re.is_digit c && all_digits t
  end.

Fixpoint skip_digits (s : string) : string :=
  match s with
  | EmptyString => EmptyString
  | String c t => if Re.is_digit c then skip_digits t else s
  end.

Definition skip_sign (s : string) : string :=
  match s with
  | String c t => if Re.is_sign c then t else s
  | EmptyString => s
  end.

(** The text of a signed decimal number, in the words of the
    specification: an optional leading sign, digits, and an optional
    fractional part (a point and further digits). *)
Definition signed_decimal (s : string) : bool :=
  match skip_sign s with
  | String c _ =>
      Re.is_digit c &&
      match skip_digits (skip_sign s) with
      | EmptyString => true
      | String d frac => Ascii.eqb d "."%char && all_digits frac
      end
  | EmptyString => false
  end.

Definition nonempty (reading : telemetry) : bool :=
  match reading with [] => false | _ => true end.

(** The devices a cycle polls: those before the first one at which the
    daemon is found stopped; [i] counts the devices reached. *)
Fixpoint polled_from (E : env) (devices : list (gmap string string)) (i : nat)
  : list (gmap string string) :=
  match devices with
  | [] => []
  | device :: rest => if running_at E i then device :: polled_from E rest (S i) else []
  end.

Definition polled (E : env) (devices : list (gmap string string))
  : list (gmap string string) :=
  polled_from E devices 0.

(** The device yielded a non-empty reading set. *)
Definition yielded (E : env) (device : gmap string string) : bool :=
  nonempty (telemetry_of E (field device "node_id")).

(** No counter went down. *)
Definition counters_le (s s' : stats) : Prop :=
  total_polls s <= total_polls s'
  /\ successful_polls s <= successful_polls s'
  /\ failed_polls s <= failed_polls s'
  /\ nodes_processed s <= nodes_processed s'
  /\ nodes_successful s <= nodes_successful s'
  /\ push_successful s <= push_successful s'
  /\ push_failed s <= push_failed s'.

(** The statistics the daemon can hold: those of [__init__], and what
    the stamp of [run], a poll cycle, [update_stats] and [write_output]
    leave behind. *)
Inductive reachable : stats -> Prop :=
| reach_init : reachable Daemon.initial_stats
| reach_start (E : env) (w : world) :
    reachable (daemon_stats w) ->
    reachable (daemon_stats (snd (Daemon.stamp_start E w)))
| reach_cycle (E : env) (cfg : Daemon.config) (exporter : PrometheusPushGateway.t)
    (devices : list (gmap string string)) (w : world) :
    reachable (daemon_stats w) ->
    reachable (daemon_stats (snd (Daemon.poll_devices E cfg exporter devices w)))
| reach_update (E : env) (cfg : Daemon.config) (processed successful : Z) (w : world) :
    reachable (daemon_stats w) ->
    reachable (daemon_stats (snd (Daemon.update_stats E cfg processed successful w)))
| reach_output (E : env) (cfg : Daemon.config) (exporter : PrometheusPushGateway.t)
    (lines : list string) (w : world) :
    reachable (daemon_stats w) ->
    reachable (daemon_stats (snd (Daemon.write_output E cfg exporter lines w))).

(** A computation that leaves the statistics alone. *)
Definition keeps_stats {A} (m : M A) : Prop :=
  forall w, daemon_stats (snd (m w)) = daemon_stats w.

(** What the target path can show on Windows besides the previous and
    the new content: no file, or the new content written in part. *)
Definition in_transit (content : string) (now : option string) : Prop :=
  now = None \/ exists n, now = Some (Re.take_str n content).

(** What one atomic write of [content] to [filepath] does, seen from the
    target path: [steps] are the file-system states the run adds to the
    history, newest first. *)
Definition target_state_ok (os : os_name) (old : option string) (content : string)
    (filepath : path) (st : event * gmap path string) : Prop :=
  snd st !! filepath = old \/ snd st !! filepath = Some content
  \/ (os = nt /\ in_transit content (snd st !! filepath)).

(** Whether a run that gets to the move copies the file instead of
    renaming it: on Windows, when the rename fails. *)
Definition copies (os : os_name) (pl : plan) : bool :=
  match os with nt => rename_error pl | posix => false end.

(** The events of a successful run, oldest first. *)
Definition publication_events (os : os_name) (pl : plan) (old : option string)
    (content : string) (tmp filepath : path) : list event :=
  ([Created tmp; Wrote tmp content; Synced tmp]
   ++ (match os, old with nt, Some _ => [Unlinked filepath] | _, _ => [] end)
   ++ (if copies os pl
       then [Truncated filepath; Wrote filepath content; Unlinked tmp]
       else [Renamed tmp filepath]))%list.

Definition atomic_publication (os : os_name) (pl : plan) (content : string)
    (filepath : path) (run : M unit) (w : world) : Prop :=
  let old := files w !! filepath in
  let r := run w in
  (exists steps,
      history (snd r) = (steps ++ history w)%list
      /\ Forall (target_state_ok os old content filepath) steps
      /\ (fst r = Ok tt ->
          exists tmp,
            parent tmp = parent filepath /\ tmp <> filepath /\ files w !! tmp = None
            /\ map fst (rev steps) = publication_events os pl old content tmp filepath))
  /\ (fst r = Ok tt -> files (snd r) = <[filepath := content]> (files w))
  /\ (fst r <> Ok tt ->
      (files (snd r) !! filepath = old
       \/ (os = nt /\ (files (snd r) !! filepath = Some content
                       \/ in_transit content (files (snd r) !! filepath))))
      /\ (unlink_error pl = false ->
          files (snd r) = files w
          \/ (os = nt /\ forall p, p <> filepath -> files (snd r) !! p = files w !! p))).

(** Modelled from the spec: PKCS7 padding to the cipher's block of sixteen
    bytes; between one and sixteen bytes are added, each holding their
    number. *)
Definition pkcs7_pad (data : Bytes.bytes) : Bytes.bytes :=
  let n := (16 - Nat.modulo (List.length data) 16)%nat in
  (data ++ repeat (Bytes.of_N (N.of_nat n)) n)%list.

(** Modelled from the spec: the cipher text of a roster.  Key and IV are
    the 48 bytes of a thousand rounds of PBKDF2-HMAC-SHA256 over the
    password and the salt, and the cipher is AES-256-CBC over the
    PKCS7-padded text. *)
Definition roster_ciphertext (salt : Bytes.bytes) (password roster : string) : Bytes.bytes :=
  let key_iv := Pbkdf2.derive 48 1000 salt (Bytes.of_string password) in
  Cbc.encrypt (Bytes.slice 0 32 key_iv) (Bytes.slice 32 48 key_iv)
              (pkcs7_pad (Bytes.of_string roster)).

(** Modelled from the spec: the payload.  With [salt = Some s] it is the
    marker, the salt [s] and the cipher text; with [salt = None] it is the
    cipher text alone, made with the fixed fallback salt. *)
Definition roster_payload (salt : option Bytes.bytes) (password roster : string)
  : Bytes.bytes :=
  match salt with
  | Some s => (Bytes.of_string "Salted__" ++ s ++ roster_ciphertext s password roster)%list
  | None => roster_ciphertext (Bytes.of_string "12345678") password roster
  end.

(** Modelled from the spec: the encrypted file, base64-wrapped when [wrap]
    is set. *)
Definition encrypt_device_file (wrap : bool) (salt : option Bytes.bytes)
    (password roster : string) : Bytes.bytes :=
  if wrap then Base64.b64encode (roster_payload salt password roster)
  else roster_payload salt password roster.

(** The push of [lines] is delivered: the request can be built and the
    gateway answers it with the status 200. *)
Definition delivered (E : env) (self : PrometheusPushGateway.t) (lines : list string) : bool :=
  let req := PrometheusPushGateway.build_request self lines in
  match PrometheusPushGateway.request_error E req, urlopen E req with
  | None, Responded status _ => status =? 200
  | _, _ => false
  end.

(** The requests a push of [lines] sends: the one request, unless no URL
    is set or the request cannot be built. *)
Definition sent (E : env) (self : PrometheusPushGateway.t) (lines : list string)
  : list request :=
  let req := PrometheusPushGateway.build_request self lines in
  if Py.truthy (PrometheusPushGateway.push_url self)
  then match PrometheusPushGateway.request_error E req with
       | None => [req]
       | Some _ => []
       end
  else [].

(** A world in which [filepath] holds [content]. *)
Definition holds (w : world) (filepath : path) (content : Bytes.bytes) : Prop :=
  files w !! filepath = Some (Bytes.to_string content).

End Claims.

(** ** A concrete roster, configuration and environment *)
Module Scenario.

Definition device : gmap string string :=
  <["node_id" := "!a1b2c3d4"]> (<["contact_name" := "Base"]> ∅).

Definition cfg : Daemon.config :=
  {| Daemon.output_directory := "/var/lib/node_exporter/textfile_collector";
     Daemon.individual_files := false;
     Daemon.atomic_writes := true;
     Daemon.enable_stats := true;
     Daemon.stats_file := "/var/lib/meshtastic-telemetry/stats.json";
     Daemon.dwell_time := 10 |}.

Definition exporter : PrometheusPushGateway.t :=
  {| PrometheusPushGateway.push_url := "http://pushgateway:9091";
     PrometheusPushGateway.job_name := "meshtastic_repeater_telemetry";
     PrometheusPushGateway.instance := "";
     PrometheusPushGateway.timeout := 30 |}.

(** Nothing fails, the gateway answers 200, the node answers a battery
    level, and no stop signal arrives. *)
Definition healthy : env :=
  {| platform := posix;
     plan_for := fun _ => no_faults ["k3x9q2ab"];
     mkdir_error := fun _ => false;
     url_refused := fun _ => None;
     urlopen := fun _ => Responded 200 "OK";
     now := "2026-01-01T00:00:00";
     running_at := fun _ => true;
     telemetry_of := fun _ => [("Battery", VInt 87)] |}.

(** The same, but the stop signal arrived before the first device. *)
Definition stopping : env :=
  {| platform := posix;
     plan_for := fun _ => no_faults ["k3x9q2ab"];
     mkdir_error := fun _ => false;
     url_refused := fun _ => None;
     urlopen := fun _ => Responded 200 "OK";
     now := "2026-01-01T00:00:00";
     running_at := fun _ => false;
     telemetry_of := fun _ => [("Battery", VInt 87)] |}.

Definition fresh : world :=
  {| files := ∅; history := []; requests := []; logged := [];
     daemon_stats := Daemon.initial_stats |}.

(** The file the single-file mode publishes, and a world in which an
    earlier cycle has already published it. *)
Definition target : path :=
  Path "/var/lib/node_exporter/textfile_collector" "meshtastic.prom".

Definition published : world :=
  {| files := <[target := "meshtastic_up{node=!a1b2c3d4} 1"]> ∅; history := [];
     requests := []; logged := []; daemon_stats := Daemon.initial_stats |}.

(** The healthy environment on Windows. *)
Definition windows : env :=
  {| platform := nt;
     plan_for := fun _ => no_faults ["k3x9q2ab"];
     mkdir_error := fun _ => false;
     url_refused := fun _ => None;
     urlopen := fun _ => Responded 200 "OK";
     now := "2026-01-01T00:00:00";
     running_at := fun _ => true;
     telemetry_of := fun _ => [("Battery", VInt 87)] |}.

(** The disk fills up after ten characters of the temporary file, and the
    unlink of the temporary file fails as well. *)
Definition disk_full : env :=
  {| platform := posix;
     plan_for := fun _ =>
       {| tmp_names := ["k3x9q2ab"]; mkstemp_error := false; write_error := Some 10%nat;
          fsync_error := false; rename_error := false; unlink_error := true;
          target_unlink_error := false; open_error := false;
          copy_open_error := false; copy_write_error := None; copystat_error := false;
          move_unlink_error := false |};
     mkdir_error := fun _ => false;
     url_refused := fun _ => None;
     urlopen := fun _ => Responded 200 "OK";
     now := "2026-01-01T00:00:00";
     running_at := fun _ => true;
     telemetry_of := fun _ => [("Battery", VInt 87)] |}.

(** Windows, the rename of the move fails (the target directory is
    watched by another process, say), and the copy that [shutil.move]
    falls back to is cut after ten characters. *)
Definition windows_busy : env :=
  {| platform := nt;
     plan_for := fun _ =>
       {| tmp_names := ["k3x9q2ab"]; mkstemp_error := false; write_error := None;
          fsync_error := false; rename_error := true; unlink_error := false;
          target_unlink_error := false; open_error := false;
          copy_open_error := false; copy_write_error := Some 10%nat;
          copystat_error := false; move_unlink_error := false |};
     mkdir_error := fun _ => false;
     url_refused := fun _ => None;
     urlopen := fun _ => Responded 200 "OK";
     now := "2026-01-01T00:00:00";
     running_at := fun _ => true;
     telemetry_of := fun _ => [("Battery", VInt 87)] |}.

(** The roster of one device and the path of its encrypted file. *)
Definition roster : string := "!a1b2c3d4,Base" +:+ Py.str1 Py.nl.

Definition roster_path : path := Path "/etc/meshtastic" "devices.csv.enc".

(** The roster encrypted with the password [correct horse] and the salt
    [saltsalt], base64-wrapped. *)
Definition encrypted_roster : string := "U2FsdGVkX19zYWx0c2FsdDm8SI/UzurlXa5PvEXnEZI=".

Definition with_roster : world :=
  {| files := <[roster_path := encrypted_roster]> ∅; history := [];
     requests := []; logged := []; daemon_stats := Daemon.initial_stats |}.

End Scenario.

(** ** The one-shot collector (mesh_metrics.py) *)
Module Collector.

Definition VERSION : string := "MTM-v0.96-Python".

(** Lines 200 to 237: the collector's own renderer; [clean_node_id] is
    assigned on line 205. *)
Definition format_prometheus_output (node_id : string) (telemetry_data : telemetry)
    (device_info : gmap string string) : list string :=
  let clean_node_id := Py.replace "!"%char "" node_id in
  let readings :=
    map (fun kv : string * value =>
           let metric_name :=
             "meshtastic_" +:+ Py.replace " "%char "_" (Py.lower (fst kv)) in
           if PrometheusFormatter.is_numeric (snd kv)
           then PrometheusFormatter.numeric_line metric_name clean_node_id
                  (format_value (snd kv))
           else PrometheusFormatter.labelled_line metric_name clean_node_id "str"
                  (format_value (snd kv)) "1")
        telemetry_data in
  let contact :=
    if field_set device_info "contact_name"
    then [PrometheusFormatter.labelled_line "meshtastic_contact" clean_node_id "contact"
            (field device_info "contact_name") "1"]
    else [] in
  let location :=
    if field_set device_info "location"
    then [PrometheusFormatter.labelled_line "meshtastic_location" clean_node_id "location"
            (field device_info "location") "1"]
    else [] in
  let latitude :=
    if field_set device_info "latitude"
    then [PrometheusFormatter.numeric_line "meshtastic_latitude" clean_node_id
            (field device_info "latitude")]
    else [] in
  let longitude :=
    if field_set device_info "longitude"
    then [PrometheusFormatter.numeric_line "meshtastic_longitude" clean_node_id
            (field device_info "longitude")]
    else [] in
  let up_value := match telemetry_data with [] => 0 | _ => 1 end in
  (readings ++ contact ++ location ++ latitude ++ longitude
   ++ [PrometheusFormatter.labelled_line "meshtastic_up" clean_node_id "version" VERSION
         (Py.str_int up_value)])%list.

End Collector.

(** ** PrometheusManager (prometheus_manager.py) *)
Module PrometheusManager.

(** The attributes that [__init__] sets from the configuration: the file
    writer is [None] without an output directory, the push gateway is
    [None] without a push URL. *)
Record t := {
  formatter : PrometheusFormatter.t;
  file_writer : option PrometheusFileWriter.t;
  push_gateway : option PrometheusPushGateway.t
}.

Definition format_node_metrics (self : t) (node_id : string) (telemetry_data : telemetry)
    (device_info : gmap string string) : list string :=
  PrometheusFormatter.format_prometheus_metrics (formatter self) node_id telemetry_data
    device_info.

Definition count_text (all_output_lines : list string) : string :=
  Py.str_int (Z.of_nat (List.length all_output_lines)).

(** Lines 349 to 358: the file sink; the result is [file_success] and the
    error messages so far. *)
Definition write_part (E : env) (self : t) (all_output_lines : list string)
  : M (bool * list string) :=
  match file_writer self with
  | Some fw =>
      try_except
        (file_success <- PrometheusFileWriter.write_metrics_files E fw all_output_lines ;;
         (if file_success
          then log "debug" ("Successfully wrote " +:+ count_text all_output_lines
                            +:+ " metrics to files")
          else ret tt) ;;;
         ret (file_success, []))
        (fun e =>
           let error_msg := "File write failed: " +:+ exn_text e in
           log "error" error_msg ;;;
           ret (false, [error_msg]))
  | None => ret (true, [])
  end.

(** Lines 360 to 374: the push sink. *)
Definition push_part (E : env) (self : t) (all_output_lines : list string)
  : M (bool * list string) :=
  match push_gateway self with
  | Some pg =>
      try_except
        (r <- PrometheusPushGateway.push_metrics E pg all_output_lines ;;
         if fst r
         then log "debug" ("Successfully pushed " +:+ count_text all_output_lines
                           +:+ " metrics to gateway") ;;;
              ret (true, [])
         else let error_msg := "Push failed: " +:+ snd r in
              log "error" error_msg ;;;
              ret (false, [error_msg]))
        (fun e =>
           let error_msg := "Push gateway error: " +:+ exn_text e in
           log "error" error_msg ;;;
           ret (false, [error_msg]))
  | None => ret (true, [])
  end.

Definition write_and_push_metrics (E : env) (self : t) (all_output_lines : list string)
  : M (bool * bool * string) :=
  f <- write_part E self all_output_lines ;;
  p <- push_part E self all_output_lines ;;
  ret (fst f, fst p, Py.join "; " (snd f ++ snd p)%list).

End PrometheusManager.

(** ** Notions used by the further properties *)
Module Props.

(** The node a metric line is filed under: the first group of the first
    match of the node pattern. *)
Definition node_of (line : string) : option string :=
  match Re.re_search Re.node_re line with
  | Some (node_id :: _) => Some node_id
  | _ => None
  end.

Definition filed_under (node_id : string) (line : string) : bool :=
  match node_of line with
  | Some n => String.eqb n node_id
  | None => false
  end.

(** No double quote in a text. *)
Definition no_dq (s : string) : bool := negb (Py.mem_char Py.dq s).

(** The characters [urllib.parse.quote] lets through or produces. *)
Definition url_char (c : ascii) : bool :=
  Url.is_unreserved c || Ascii.eqb c "/"%char || Ascii.eqb c "%"%char.

Fixpoint all_chars (p : ascii -> bool) (s : string) : bool :=
  match s with
  | EmptyString => true
  | String c t => p c && all_chars p t
  end.

(** What [urllib.parse.quote] lets through. *)
Definition quote_safe (c : ascii) : bool := Url.is_unreserved c || Ascii.eqb c "/"%char.

(** A part of the world that file operations and the logger do not touch,
    and an action that leaves such a part as it is. *)
Definition file_blind {B} (proj : world -> B) : Prop :=
  (forall ev fs w, proj (set_files ev fs w) = proj w)
  /\ (forall level msg w, proj (add_log level msg w) = proj w).

Definition keeps {A B} (proj : world -> B) (m : M A) : Prop :=
  forall w, proj (snd (m w)) = proj w.

(** A character of ASCII. *)
Definition is_ascii (c : ascii) : bool := (nat_of_ascii c <? 128)%nat.

(** What a metric name holds after its prefix: no upper-case ASCII letter
    and no space. *)
Definition name_char (c : ascii) : bool :=
  negb (Py.is_upper c) && negb (Ascii.eqb c " "%char).

(** The bytes the lenient base64 decoder looks at: the pad and the
    characters of the alphabet. *)
Definition base64_significant (c : byte) : bool :=
  Byte.eqb c Base64.pad_char
  || match Base64.table_a2b c with Some _ => true | None => false end.

(** The opening of the node label in a metric line. *)
Definition node_open : string := "node=" +:+ Py.str1 Py.dq.

End Props.
(** * Theorems *)

(** ** C2: the daemon's renderer *)
Section Unbound.

Variable globals : gmap string Daemon.pyobj.
Hypothesis unbound : globals !! "clean_node_id" = None.

Lemma load_unbound : Daemon.load_global globals "clean_node_id" = Raise (NameError "clean_node_id").
Proof. unfold Daemon.load_global. now rewrite unbound. Qed.

Lemma numeric_line_unbound name v :
  Daemon.numeric_line globals name v = Raise (NameError "clean_node_id").
Proof. unfold Daemon.numeric_line. now rewrite load_unbound. Qed.

Lemma labelled_line_unbound name lname lval v :
  Daemon.labelled_line globals name lname lval v = Raise (NameError "clean_node_id").
Proof. unfold Daemon.labelled_line. now rewrite load_unbound. Qed.

Lemma reading_lines_unbound acc items :
  Daemon.reading_lines globals acc items = Ok acc /\ items = []
  \/ Daemon.reading_lines globals acc items = Raise (NameError "clean_node_id").
Proof.
  destruct items as [|[key v] rest]; [now left|right]. simpl.
  destruct (PrometheusFormatter.is_numeric v).
  - now rewrite numeric_line_unbound.
  - now rewrite labelled_line_unbound.
Qed.

Lemma append_if_unbound_numeric c name v acc :
  Daemon.append_if c (Daemon.numeric_line globals name v) acc = Ok acc
  \/ Daemon.append_if c (Daemon.numeric_line globals name v) acc
     = Raise (NameError "clean_node_id").
Proof. destruct c; simpl; [right; now rewrite numeric_line_unbound | now left]. Qed.

Lemma append_if_unbound_labelled c name lname lval v acc :
  Daemon.append_if c (Daemon.labelled_line globals name lname lval v) acc = Ok acc
  \/ Daemon.append_if c (Daemon.labelled_line globals name lname lval v) acc
     = Raise (NameError "clean_node_id").
Proof. destruct c; simpl; [right; now rewrite labelled_line_unbound | now left]. Qed.

Lemma format_prometheus_output_unbound node_id telemetry_data device_info :
  Daemon.format_prometheus_output globals node_id telemetry_data device_info
  = Raise (NameError "clean_node_id").
Proof.
  unfold Daemon.format_prometheus_output.
  destruct (reading_lines_unbound [] telemetry_data) as [[-> _]| ->]; [simpl|reflexivity].
  match goal with |- context [Daemon.append_if ?c (Daemon.labelled_line _ ?n ?l ?lv ?v) ?a] =>
    destruct (append_if_unbound_labelled c n l lv v a) as [-> | ->] end; [simpl|reflexivity].
  match goal with |- context [Daemon.append_if ?c (Daemon.labelled_line _ ?n ?l ?lv ?v) ?a] =>
    destruct (append_if_unbound_labelled c n l lv v a) as [-> | ->] end; [simpl|reflexivity].
  match goal with |- context [Daemon.append_if ?c (Daemon.numeric_line _ ?n ?v) ?a] =>
    destruct (append_if_unbound_numeric c n v a) as [-> | ->] end; [simpl|reflexivity].
  match goal with |- context [Daemon.append_if ?c (Daemon.numeric_line _ ?n ?v) ?a] =>
    destruct (append_if_unbound_numeric c n v a) as [-> | ->] end; [simpl|reflexivity].
  now rewrite load_unbound.
Qed.

End Unbound.

Lemma module_globals_unbound : Daemon.module_globals !! "clean_node_id" = None.
Proof. vm_compute. reflexivity. Qed.

(** C2. Whatever the node identifier, the reading set and the device
    metadata, the daemon's [format_prometheus_output] raises
    [NameError] for [clean_node_id] and returns no metric lines: the name is
    bound neither in the function nor at module level. *)
Theorem C2_format_prometheus_output_raises_NameError :
  forall (node_id : string) (telemetry_data : list (string * value))
         (device_info : gmap string string),
    Daemon.format_prometheus_output Daemon.module_globals node_id telemetry_data device_info
    = Raise (NameError "clean_node_id").
Proof.
  intros. apply format_prometheus_output_unbound, module_globals_unbound.
Qed.

(** ** Text *)
#[local] Arguments String.append : simpl nomatch.

Lemma str_app_assoc (a b c : string) : (a +:+ b) +:+ c = a +:+ (b +:+ c).
Proof. induction a as [|x a IH]; simpl; [reflexivity | now rewrite IH]. Qed.

Lemma str_app_nil_r (a : string) : a +:+ "" = a.
Proof. induction a as [|x a IH]; simpl; [reflexivity | now rewrite IH]. Qed.

Lemma str_app_length (a b : string) :
  String.length (a +:+ b) = (String.length a + String.length b)%nat.
Proof. induction a as [|x a IH]; simpl; [reflexivity | now rewrite IH]. Qed.

(** ** C4: the up metric *)
Import PrometheusFormatter.

Lemma startswith_up_brace (n rest : string) :
  Py.startswith "up{" (n +:+ String "{" rest) = Py.startswith "up{" (n +:+ "{").
Proof.
  destruct n as [|a [|b [|c n]]]; simpl; try reflexivity;
    repeat match goal with
           | |- context [Ascii.eqb ?x ?y] => destruct (Ascii.eqb x y); simpl
           end; reflexivity.
Qed.

Lemma numeric_line_up key id v :
  Claims.is_up_line (numeric_line (metric_name key) id v) = Claims.names_up key.
Proof.
  unfold Claims.is_up_line, Claims.names_up, numeric_line, metric_name, node_label.
  rewrite !str_app_assoc. simpl. apply startswith_up_brace.
Qed.

Lemma labelled_line_up key id lname lval v :
  Claims.is_up_line (labelled_line (metric_name key) id lname lval v) = Claims.names_up key.
Proof.
  unfold Claims.is_up_line, Claims.names_up, labelled_line, metric_name, node_label.
  rewrite !str_app_assoc. simpl. apply startswith_up_brace.
Qed.

Lemma reading_line_up id kv :
  Claims.is_up_line (reading_line id kv) = Claims.names_up (fst kv).
Proof.
  destruct kv as [key v]. simpl. destruct (is_numeric v).
  - apply numeric_line_up.
  - apply labelled_line_up.
Qed.

Lemma reading_lines_no_up id (telemetry_data : telemetry) :
  Forall (fun kv => Claims.names_up (fst kv) = false) telemetry_data ->
  List.filter Claims.is_up_line (map (reading_line id) telemetry_data) = [].
Proof.
  induction 1 as [|kv rest Hkv _ IH]; simpl; [reflexivity|].
  now rewrite reading_line_up, Hkv.
Qed.

Lemma metadata_lines_no_up id device_info :
  List.filter Claims.is_up_line (metadata_lines id device_info) = [].
Proof.
  unfold metadata_lines, opt_line.
  destruct (field_set device_info "contact_name"), (field_set device_info "location"),
    (field_set device_info "latitude"), (field_set device_info "longitude"); reflexivity.
Qed.

Lemma up_line_is_up self id telemetry_data :
  Claims.is_up_line (up_line self id telemetry_data) = true.
Proof. reflexivity. Qed.

Lemma up_line_value self id telemetry_data :
  up_line self id telemetry_data
  = labelled_line "meshtastic_up" id "version" (version self)
      (match telemetry_data with [] => "0" | _ => "1" end).
Proof. unfold up_line. now destruct telemetry_data. Qed.

(** C4, as stated, fails: a reading whose key lowercases to [up] is rendered
    under the metric name [meshtastic_up] too, so the output holds two such
    lines. *)
Lemma C4_counterexample_reading_named_up :
  format_prometheus_metrics default_formatter "!a1b2c3d4" [("Up", VInt 5)] ∅
  = [ numeric_line "meshtastic_up" "!a1b2c3d4" "5";
      labelled_line "meshtastic_up" "!a1b2c3d4" "version" "MTM-v0.98-Daemon" "1" ]
  /\ Claims.count_up
       (format_prometheus_metrics default_formatter "!a1b2c3d4" [("Up", VInt 5)] ∅) <> 1%nat.
Proof. split; [reflexivity | vm_compute; discriminate]. Qed.

Lemma reading_lines_up_count id (telemetry_data : telemetry) :
  length (List.filter Claims.is_up_line (map (reading_line id) telemetry_data))
  = length (List.filter (fun kv => Claims.names_up (fst kv)) telemetry_data).
Proof.
  induction telemetry_data as [|kv rest IH]; simpl; [reflexivity|].
  rewrite reading_line_up. destruct (Claims.names_up (fst kv)); simpl; now rewrite IH.
Qed.

Lemma no_key_names_up (telemetry_data : telemetry) :
  Forall (fun kv => Claims.names_up (fst kv) = false) telemetry_data ->
  List.filter (fun kv => Claims.names_up (fst kv)) telemetry_data = [].
Proof.
  induction 1 as [|kv rest Hkv _ IH]; cbn [List.filter]; [reflexivity|].
  now rewrite Hkv.
Qed.

(** C4, amended.  For every formatter, node, reading set and device
    info, the renderer's output is the reading lines, then the metadata
    lines of the non-empty fields, then one up line, which is the final
    line, has value 1 for a non-empty reading set and 0 for an empty one,
    and carries the formatter's version as its [version] label; for an
    empty reading set the output is exactly the metadata lines and that up
    line with value 0.  The lines of the metric [meshtastic_up] are that
    line and one more for every reading key that is itself rendered under
    the name [meshtastic_up]: the up line is the only one exactly when
    there is no such key. *)
Theorem C4_up_metric_last_and_unique (self : t) (node_id : string)
    (telemetry_data : telemetry) (device_info : gmap string string) :
  let id := format_node_id_for_metric self node_id in
  let out := format_prometheus_metrics self node_id telemetry_data device_info in
  let up := labelled_line "meshtastic_up" id "version" (version self)
              (match telemetry_data with [] => "0" | _ => "1" end) in
  out = (map (reading_line id) telemetry_data ++ metadata_lines id device_info ++ [up])%list
  /\ List.last out "" = up
  /\ Claims.count_up out
     = S (length (List.filter (fun kv => Claims.names_up (fst kv)) telemetry_data))
  /\ (Claims.count_up out = 1%nat
      <-> Forall (fun kv => Claims.names_up (fst kv) = false) telemetry_data)
  /\ (telemetry_data = [] ->
      out = (metadata_lines id device_info
             ++ [labelled_line "meshtastic_up" id "version" (version self) "0"])%list).
Proof.
  intros id out up.
  assert (Hout : out = (map (reading_line id) telemetry_data
                        ++ metadata_lines id device_info ++ [up])%list).
  { unfold out, format_prometheus_metrics. fold id. now rewrite up_line_value. }
  assert (Hcount : Claims.count_up out
                   = S (length (List.filter (fun kv => Claims.names_up (fst kv))
                                  telemetry_data))).
  { unfold Claims.count_up. rewrite Hout, !List.filter_app, !length_app.
    rewrite reading_lines_up_count, metadata_lines_no_up.
    replace (List.filter Claims.is_up_line [up]) with [up]
      by (unfold up; now destruct telemetry_data).
    simpl. lia. }
  split; [exact Hout|]. split; [|split; [exact Hcount|split]].
  - rewrite Hout, !app_assoc. apply last_last.
  - rewrite Hcount. split.
    + intros H. injection H as H. apply List.Forall_forall. intros kv Hin.
      destruct (Claims.names_up (fst kv)) eqn:Hkv; [|reflexivity].
      assert (Hin' : In kv (List.filter (fun kv => Claims.names_up (fst kv)) telemetry_data))
        by (apply List.filter_In; now split).
      destruct (List.filter _ telemetry_data); [destruct Hin' | discriminate H].
    + intros H. now rewrite (no_key_names_up telemetry_data H).
  - intros ->. exact Hout.
Qed.

Lemma C4_up_metric_witness :
  Claims.count_up
    (format_prometheus_metrics default_formatter "!a1b2c3d4"
       [("Battery", VInt 87); ("Voltage", VStr "4.1")] ∅) = 1%nat.
Proof.
  apply (proj1 (proj2 (proj2 (proj2
    (C4_up_metric_last_and_unique default_formatter "!a1b2c3d4"
       [("Battery", VInt 87); ("Voltage", VStr "4.1")] ∅))))).
  repeat constructor.
Defined.

(** ** C3: which values are rendered as numbers *)
Definition some {A} (o : option A) : bool :=
  match o with Some _ => true | None => false end.

Lemma some_first_some {A} (x y : option A) : some (Re.first_some x y) = some x || some y.
Proof. now destruct x, y. Qed.

Lemma bool_decide_is_Some {A} (o : option A) : bool_decide (is_Some o) = some o.
Proof.
  destruct o; unfold some.
  - apply bool_decide_eq_true_2. eauto.
  - apply bool_decide_eq_false_2. intros [? ?]. discriminate.
Qed.

Definition k0 : nat -> string -> list string -> option (list string) :=
  fun _ _ caps => Some caps.

Lemma digit_not_nl c : Re.is_digit c = true -> Ascii.eqb c Py.nl = false.
Proof.
  intros H. destruct (Ascii.eqb_spec c Py.nl) as [->|]; [discriminate H | reflexivity].
Qed.

Lemma digit_not_dot c : Re.is_digit c = true -> Ascii.eqb "."%char c = false.
Proof.
  intros H. destruct (Ascii.eqb_spec "."%char c) as [<-|]; [discriminate H | reflexivity].
Qed.

Lemma sign_not_digit c : Re.is_sign c = true -> Re.is_digit c = false.
Proof.
  unfold Re.is_sign. intros H. apply orb_true_iff in H.
  destruct H as [H|H]; apply Ascii.eqb_eq in H; subst; reflexivity.
Qed.

Lemma skip_digits_idem s : Claims.skip_digits (Claims.skip_digits s) = Claims.skip_digits s.
Proof.
  induction s as [|c t IH]; simpl; [reflexivity|].
  destruct (Re.is_digit c) eqn:E; [exact IH | simpl; now rewrite E].
Qed.

Lemma at_eol_digit c t : Re.is_digit c = true -> Re.at_eol (String c t) = false.
Proof. intros H. simpl. destruct t; [now apply digit_not_nl | reflexivity]. Qed.

(** [[0-9]*$] *)
Lemma go_digits_eol i s caps :
  some (Re.go (Re.Seq (Re.StarCls Re.is_digit) Re.Eol) i s caps k0)
  = Re.at_eol (Claims.skip_digits s).
Proof.
  simpl. revert i. induction s as [|c t IH]; intros i; [reflexivity|].
  cbn [Re.star_cls Claims.skip_digits]. destruct (Re.is_digit c) eqn:E.
  - rewrite some_first_some, IH, (at_eol_digit c t E). simpl. apply orb_false_r.
  - now destruct (Re.at_eol (String c t)).
Qed.

(** What may follow the integer digits. *)
Definition tail_ok (s : string) : bool :=
  match s with
  | String d u => Ascii.eqb d "."%char && Re.at_eol (Claims.skip_digits u)
  | EmptyString => false
  end || Re.at_eol (Claims.skip_digits s).

(** [\.?[0-9]*$] *)
Lemma go_fraction i s caps :
  some (Re.go (Re.Seq (Re.Opt (Re.Chr "."%char)) (Re.Seq (Re.StarCls Re.is_digit) Re.Eol))
          i s caps k0) = tail_ok s.
Proof.
  cbn [Re.go]. rewrite some_first_some. unfold tail_ok. f_equal.
  - destruct s as [|d u]; [reflexivity|].
    destruct (Ascii.eqb d "."%char); [|reflexivity].
    simpl. apply (go_digits_eol (S i) u caps).
  - apply (go_digits_eol i s caps).
Qed.

Lemma tail_ok_digit c t :
  Re.is_digit c = true ->
  tail_ok (Claims.skip_digits t) || tail_ok (String c t) = tail_ok (Claims.skip_digits t).
Proof.
  intros E. unfold tail_ok. cbn [Claims.skip_digits]. rewrite E, skip_digits_idem.
  rewrite Ascii.eqb_sym, (digit_not_dot c E). simpl.
  destruct (Re.at_eol (Claims.skip_digits t)); [now rewrite !orb_true_r | now rewrite !orb_false_r].
Qed.

Lemma star_digits_fraction i t caps :
  some (Re.star_cls Re.is_digit i t
          (fun j t' => Re.go (Re.Seq (Re.Opt (Re.Chr "."%char))
                                (Re.Seq (Re.StarCls Re.is_digit) Re.Eol)) j t' caps k0))
  = tail_ok (Claims.skip_digits t).
Proof.
  revert i. induction t as [|c t IH]; intros i.
  - cbn [Re.star_cls Claims.skip_digits]. apply go_fraction.
  - cbn [Re.star_cls Claims.skip_digits]. destruct (Re.is_digit c) eqn:E.
    + rewrite some_first_some, IH, go_fraction. apply (tail_ok_digit c t E).
    + apply go_fraction.
Qed.

(** What the pattern accepts, read off the matcher. *)
Definition pattern_accepts (s : string) : bool :=
  match Claims.skip_sign s with
  | String c t => Re.is_digit c && tail_ok (Claims.skip_digits t)
  | EmptyString => false
  end.

Lemma go_integer i s caps :
  some (Re.go (Re.Seq (Re.PlusCls Re.is_digit)
                (Re.Seq (Re.Opt (Re.Chr "."%char))
                   (Re.Seq (Re.StarCls Re.is_digit) Re.Eol))) i s caps k0)
  = match s with
    | String c t => Re.is_digit c && tail_ok (Claims.skip_digits t)
    | EmptyString => false
    end.
Proof.
  cbn [Re.go]. destruct s as [|c t]; [reflexivity|].
  destruct (Re.is_digit c); [|reflexivity]. simpl. apply star_digits_fraction.
Qed.

Lemma go_cls p i c t caps k :
  Re.go (Re.Cls p) i (String c t) caps k = if p c then k (S i) t caps else None.
Proof. reflexivity. Qed.

Lemma numeric_re_accepts s :
  some (Re.re_match Re.numeric_re s) = pattern_accepts s.
Proof.
  unfold Re.re_match, Re.numeric_re, pattern_accepts.
  change (some (Re.first_some
                  (Re.go (Re.Cls Re.is_sign) 0 s []
                     (fun j t caps' =>
                        Re.go (Re.Seq (Re.PlusCls Re.is_digit)
                                 (Re.Seq (Re.Opt (Re.Chr "."%char))
                                    (Re.Seq (Re.StarCls Re.is_digit) Re.Eol))) j t caps' k0))
                  (Re.go (Re.Seq (Re.PlusCls Re.is_digit)
                            (Re.Seq (Re.Opt (Re.Chr "."%char))
                               (Re.Seq (Re.StarCls Re.is_digit) Re.Eol))) 0 s [] k0))
          = match Claims.skip_sign s with
            | String c t => Re.is_digit c && tail_ok (Claims.skip_digits t)
            | EmptyString => false
            end).
  rewrite some_first_some, go_integer.
  destruct s as [|c t]; [reflexivity|].
  rewrite go_cls. cbn [Claims.skip_sign]. destruct (Re.is_sign c) eqn:E.
  - cbv beta. rewrite go_integer, (sign_not_digit c E). simpl. apply orb_false_r.
  - reflexivity.
Qed.

Definition starts_digit (x : string) : bool :=
  match x with String c _ => Re.is_digit c | EmptyString => false end.

Definition fraction_ok (r : string) : bool :=
  match r with
  | EmptyString => true
  | String d frac => Ascii.eqb d "."%char && Claims.all_digits frac
  end.

Abbreviation nl1 := (Py.str1 Py.nl).

Lemma signed_decimal_unfold s :
  Claims.signed_decimal s
  = starts_digit (Claims.skip_sign s) && fraction_ok (Claims.skip_digits (Claims.skip_sign s)).
Proof. unfold Claims.signed_decimal. now destruct (Claims.skip_sign s). Qed.

Lemma pattern_accepts_unfold s :
  pattern_accepts s
  = starts_digit (Claims.skip_sign s) && tail_ok (Claims.skip_digits (Claims.skip_sign s)).
Proof.
  unfold pattern_accepts. destruct (Claims.skip_sign s) as [|c t]; [reflexivity|].
  cbn [starts_digit Claims.skip_digits]. now destruct (Re.is_digit c).
Qed.

Lemma app_nl_not_empty (a : string) : a +:+ nl1 <> "".
Proof. now destruct a. Qed.

Lemma skip_digits_app_nl x : Claims.skip_digits (x +:+ nl1) = Claims.skip_digits x +:+ nl1.
Proof.
  induction x as [|c t IH]; [reflexivity|]. simpl.
  destruct (Re.is_digit c); [exact IH | reflexivity].
Qed.

Lemma all_digits_skip u : Claims.all_digits u = true -> Claims.skip_digits u = "".
Proof.
  induction u as [|c t IH]; simpl; [reflexivity|].
  destruct (Re.is_digit c); simpl; [exact IH | discriminate].
Qed.

Lemma skip_empty_all_digits u : Claims.skip_digits u = "" -> Claims.all_digits u = true.
Proof.
  induction u as [|c t IH]; simpl; [reflexivity|].
  destruct (Re.is_digit c); simpl; [exact IH | discriminate].
Qed.

Lemma skip_digits_nl_inv x r :
  Claims.skip_digits x = r +:+ nl1 ->
  exists x', x = x' +:+ nl1 /\ Claims.skip_digits x' = r
             /\ starts_digit x' = starts_digit x.
Proof.
  revert r. induction x as [|c t IH]; intros r H; simpl in H.
  - symmetry in H. now apply app_nl_not_empty in H.
  - destruct (Re.is_digit c) eqn:E.
    + destruct (IH r H) as (t' & -> & Ht' & _).
      exists (String c t'). simpl. now rewrite E.
    + exists r. split; [exact H|]. destruct r as [|d r]; simpl in H.
      * injection H as -> _. now split.
      * injection H as -> _. simpl. rewrite E. now split.
Qed.

Lemma at_eol_skip_digits u :
  Re.at_eol (Claims.skip_digits u) = true <->
  Claims.all_digits u = true
  \/ exists u', u = u' +:+ nl1 /\ Claims.all_digits u' = true.
Proof.
  split.
  - intros H. destruct (Claims.skip_digits u) as [|c [|d r]] eqn:Hs; try discriminate H.
    + left. now apply skip_empty_all_digits.
    + right. simpl in H. apply Ascii.eqb_eq in H. subst c.
      destruct (skip_digits_nl_inv u "" Hs) as (u' & -> & Hu' & _).
      exists u'. split; [reflexivity | now apply skip_empty_all_digits].
  - intros [H | (u' & -> & H)].
    + now rewrite (all_digits_skip u H).
    + now rewrite skip_digits_app_nl, (all_digits_skip u' H).
Qed.

Lemma tail_ok_spec r :
  Claims.skip_digits r = r ->
  tail_ok r = true <->
  fraction_ok r = true \/ exists r', r = r' +:+ nl1 /\ fraction_ok r' = true
                                       /\ Claims.skip_digits r' = r'.
Proof.
  intros Hr. unfold tail_ok. rewrite Hr, orb_true_iff. split.
  - intros [H | H].
    + destruct r as [|d u]; [discriminate H|]. apply andb_true_iff in H as [Hd Hu].
      apply at_eol_skip_digits in Hu as [Hu | (u' & -> & Hu')].
      * left. simpl. now rewrite Hd, Hu.
      * right. exists (String d u'). simpl. rewrite Hd, Hu'.
        apply Ascii.eqb_eq in Hd. subst d. repeat split.
    + destruct r as [|c [|d r]]; try discriminate H.
      * now left.
      * right. exists "". simpl in H. apply Ascii.eqb_eq in H. subst c. repeat split.
  - intros [H | (r' & -> & H & _)].
    + destruct r as [|d u]; [now right|]. left. simpl in H.
      apply andb_true_iff in H as [Hd Hu]. rewrite Hd. simpl.
      apply at_eol_skip_digits. now left.
    + destruct r' as [|d u]; [now right|]. left. simpl in H.
      apply andb_true_iff in H as [Hd Hu]. simpl. rewrite Hd. simpl.
      apply at_eol_skip_digits. right. now exists u.
Qed.

Lemma skip_sign_app_nl s :
  starts_digit (Claims.skip_sign s) = true ->
  Claims.skip_sign (s +:+ nl1) = Claims.skip_sign s +:+ nl1.
Proof.
  destruct s as [|c t]; [discriminate|]. simpl. now destruct (Re.is_sign c).
Qed.

Lemma starts_digit_app_nl x : starts_digit x = true -> starts_digit (x +:+ nl1) = true.
Proof. now destruct x. Qed.

Lemma starts_digit_skip_sign x : starts_digit x = true -> Claims.skip_sign x = x.
Proof.
  destruct x as [|c t]; [discriminate|]. simpl. intros E.
  destruct (Re.is_sign c) eqn:Es; [|reflexivity].
  apply sign_not_digit in Es. congruence.
Qed.

(** The pattern accepts the signed decimals and, because [$] also matches
    before a final newline, the signed decimals followed by one newline. *)
Lemma pattern_accepts_spec s :
  pattern_accepts s = true <->
  Claims.signed_decimal s = true
  \/ exists s', s = s' +:+ nl1 /\ Claims.signed_decimal s' = true.
Proof.
  rewrite pattern_accepts_unfold, andb_true_iff.
  rewrite (tail_ok_spec _ (skip_digits_idem _)). split.
  - intros [Hd [Hf | (r' & Hr & Hf & Hr')]].
    + left. rewrite signed_decimal_unfold, Hd, Hf. reflexivity.
    + right. destruct (skip_digits_nl_inv _ _ Hr) as (x' & Hx & Hx' & Hsd).
      rewrite Hd in Hsd.
      assert (Hs' : exists s', s = s' +:+ nl1 /\ Claims.skip_sign s' = x').
      { destruct s as [|c t]; [discriminate Hd|]. simpl in Hx, Hd.
        destruct (Re.is_sign c) eqn:Es.
        - exists (String c x'). simpl. rewrite Es, Hx. now split.
        - exists x'. split; [exact Hx | now apply starts_digit_skip_sign]. }
      destruct Hs' as (s' & -> & Hss). exists s'. split; [reflexivity|].
      rewrite signed_decimal_unfold, Hss, Hsd, Hx', Hf. reflexivity.
  - intros [H | (s' & -> & H)]; rewrite signed_decimal_unfold in H;
      apply andb_true_iff in H as [Hd Hf].
    + split; [exact Hd | now left].
    + rewrite (skip_sign_app_nl s' Hd), skip_digits_app_nl.
      split; [now apply starts_digit_app_nl|].
      right. exists (Claims.skip_digits (Claims.skip_sign s')).
      split; [reflexivity|]. split; [exact Hf | apply skip_digits_idem].
Qed.

Lemma is_numeric_text s :
  PrometheusFormatter.is_numeric (VStr s) = pattern_accepts s.
Proof. unfold PrometheusFormatter.is_numeric. now rewrite bool_decide_is_Some, numeric_re_accepts. Qed.

Lemma is_numeric_spec v :
  PrometheusFormatter.is_numeric v = true <->
  match v with
  | VInt _ | VFloat _ => True
  | VStr s => Claims.signed_decimal s = true
              \/ exists s', s = s' +:+ nl1 /\ Claims.signed_decimal s' = true
  end.
Proof.
  destruct v as [z|f|s]; [easy | easy |].
  rewrite is_numeric_text. apply pattern_accepts_spec.
Qed.

(** The rendering rule holds as the specification words it for every int,
    every float and every text that does not end in a newline. *)
Lemma reading_line_by_the_rule id key v :
  match v with VStr s => forall s', s <> s' +:+ nl1 | _ => True end ->
  PrometheusFormatter.reading_line id (key, v)
  = if match v with VStr s => Claims.signed_decimal s | _ => true end
    then PrometheusFormatter.numeric_line (PrometheusFormatter.metric_name key) id
           (format_value v)
    else PrometheusFormatter.labelled_line (PrometheusFormatter.metric_name key) id
           "str" (format_value v) "1".
Proof.
  intros Hnl. unfold PrometheusFormatter.reading_line.
  destruct v as [z|f|s]; [reflexivity | reflexivity |].
  destruct (Claims.signed_decimal s) eqn:Hs.
  - assert (H : PrometheusFormatter.is_numeric (VStr s) = true)
      by (apply is_numeric_spec; now left).
    now rewrite H.
  - destruct (PrometheusFormatter.is_numeric (VStr s)) eqn:H; [|reflexivity].
    apply is_numeric_spec in H as [H | (s' & -> & _)]; [congruence|].
    now destruct (Hnl s').
Qed.

(** C3, at the input where the code departs from it: the text [73] followed
    by a newline is no signed decimal, yet the pattern's [$] accepts it and
    the reading is emitted as a bare value, newline included, instead of a
    [str]-labelled line with value 1. *)
Theorem C3_trailing_newline_rendered_as_number :
  Claims.signed_decimal ("73" +:+ nl1) = false
  /\ PrometheusFormatter.is_numeric (VStr ("73" +:+ nl1)) = true
  /\ PrometheusFormatter.reading_line "!a1b2c3d4" ("Battery", VStr ("73" +:+ nl1))
     = PrometheusFormatter.numeric_line "meshtastic_battery" "!a1b2c3d4" ("73" +:+ nl1)
  /\ PrometheusFormatter.reading_line "!a1b2c3d4" ("Battery", VStr ("73" +:+ nl1))
     <> PrometheusFormatter.labelled_line "meshtastic_battery" "!a1b2c3d4" "str"
          ("73" +:+ nl1) "1".
Proof. repeat split; try reflexivity. vm_compute. discriminate. Qed.
(** ** C5: the push client *)
Lemma truthy_empty s : Py.truthy s = false <-> s = "".
Proof. destruct s; simpl; split; congruence. Qed.

Lemma literal_app_not_empty c (a b : string) : String c a +:+ b <> "".
Proof. discriminate. Qed.

(** What [send] does, by the three ways it can end. *)
Lemma send_cases (E : env) (self : PrometheusPushGateway.t) (lines : list string) (w : world) :
  let req := PrometheusPushGateway.build_request self lines in
  Py.truthy (PrometheusPushGateway.push_url self) = true ->
  (PrometheusPushGateway.send E req w = (Ok 200, add_request req w)
   /\ Claims.delivered E self lines = true /\ Claims.sent E self lines = [req])
  \/ (exists status, status <> 200
        /\ PrometheusPushGateway.send E req w = (Ok status, add_request req w)
        /\ Claims.delivered E self lines = false /\ Claims.sent E self lines = [req])
  \/ (exists e, PrometheusPushGateway.send E req w = (Raise e, add_request req w)
        /\ Claims.delivered E self lines = false /\ Claims.sent E self lines = [req])
  \/ (exists e, PrometheusPushGateway.send E req w = (Raise e, w)
        /\ Claims.delivered E self lines = false /\ Claims.sent E self lines = []).
Proof.
  intros req Hurl. unfold PrometheusPushGateway.send, Claims.delivered, Claims.sent.
  fold req. rewrite Hurl.
  destruct (PrometheusPushGateway.request_error E req) as [e|].
  - right; right; right. exists e. repeat split.
  - unfold PrometheusPushGateway.urlopen_request.
    destruct (urlopen E req) as [status reason|e].
    + destruct ((200 <=? status) && (status <? 300)) eqn:Hrange.
      * destruct (Z.eqb_spec status 200) as [->|Hne].
        -- left. repeat split.
        -- right; left. exists status. repeat split; assumption.
      * right; right; left. exists (HTTPError status reason).
        assert (Hne : (status =? 200) = false).
        { apply Z.eqb_neq. intros ->. discriminate Hrange. }
        rewrite Hne. repeat split.
    + right; right; left. exists e. repeat split.
Qed.

Ltac push_goal :=
  repeat match goal with
         | |- _ /\ _ => split
         | |- _ <-> _ => split
         end;
  first
    [ reflexivity
    | now rewrite app_nil_r
    | intros [Hu | Hf]; [contradiction | discriminate Hf]
    | intros Hu; contradiction
    | intros H; discriminate H
    | intros _; first [ reflexivity | now left | now right
                      | now repeat split
                      | apply literal_app_not_empty | discriminate
                      | eexists; (split; [|reflexivity]);
                        first [apply literal_app_not_empty | discriminate] ] ].

Lemma library_push_returns (E : env) (self : PrometheusPushGateway.t)
    (metrics_data : list string) (w : world) :
  exists ok reason w',
    PrometheusPushGateway.push_metrics E self metrics_data w = (Ok (ok, reason), w')
    /\ (ok = true <->
        PrometheusPushGateway.push_url self = ""
        \/ Claims.delivered E self metrics_data = true)
    /\ (ok = true -> reason = "")
    /\ (ok = false -> reason <> "")
    /\ (PrometheusPushGateway.push_url self = "" -> ok = true /\ reason = "" /\ w' = w)
    /\ requests w' = (requests w ++ Claims.sent E self metrics_data)%list
    /\ files w' = files w /\ logged w' = logged w.
Proof.
  unfold PrometheusPushGateway.push_metrics.
  destruct (Py.truthy (PrometheusPushGateway.push_url self)) eqn:Hurl; cbn [negb].
  - assert (Hset : PrometheusPushGateway.push_url self <> "")
      by (intros Hu; apply truthy_empty in Hu; congruence).
    unfold try_except, bind.
    destruct (send_cases E self metrics_data w Hurl)
      as [(Hrun & Hd & Hs) | [(status & Hne & Hrun & Hd & Hs)
         | [(e & Hrun & Hd & Hs) | (e & Hrun & Hd & Hs)]]];
      rewrite Hrun, Hd, Hs.
    + cbn. eexists _, _, _. split; [reflexivity|]. push_goal.
    + apply Z.eqb_neq in Hne. rewrite Hne. cbn. eexists _, _, _.
      split; [reflexivity|]. push_goal.
    + destruct (is_URLError e); cbn; eexists _, _, _; (split; [reflexivity|]); push_goal.
    + destruct (is_URLError e); cbn; eexists _, _, _; (split; [reflexivity|]); push_goal.
  - apply truthy_empty in Hurl. exists true, "", w. unfold Claims.sent. rewrite Hurl.
    cbn. split; [reflexivity|]. push_goal.
Qed.

Lemma daemon_push_returns (E : env) (self : PrometheusPushGateway.t)
    (metrics_data : list string) (w : world) :
  exists ok w',
    Daemon.push_metrics E self metrics_data w = (Ok ok, w')
    /\ (ok = true <->
        PrometheusPushGateway.push_url self = ""
        \/ Claims.delivered E self metrics_data = true)
    /\ (ok = false -> exists reason,
           reason <> "" /\ logged w' = (logged w ++ [("error", reason)])%list)
    /\ (PrometheusPushGateway.push_url self = "" -> ok = true /\ w' = w)
    /\ requests w' = (requests w ++ Claims.sent E self metrics_data)%list
    /\ files w' = files w.
Proof.
  unfold Daemon.push_metrics.
  destruct (Py.truthy (PrometheusPushGateway.push_url self)) eqn:Hurl; cbn [negb].
  - assert (Hset : PrometheusPushGateway.push_url self <> "")
      by (intros Hu; apply truthy_empty in Hu; congruence).
    unfold try_except, bind.
    destruct (send_cases E self metrics_data w Hurl)
      as [(Hrun & Hd & Hs) | [(status & Hne & Hrun & Hd & Hs)
         | [(e & Hrun & Hd & Hs) | (e & Hrun & Hd & Hs)]]];
      rewrite Hrun, Hd, Hs.
    + cbn. eexists _, _. split; [reflexivity|]. push_goal.
    + apply Z.eqb_neq in Hne. rewrite Hne. cbn. eexists _, _.
      split; [reflexivity|]. push_goal.
    + destruct (is_URLError e); cbn; eexists _, _; (split; [reflexivity|]); push_goal.
    + destruct (is_URLError e); cbn; eexists _, _; (split; [reflexivity|]); push_goal.
  - apply truthy_empty in Hurl. exists true, w. unfold Claims.sent. rewrite Hurl.
    cbn. split; [reflexivity|]. push_goal.
Qed.

(** C5.  The library's [push_metrics] always returns a pair of a success
    flag and a reason and never raises, whatever the request and the
    remote end do.  The flag is true exactly when no push URL is set or
    the push was delivered (the request could be built and the gateway
    answered it with the status 200); every other outcome, a URL that
    [Request] refuses, an exception of [urlopen], an HTTP error or
    another status, comes back as the flag false.  The reason is empty on
    success and not empty on failure.  With no push URL the call returns
    success with an empty reason and leaves the world as it was; the
    requests sent are the one request of the push when one could be
    built, and none otherwise.  The daemon's [push_metrics] likewise
    always returns its flag, true in exactly the same cases, hands the
    reason of a failure to the logger, and sends the same requests. *)
Theorem C5_push_returns_and_never_raises :
  forall (E : env) (self : PrometheusPushGateway.t) (metrics_data : list string) (w : world),
    (exists ok reason w',
        PrometheusPushGateway.push_metrics E self metrics_data w = (Ok (ok, reason), w')
        /\ (ok = true <->
            PrometheusPushGateway.push_url self = ""
            \/ Claims.delivered E self metrics_data = true)
        /\ (ok = true -> reason = "")
        /\ (ok = false -> reason <> "")
        /\ (PrometheusPushGateway.push_url self = "" ->
            ok = true /\ reason = "" /\ w' = w)
        /\ requests w' = (requests w ++ Claims.sent E self metrics_data)%list)
    /\ (exists ok w',
           Daemon.push_metrics E self metrics_data w = (Ok ok, w')
           /\ (ok = true <->
               PrometheusPushGateway.push_url self = ""
               \/ Claims.delivered E self metrics_data = true)
           /\ (ok = false -> exists reason,
                  reason <> ""
                  /\ logged w' = (logged w ++ [("error", reason)])%list)
           /\ (PrometheusPushGateway.push_url self = "" -> ok = true /\ w' = w)
           /\ requests w' = (requests w ++ Claims.sent E self metrics_data)%list).
Proof.
  intros E self metrics_data w. split.
  - destruct (library_push_returns E self metrics_data w)
      as (ok & reason & w' & H1 & H2 & H3 & H4 & H5 & H6 & _).
    now exists ok, reason, w'.
  - destruct (daemon_push_returns E self metrics_data w)
      as (ok & w' & H1 & H2 & H3 & H4 & H5 & _).
    now exists ok, w'.
Qed.

(** A push URL without a type: [Request] refuses it, nothing is sent and
    the failure comes back as a value. *)
Example push_to_a_url_without_type :
  PrometheusPushGateway.push_metrics Scenario.healthy
    {| PrometheusPushGateway.push_url := "pushgateway/";
       PrometheusPushGateway.job_name := "meshtastic";
       PrometheusPushGateway.instance := "";
       PrometheusPushGateway.timeout := 30 |}
    ["meshtastic_up 1"] Scenario.fresh
  = (Ok (false, "Unexpected error pushing metrics: unknown url type: 'pushgateway/metrics/job/meshtastic'"),
     Scenario.fresh).
Proof. vm_compute. reflexivity. Qed.

(** ** The statistics under the sinks *)
Import Claims.

Lemma keeps_ret {A} (a : A) : keeps_stats (ret a).
Proof. intros w. reflexivity. Qed.

Lemma keeps_raise {A} (e : pyexn) : keeps_stats (@raise A e).
Proof. intros w. reflexivity. Qed.

Lemma keeps_log level msg : keeps_stats (log level msg).
Proof. intros w. reflexivity. Qed.

Lemma keeps_bind {A B} (m : M A) (f : A -> M B) :
  keeps_stats m -> (forall a, keeps_stats (f a)) -> keeps_stats (bind m f).
Proof.
  intros Hm Hf w. unfold bind. specialize (Hm w).
  destruct (m w) as [[a|e] w1]; simpl in *; [now rewrite Hf | exact Hm].
Qed.

Lemma keeps_try {A} (m : M A) (h : pyexn -> M A) :
  keeps_stats m -> (forall e, keeps_stats (h e)) -> keeps_stats (try_except m h).
Proof.
  intros Hm Hh w. unfold try_except. specialize (Hm w).
  destruct (m w) as [[a|e] w1]; simpl in *; [exact Hm | now rewrite Hh].
Qed.

Lemma keeps_if {A} (c : bool) (m1 m2 : M A) :
  keeps_stats m1 -> keeps_stats m2 -> keeps_stats (if c then m1 else m2).
Proof. now destruct c. Qed.

Lemma keeps_for_each {A} (l : list A) (body : A -> M unit) :
  (forall a, keeps_stats (body a)) -> keeps_stats (for_each l body).
Proof.
  intros Hb. induction l as [|a l IH]; simpl; [apply keeps_ret|].
  apply keeps_bind; [apply Hb | intros _; exact IH].
Qed.

Lemma keeps_mkstemp pl p : keeps_stats (Os.mkstemp pl p).
Proof.
  intros w. unfold Os.mkstemp. destruct (mkstemp_error pl); [reflexivity|].
  now destruct (Os.first_free _ _ _).
Qed.

Lemma keeps_write_flush pl p c : keeps_stats (Os.write_flush pl p c).
Proof. intros w. unfold Os.write_flush. now destruct (write_error pl). Qed.

Lemma keeps_fsync pl p : keeps_stats (Os.fsync pl p).
Proof. intros w. unfold Os.fsync. now destruct (fsync_error pl). Qed.

Lemma keeps_rename pl a b : keeps_stats (Os.rename pl a b).
Proof.
  intros w. unfold Os.rename. destruct (rename_error pl); [reflexivity|].
  now destruct (files w !! a).
Qed.

Lemma keeps_unlink f p : keeps_stats (Os.unlink f p).
Proof.
  intros w. unfold Os.unlink. destruct f; [reflexivity|]. now destruct (files w !! p).
Qed.

Lemma keeps_rename_nt pl a b : keeps_stats (Os.rename_nt pl a b).
Proof.
  intros w. unfold Os.rename_nt. destruct (files w !! b); [reflexivity | apply keeps_rename].
Qed.

Lemma keeps_copy2 pl a b : keeps_stats (Os.copy2 pl a b).
Proof.
  intros w. unfold Os.copy2. destruct (files w !! a); [|reflexivity].
  destruct (copy_open_error pl); [reflexivity|].
  destruct (copy_write_error pl); [reflexivity|].
  now destruct (copystat_error pl).
Qed.

Lemma keeps_move pl a b : keeps_stats (Os.move pl a b).
Proof.
  unfold Os.move. apply keeps_try; [apply keeps_rename_nt|].
  intros e. destruct e; try apply keeps_raise.
  apply keeps_bind; [apply keeps_copy2 | intros _; apply keeps_unlink].
Qed.

Lemma keeps_exists p : keeps_stats (Os.exists_ p).
Proof. intros w. reflexivity. Qed.

Lemma keeps_open_w pl p : keeps_stats (Os.open_w pl p).
Proof. intros w. unfold Os.open_w. now destruct (open_error pl). Qed.

Lemma keeps_mkdir E d : keeps_stats (PrometheusFileWriter.mkdir E d).
Proof. unfold PrometheusFileWriter.mkdir. apply keeps_if; [apply keeps_raise | apply keeps_ret]. Qed.

Lemma keeps_cleanup pl tp : keeps_stats (Atomic.cleanup pl tp).
Proof.
  destruct tp as [tmp|]; simpl; [|apply keeps_ret].
  apply keeps_bind; [apply keeps_exists|]. intros present. apply keeps_if; [|apply keeps_ret].
  apply keeps_try; [apply keeps_unlink | intros _; apply keeps_ret].
Qed.

Lemma try_block_keeps os pl content filepath w :
  daemon_stats (snd (Atomic.try_block os pl content filepath w)) = daemon_stats w.
Proof.
  unfold Atomic.try_block.
  pose proof (keeps_mkstemp pl filepath w) as H1.
  destruct (Os.mkstemp pl filepath w) as [[tmp|e] w1]; simpl in H1; [|exact H1].
  assert (K2 : keeps_stats (Os.write_flush pl tmp content ;;; Os.fsync pl tmp)).
  { apply keeps_bind; [apply keeps_write_flush | intros _; apply keeps_fsync]. }
  pose proof (K2 w1) as H2.
  destruct ((Os.write_flush pl tmp content ;;; Os.fsync pl tmp) w1) as [[[]|e] w2];
    simpl in H2; [|simpl; congruence].
  assert (K3 : keeps_stats
                 (match os with
                  | nt => present <- Os.exists_ filepath ;;
                          (if present then Os.unlink (target_unlink_error pl) filepath
                           else ret tt) ;;;
                          Os.move pl tmp filepath
                  | posix => Os.rename pl tmp filepath
                  end)).
  { destruct os; [apply keeps_rename|].
    apply keeps_bind; [apply keeps_exists|]. intros present.
    apply keeps_bind; [|intros _; apply keeps_move].
    apply keeps_if; [apply keeps_unlink | apply keeps_ret]. }
  pose proof (K3 w2) as H3.
  match goal with |- context [match ?m w2 with _ => _ end] => destruct (m w2) as [[[]|e] w3] end;
    simpl in *; congruence.
Qed.

Lemma keeps_lib_atomic E content filepath :
  keeps_stats (PrometheusFileWriter.write_output_atomic E content filepath).
Proof.
  intros w. unfold PrometheusFileWriter.write_output_atomic.
  pose proof (try_block_keeps (platform E) (plan_for E filepath) content filepath w) as H.
  destruct (Atomic.try_block _ _ _ _ w) as [[[[]|e] tp] w1]; simpl in H; [exact H|].
  rewrite <- H. apply keeps_bind; [apply keeps_cleanup | intros _; apply keeps_raise].
Qed.

Lemma keeps_daemon_atomic E content filepath :
  keeps_stats (Daemon.write_output_atomic E content filepath).
Proof.
  intros w. unfold Daemon.write_output_atomic.
  pose proof (try_block_keeps (platform E) (plan_for E filepath) content filepath w) as H.
  destruct (Atomic.try_block _ _ _ _ w) as [[[[]|e] tp] w1]; simpl in H; [exact H|].
  rewrite <- H. apply keeps_bind; [apply keeps_log|]. intros _.
  apply keeps_bind; [apply keeps_cleanup | intros _; apply keeps_raise].
Qed.

Lemma keeps_write_plain E content filepath :
  keeps_stats (PrometheusFileWriter.write_plain E content filepath).
Proof. apply keeps_bind; [apply keeps_open_w | intros _; apply keeps_write_flush]. Qed.

Lemma keeps_write_logged E cfg what content filepath :
  keeps_stats (Daemon.write_logged E cfg what content filepath).
Proof.
  apply keeps_try; [|intros e; apply keeps_log].
  apply keeps_if; [apply keeps_daemon_atomic | apply keeps_write_plain].
Qed.

Lemma keeps_write_files E cfg lines : keeps_stats (Daemon.write_files E cfg lines).
Proof.
  unfold Daemon.write_files. apply keeps_if; [|apply keeps_ret].
  apply keeps_bind; [apply keeps_mkdir|]. intros _. apply keeps_if.
  - apply keeps_for_each. intros [node_id ls]. apply keeps_write_logged.
  - apply keeps_write_logged.
Qed.

Lemma keeps_send E req : keeps_stats (PrometheusPushGateway.send E req).
Proof.
  intros w. unfold PrometheusPushGateway.send, PrometheusPushGateway.urlopen_request.
  destruct (PrometheusPushGateway.request_error E req); [reflexivity|].
  destruct (urlopen E req) as [status reason|e]; [|reflexivity].
  now destruct ((200 <=? status) && (status <? 300)).
Qed.

Lemma keeps_daemon_push E exporter lines : keeps_stats (Daemon.push_metrics E exporter lines).
Proof.
  unfold Daemon.push_metrics. apply keeps_if; [apply keeps_ret|].
  apply keeps_try.
  - apply keeps_bind; [apply keeps_send|]. intros status.
    apply keeps_if; (apply keeps_bind; [apply keeps_log | intros _; apply keeps_ret]).
  - intros e. apply keeps_if; (apply keeps_bind; [apply keeps_log | intros _; apply keeps_ret]).
Qed.

Lemma stats_after_update E cfg processed successful w :
  daemon_stats (snd (Daemon.update_stats E cfg processed successful w))
  = Daemon.count_poll (now E) processed successful (daemon_stats w).
Proof.
  unfold Daemon.update_stats, bind at 1 2. unfold get_stats at 1, put_stats at 1.
  cbv beta iota.
  set (w1 := set_stats _ w).
  change (Daemon.count_poll (now E) processed successful (daemon_stats w))
    with (daemon_stats w1).
  generalize w1. apply keeps_if; [|apply keeps_ret].
  apply keeps_bind.
  - apply keeps_if; [apply keeps_mkdir | apply keeps_ret].
  - intros _. apply keeps_try; [|intros e; apply keeps_log].
    apply keeps_bind; [intros w'; reflexivity|]. intros s'. apply keeps_write_plain.
Qed.

Lemma daemon_push_keeps E exporter lines w :
  exists ok w', Daemon.push_metrics E exporter lines w = (Ok ok, w')
                /\ daemon_stats w' = daemon_stats w
                /\ (ok = true <->
                    PrometheusPushGateway.push_url exporter = ""
                    \/ Claims.delivered E exporter lines = true).
Proof.
  destruct (daemon_push_returns E exporter lines w) as (ok & w' & Hrun & Hok & _).
  exists ok, w'. split; [exact Hrun|]. split; [|exact Hok].
  pose proof (keeps_daemon_push E exporter lines w) as H. now rewrite Hrun in H.
Qed.

Lemma bind_ok {A B} (m : M A) (f : A -> M B) w a w' :
  m w = (Ok a, w') -> bind m f w = f a w'.
Proof. intros H. unfold bind. now rewrite H. Qed.

Lemma bind_raise {A B} (m : M A) (f : A -> M B) w e w' :
  m w = (Raise e, w') -> bind m f w = (Raise e, w').
Proof. intros H. unfold bind. now rewrite H. Qed.

Lemma stats_after_push E exporter lines w :
  PrometheusPushGateway.push_url exporter <> "" ->
  fst (Daemon.push_and_count E exporter lines w) = Ok tt
  /\ daemon_stats (snd (Daemon.push_and_count E exporter lines w))
     = if Claims.delivered E exporter lines
       then Daemon.count_push_successful (daemon_stats w)
       else Daemon.count_push_failed (daemon_stats w).
Proof.
  intros Hurl. unfold Daemon.push_and_count.
  destruct (Py.truthy (PrometheusPushGateway.push_url exporter)) eqn:Ht;
    [|apply truthy_empty in Ht; contradiction].
  destruct (daemon_push_keeps E exporter lines w) as (ok & w' & Hrun & Hst & Hok).
  rewrite (bind_ok _ _ _ _ _ Hrun).
  rewrite (bind_ok get_stats _ w' (daemon_stats w') w' eq_refl).
  destruct ok.
  - assert (Hacc : Claims.delivered E exporter lines = true).
    { destruct (proj1 Hok eq_refl); [contradiction | assumption]. }
    rewrite Hacc, <- Hst. split; reflexivity.
  - assert (Hacc : Claims.delivered E exporter lines = false).
    { destruct (Claims.delivered E exporter lines) eqn:Ha; [|reflexivity].
      assert (false = true) by (apply Hok; now right). discriminate. }
    rewrite Hacc, <- Hst. split; reflexivity.
Qed.

Lemma stats_after_push_disabled E exporter lines w :
  PrometheusPushGateway.push_url exporter = "" ->
  Daemon.push_and_count E exporter lines w = (Ok tt, w).
Proof. intros Hurl. unfold Daemon.push_and_count. now rewrite Hurl. Qed.

(** [write_output] leaves the statistics alone or counts one push; when it
    raises, it has not got to the push. *)
Lemma stats_after_output E cfg exporter lines w :
  (daemon_stats (snd (Daemon.write_output E cfg exporter lines w)) = daemon_stats w
   \/ daemon_stats (snd (Daemon.write_output E cfg exporter lines w))
      = Daemon.count_push_successful (daemon_stats w)
   \/ daemon_stats (snd (Daemon.write_output E cfg exporter lines w))
      = Daemon.count_push_failed (daemon_stats w))
  /\ (fst (Daemon.write_output E cfg exporter lines w) <> Ok tt ->
      daemon_stats (snd (Daemon.write_output E cfg exporter lines w)) = daemon_stats w).
Proof.
  unfold Daemon.write_output, bind.
  pose proof (keeps_write_files E cfg lines w) as Hf.
  destruct (Daemon.write_files E cfg lines w) as [[[]|e] w1]; simpl in Hf;
    [|split; [now left | intros _; exact Hf]].
  rewrite <- Hf.
  destruct (String.eqb_spec (PrometheusPushGateway.push_url exporter) "") as [Hu|Hu].
  - rewrite (stats_after_push_disabled E exporter lines w1 Hu). split; [now left | reflexivity].
  - destruct (stats_after_push E exporter lines w1 Hu) as [Hok ->]. split.
    + destruct (Claims.delivered E exporter lines); [right; now left | right; now right].
    + intros H. contradiction.
Qed.

Lemma counters_le_refl s : counters_le s s.
Proof. unfold counters_le. lia. Qed.

Lemma output_counters_le E cfg exporter lines w :
  counters_le (daemon_stats w)
    (daemon_stats (snd (Daemon.write_output E cfg exporter lines w))).
Proof.
  destruct (proj1 (stats_after_output E cfg exporter lines w)) as [-> | [-> | ->]];
    unfold counters_le; simpl; lia.
Qed.

(** *** What the loop of a cycle counts *)
Lemma keeps_poll_loop globals E devices :
  forall i acc, keeps_stats (Daemon.poll_loop_in globals E devices i acc).
Proof.
  induction devices as [|device rest IH]; intros i acc; cbn [Daemon.poll_loop_in];
    [apply keeps_ret|].
  apply keeps_if; [apply keeps_ret|].
  apply keeps_bind; [apply keeps_log|]. intros _.
  apply keeps_bind; [destruct (telemetry_of E _); apply keeps_log|]. intros _.
  apply keeps_bind; [intros w; reflexivity|]. intros output_lines. apply IH.
Qed.

Lemma poll_loop_counts globals E devices :
  forall i acc w acc' w1,
    Daemon.poll_loop_in globals E devices i acc w = (Ok acc', w1) ->
    Daemon.acc_processed acc'
    = Daemon.acc_processed acc + Z.of_nat (length (polled_from E devices i))
    /\ Daemon.acc_successful acc'
       = Daemon.acc_successful acc
         + Z.of_nat (length (List.filter (yielded E) (polled_from E devices i))).
Proof.
  induction devices as [|device rest IH]; intros i acc w acc' w1;
    cbn [Daemon.poll_loop_in polled_from].
  - intros [= <- _]. cbn. lia.
  - destruct (running_at E i); cbn [negb].
    + unfold bind, log, lift.
      destruct (Daemon.format_prometheus_output globals (field device "node_id")
                  (telemetry_of E (field device "node_id")) device)
        as [output_lines|e] eqn:Hfmt.
      * destruct (telemetry_of E (field device "node_id")) as [|kv t] eqn:Htel;
          cbv beta iota; intros Hrun; apply IH in Hrun;
          cbn [Daemon.acc_processed Daemon.acc_successful] in Hrun;
          cbn [List.filter length]; unfold yielded at 1; rewrite Htel;
          cbn [nonempty length]; lia.
      * destruct (telemetry_of E (field device "node_id")); cbv beta iota; discriminate.
    + intros [= <- _]. cbn. lia.
Qed.

Lemma count_positive {A} (p : A -> bool) (l : list A) :
  0 < Z.of_nat (length (List.filter p l)) <-> exists a, In a l /\ p a = true.
Proof.
  split.
  - intros H. destruct (List.filter p l) as [|a rest] eqn:Hf; [simpl in H; lia|].
    assert (Hin : In a (List.filter p l)) by (rewrite Hf; now left).
    apply List.filter_In in Hin. now exists a.
  - intros (a & Hin & Hp).
    assert (Hin' : In a (List.filter p l)) by (apply List.filter_In; now split).
    destruct (List.filter p l); [destruct Hin' | simpl; lia].
Qed.

Lemma poll_and_write_spec globals E cfg exporter devices w :
  match Daemon.poll_and_write globals E cfg exporter devices w with
  | (Raise e, w1) => daemon_stats w1 = daemon_stats w
  | (Ok acc, w1) =>
      Daemon.acc_processed acc = Z.of_nat (length (polled E devices))
      /\ Daemon.acc_successful acc
         = Z.of_nat (length (List.filter (yielded E) (polled E devices)))
      /\ counters_le (daemon_stats w) (daemon_stats w1)
      /\ total_polls (daemon_stats w1) = total_polls (daemon_stats w)
      /\ successful_polls (daemon_stats w1) = successful_polls (daemon_stats w)
      /\ failed_polls (daemon_stats w1) = failed_polls (daemon_stats w)
  end.
Proof.
  unfold Daemon.poll_and_write.
  rewrite (bind_ok (log _ _) _ w tt _ eq_refl). cbv beta.
  set (w0 := add_log _ _ w).
  set (acc0 := {| Daemon.acc_processed := 0; Daemon.acc_successful := 0;
                  Daemon.acc_lines := [] |}).
  pose proof (keeps_poll_loop globals E devices 0%nat acc0 w0) as Hk.
  pose proof (poll_loop_counts globals E devices 0%nat acc0 w0) as Hc.
  unfold bind at 1.
  destruct (Daemon.poll_loop_in globals E devices 0 acc0 w0) as [[acc|e] w1];
    cbn [snd] in Hk; [|exact Hk].
  destruct (Hc acc w1 eq_refl) as [Hp Hs]. cbn in Hp, Hs. fold (polled E devices) in Hp, Hs.
  change (daemon_stats w0) with (daemon_stats w) in Hk. rewrite <- Hk.
  destruct (Daemon.acc_lines acc) as [|l ls].
  - cbn. split; [lia|]. split; [lia|]. split; [apply counters_le_refl|]. now repeat split.
  - unfold bind.
    pose proof (stats_after_output E cfg exporter (l :: ls) w1) as [H1 H2].
    pose proof (output_counters_le E cfg exporter (l :: ls) w1) as Hle.
    destruct (Daemon.write_output E cfg exporter (l :: ls) w1) as [[[]|e] w2];
      cbn [fst snd] in *.
    + split; [lia|]. split; [lia|]. split; [exact Hle|].
      destruct H1 as [-> | [-> | ->]]; now repeat split.
    + apply H2. discriminate.
Qed.

Lemma poll_devices_split globals E cfg exporter devices w :
  Daemon.poll_devices_in globals E cfg exporter devices w
  = (acc <- Daemon.poll_and_write globals E cfg exporter devices ;;
     Daemon.update_stats E cfg (Daemon.acc_processed acc) (Daemon.acc_successful acc) ;;;
     log "info" ("Poll completed: " +:+ Py.str_int (Daemon.acc_successful acc) +:+ "/"
                 +:+ Py.str_int (Daemon.acc_processed acc) +:+ " nodes successful")) w.
Proof.
  unfold Daemon.poll_devices_in, Daemon.poll_and_write, bind, log, ret.
  destruct (Daemon.poll_loop_in _ _ _ _ _ _) as [[acc|e] w1]; [|reflexivity].
  destruct (Daemon.acc_lines acc) as [|l ls]; [reflexivity|].
  destruct (Daemon.write_output E cfg exporter (l :: ls) w1) as [[[]|e] w2]; reflexivity.
Qed.

Lemma stats_after_update_and_log E cfg processed successful msg w :
  daemon_stats (snd ((Daemon.update_stats E cfg processed successful ;;; log "info" msg) w))
  = Daemon.count_poll (now E) processed successful (daemon_stats w).
Proof.
  unfold bind. pose proof (stats_after_update E cfg processed successful w) as Hu.
  destruct (Daemon.update_stats E cfg processed successful w) as [[[]|e] w1]; exact Hu.
Qed.

(** As the module stands, the loop of a cycle completes only when it
    polled no device: the renderer raises at the first one. *)
Lemma poll_loop_completes_without_devices E devices i acc w acc' w1 :
  Daemon.poll_loop E devices i acc w = (Ok acc', w1) -> polled_from E devices i = [].
Proof.
  unfold Daemon.poll_loop. destruct devices as [|device rest];
    cbn [Daemon.poll_loop_in polled_from]; [reflexivity|].
  destruct (running_at E i); cbn [negb]; [|reflexivity].
  unfold bind, log, lift.
  rewrite (format_prometheus_output_unbound _ module_globals_unbound).
  destruct (telemetry_of E (field device "node_id")); discriminate.
Qed.

Lemma stats_after_cycle globals E cfg exporter devices w :
  Daemon.poll_devices_in globals E cfg exporter devices w
  = match Daemon.poll_and_write globals E cfg exporter devices w with
    | (Ok acc, w1) =>
        (Daemon.update_stats E cfg (Daemon.acc_processed acc) (Daemon.acc_successful acc) ;;;
         log "info" ("Poll completed: " +:+ Py.str_int (Daemon.acc_successful acc) +:+ "/"
                     +:+ Py.str_int (Daemon.acc_processed acc) +:+ " nodes successful")) w1
    | (Raise e, w1) => (Raise e, w1)
    end.
Proof. rewrite poll_devices_split. reflexivity. Qed.

Lemma poll_invariant s :
  reachable s -> total_polls s = successful_polls s + failed_polls s.
Proof.
  induction 1 as [|E w _ IH|E cfg exporter devices w _ IH
                  |E cfg processed successful w _ IH|E cfg exporter lines w _ IH].
  - reflexivity.
  - exact IH.
  - unfold Daemon.poll_devices. rewrite stats_after_cycle.
    pose proof (poll_and_write_spec Daemon.module_globals E cfg exporter devices w) as Hpw.
    destruct (Daemon.poll_and_write _ E cfg exporter devices w) as [[acc|e] w1].
    + rewrite stats_after_update_and_log. destruct Hpw as (_ & _ & _ & Ht & Hs & Hf).
      cbn [total_polls successful_polls failed_polls Daemon.count_poll].
      destruct (0 <? Daemon.acc_successful acc); lia.
    + cbn [snd]. now rewrite Hpw.
  - rewrite stats_after_update. simpl. destruct (0 <? successful); lia.
  - destruct (proj1 (stats_after_output E cfg exporter lines w)) as [-> | [-> | ->]];
      simpl; exact IH.
Qed.

(** C9.  The stats update at the end of a cycle.  A cycle is the poll of
    the devices with the write of what it collected, [poll_and_write], and
    then [update_stats] with the two counts of the loop.  When the first
    part raises, the cycle ends there and the statistics are as before the
    cycle.  When it returns, the counts handed to [update_stats] are the
    number of devices polled and the number of them that yielded a
    non-empty reading set, and the update raises [total_polls] by exactly
    1 and exactly one of [successful_polls] and [failed_polls] by exactly
    1: [successful_polls] when some polled device yielded a non-empty
    reading set, [failed_polls] when none did; no counter goes down in
    the cycle.  This holds for every binding of the module's names, the
    module's own among them; with the module's own, the loop completes
    only when no device was polled, so that every counted poll is a failed
    one.  [update_stats] counts in the same way whatever counts it is
    called with, no counter goes down under it (for counts that are not
    negative) or under [write_output], and in every state the daemon
    can reach [total_polls] is the sum of [successful_polls] and
    [failed_polls]. *)
Theorem C9_update_stats_counts_each_poll_once :
  (forall (globals : gmap string Daemon.pyobj) (E : env) (cfg : Daemon.config)
          (exporter : PrometheusPushGateway.t) (devices : list (gmap string string))
          (w : world),
      let r := Daemon.poll_devices_in globals E cfg exporter devices w in
      let s' := daemon_stats (snd r) in
      match Daemon.poll_and_write globals E cfg exporter devices w with
      | (Raise e, w1) => r = (Raise e, w1) /\ s' = daemon_stats w
      | (Ok acc, w1) =>
          let s := daemon_stats w1 in
          Daemon.acc_processed acc = Z.of_nat (length (polled E devices))
          /\ Daemon.acc_successful acc
             = Z.of_nat (length (List.filter (yielded E) (polled E devices)))
          /\ s' = Daemon.count_poll (now E) (Daemon.acc_processed acc)
                    (Daemon.acc_successful acc) s
          /\ total_polls s' = total_polls s + 1
          /\ ((successful_polls s' = successful_polls s + 1
               /\ failed_polls s' = failed_polls s
               /\ exists device, In device (polled E devices)
                                 /\ yielded E device = true)
              \/ (successful_polls s' = successful_polls s
                  /\ failed_polls s' = failed_polls s + 1
                  /\ forall device, In device (polled E devices)
                                    -> yielded E device = false))
          /\ counters_le (daemon_stats w) s /\ counters_le s s'
      end)
  /\ (forall (E : env) (devices : list (gmap string string)) (acc acc' : Daemon.poll_acc)
             (w w1 : world),
         Daemon.poll_loop E devices 0 acc w = (Ok acc', w1) -> polled E devices = [])
  /\ (forall (E : env) (cfg : Daemon.config) (processed successful : Z) (w : world),
         let s := daemon_stats w in
         let s' := daemon_stats (snd (Daemon.update_stats E cfg processed successful w)) in
         total_polls s' = total_polls s + 1
         /\ ((successful_polls s' = successful_polls s + 1
              /\ failed_polls s' = failed_polls s /\ 0 < successful)
             \/ (successful_polls s' = successful_polls s
                 /\ failed_polls s' = failed_polls s + 1 /\ successful <= 0))
         /\ (0 <= processed -> 0 <= successful -> counters_le s s'))
  /\ (forall (E : env) (cfg : Daemon.config) (exporter : PrometheusPushGateway.t)
             (lines : list string) (w : world),
         counters_le (daemon_stats w)
           (daemon_stats (snd (Daemon.write_output E cfg exporter lines w))))
  /\ (forall s : stats,
         reachable s -> total_polls s = successful_polls s + failed_polls s).
Proof.
  split; [|split; [|split; [|split]]].
  - intros globals E cfg exporter devices w r s'. unfold s', r.
    rewrite stats_after_cycle.
    pose proof (poll_and_write_spec globals E cfg exporter devices w) as Hpw.
    destruct (Daemon.poll_and_write globals E cfg exporter devices w) as [[acc|e] w1].
    + destruct Hpw as (Hp & Hs & Hle & _). cbv zeta.
      rewrite stats_after_update_and_log. set (s := daemon_stats w1).
      split; [exact Hp|]. split; [exact Hs|]. split; [reflexivity|].
      split; [reflexivity|]. split; [|split; [exact Hle|]].
      * cbn [successful_polls failed_polls Daemon.count_poll].
        destruct (0 <? Daemon.acc_successful acc) eqn:Hc.
        -- left. split; [reflexivity|]. split; [reflexivity|].
           apply Z.ltb_lt in Hc. rewrite Hs in Hc. now apply count_positive in Hc.
        -- right. split; [reflexivity|]. split; [reflexivity|].
           intros device Hin. destruct (yielded E device) eqn:Hy; [|reflexivity].
           apply Z.ltb_ge in Hc. rewrite Hs in Hc.
           assert (0 < Z.of_nat (length (List.filter (yielded E) (polled E devices))))
             by (apply count_positive; now exists device).
           lia.
      * unfold counters_le. cbn. rewrite Hp, Hs.
        destruct (0 <? _); lia.
    + split; [reflexivity | exact Hpw].
  - intros E devices acc acc' w w1. apply poll_loop_completes_without_devices.
  - intros E cfg processed successful w s s'. unfold s'. rewrite stats_after_update. fold s.
    split; [reflexivity|]. split.
    + cbn. destruct (0 <? successful) eqn:Hc.
      * left. apply Z.ltb_lt in Hc. now repeat split.
      * right. apply Z.ltb_ge in Hc. now repeat split.
    + intros Hp Hs. unfold counters_le. cbn. destruct (0 <? successful); lia.
  - apply output_counters_le.
  - apply poll_invariant.
Qed.

(** ** C10: the push counters *)
Lemma write_logged_returns E cfg what content filepath w :
  fst (Daemon.write_logged E cfg what content filepath w) = Ok tt.
Proof.
  unfold Daemon.write_logged, try_except.
  match goal with |- context [match ?m w with _ => _ end] =>
    destruct (m w) as [[[]|e] w1] end; reflexivity.
Qed.

Lemma for_each_returns {A} (l : list A) (body : A -> M unit) :
  (forall a w, fst (body a w) = Ok tt) -> forall w, fst (for_each l body w) = Ok tt.
Proof.
  intros Hb. induction l as [|a l IH]; intros w; simpl; [reflexivity|].
  unfold bind. specialize (Hb a w). destruct (body a w) as [[[]|e] w1]; simpl in Hb;
    [apply IH | discriminate Hb].
Qed.

(** The file sink raises only when the output directory cannot be made:
    every failed write is caught and logged. *)
Lemma write_files_returns E cfg lines w :
  (Py.truthy (Daemon.output_directory cfg) = true ->
   mkdir_error E (Daemon.output_directory cfg) = false) ->
  fst (Daemon.write_files E cfg lines w) = Ok tt.
Proof.
  intros Hdir. unfold Daemon.write_files.
  destruct (Py.truthy (Daemon.output_directory cfg)); [|reflexivity].
  unfold PrometheusFileWriter.mkdir, bind. rewrite (Hdir eq_refl). cbn [ret].
  destruct (Daemon.individual_files cfg).
  - apply for_each_returns. intros [node_id ls] w'. apply write_logged_returns.
  - apply write_logged_returns.
Qed.

Lemma poll_loop_stopped E devices acc w :
  running_at E 0 = false -> Daemon.poll_loop E devices 0 acc w = (Ok acc, w).
Proof.
  intros H. unfold Daemon.poll_loop. destruct devices; simpl; [reflexivity | now rewrite H].
Qed.

(** C10, as stated, fails.  With a push URL configured, a healthy cycle
    over one answering device raises [NameError] in the renderer before any
    sink runs, and a cycle that a stop signal ends before its first device
    completes with [total_polls] raised; in both, neither push counter
    moves. *)
Lemma C10_counterexample_cycle_without_push :
  PrometheusPushGateway.push_url Scenario.exporter <> ""
  /\ (let r := Daemon.poll_devices Scenario.healthy Scenario.cfg Scenario.exporter
                 [Scenario.device] Scenario.fresh in
      fst r = Raise (NameError "clean_node_id")
      /\ push_successful (daemon_stats (snd r)) = 0
      /\ push_failed (daemon_stats (snd r)) = 0
      /\ requests (snd r) = [])
  /\ (let r := Daemon.poll_devices Scenario.stopping Scenario.cfg Scenario.exporter
                 [Scenario.device] Scenario.fresh in
      fst r = Ok tt
      /\ total_polls (daemon_stats (snd r)) = 1
      /\ push_successful (daemon_stats (snd r)) = 0
      /\ push_failed (daemon_stats (snd r)) = 0
      /\ requests (snd r) = []).
Proof. split; [discriminate|]. split; vm_compute; repeat split. Qed.

(** C10, amended.  With a push URL configured: whenever [write_output] is
    called and the output directory, if one is configured, can be made, the
    call returns and raises exactly one of [push_successful] and
    [push_failed], by exactly 1, whichever file mode ran and whether or not
    the file writes failed: [push_successful] when the push was delivered
    (the request could be built and the gateway answered 200),
    [push_failed] otherwise.  A cycle that a stop signal ends before its
    first device gathers no lines, does not call [write_output], and raises
    neither counter. *)
Theorem C10_write_output_counts_the_push_once (E : env) (cfg : Daemon.config)
    (exporter : PrometheusPushGateway.t) :
  PrometheusPushGateway.push_url exporter <> "" ->
  (forall (lines : list string) (w : world),
      (Py.truthy (Daemon.output_directory cfg) = true ->
       mkdir_error E (Daemon.output_directory cfg) = false) ->
      let r := Daemon.write_output E cfg exporter lines w in
      let s := daemon_stats w in
      let s' := daemon_stats (snd r) in
      fst r = Ok tt
      /\ ((Claims.delivered E exporter lines = true
           /\ push_successful s' = push_successful s + 1
           /\ push_failed s' = push_failed s)
          \/ (Claims.delivered E exporter lines = false
              /\ push_successful s' = push_successful s
              /\ push_failed s' = push_failed s + 1)))
  /\ (forall (devices : list (gmap string string)) (w : world),
         running_at E 0 = false ->
         let s := daemon_stats w in
         let s' := daemon_stats (snd (Daemon.poll_devices E cfg exporter devices w)) in
         total_polls s' = total_polls s + 1
         /\ push_successful s' = push_successful s
         /\ push_failed s' = push_failed s).
Proof.
  intros Hurl. split.
  - intros lines w Hdir r s s'. unfold s', r, Daemon.write_output.
    pose proof (write_files_returns E cfg lines w Hdir) as Hret.
    pose proof (keeps_write_files E cfg lines w) as Hkeep.
    destruct (Daemon.write_files E cfg lines w) as [[[]|e] w1] eqn:Hf;
      simpl in Hret, Hkeep; [|discriminate Hret].
    rewrite (bind_ok _ _ _ _ _ Hf). cbv beta.
    destruct (stats_after_push E exporter lines w1 Hurl) as [Hok Hst].
    split; [exact Hok|]. rewrite Hst, Hkeep. fold s.
    destruct (Claims.delivered E exporter lines); [left | right]; repeat split.
  - intros devices w Hstop s s'. unfold s', Daemon.poll_devices, Daemon.poll_devices_in.
    fold (Daemon.poll_loop E).
    rewrite (bind_ok (log _ _) _ w tt _ eq_refl). cbv beta.
    rewrite (bind_ok _ _ _ _ _ (poll_loop_stopped E devices _ _ Hstop)). cbv beta.
    cbn [Daemon.acc_lines Daemon.acc_processed Daemon.acc_successful].
    rewrite (bind_ok (ret tt) _ _ tt _ eq_refl). cbv beta.
    assert (Hst : forall w0,
               daemon_stats (snd ((Daemon.update_stats E cfg 0 0 ;;; log "info"
                 ("Poll completed: " +:+ Py.str_int 0 +:+ "/" +:+ Py.str_int 0
                  +:+ " nodes successful")) w0))
               = Daemon.count_poll (now E) 0 0 (daemon_stats w0)).
    { intros w0. unfold bind.
      pose proof (stats_after_update E cfg 0 0 w0) as Hu.
      destruct (Daemon.update_stats E cfg 0 0 w0) as [[[]|e] w1]; exact Hu. }
    rewrite Hst. repeat split.
Qed.

Lemma C10_write_output_witness :
  PrometheusPushGateway.push_url Scenario.exporter <> ""
  /\ (Py.truthy (Daemon.output_directory Scenario.cfg) = true ->
      mkdir_error Scenario.healthy (Daemon.output_directory Scenario.cfg) = false)
  /\ push_successful
       (daemon_stats
          (snd (Daemon.write_output Scenario.healthy Scenario.cfg Scenario.exporter
                  ["meshtastic_up 1"] Scenario.fresh))) = 1.
Proof.
  assert (Hurl : PrometheusPushGateway.push_url Scenario.exporter <> "") by discriminate.
  assert (Hdir : Py.truthy (Daemon.output_directory Scenario.cfg) = true ->
                 mkdir_error Scenario.healthy (Daemon.output_directory Scenario.cfg) = false)
    by reflexivity.
  split; [exact Hurl|]. split; [exact Hdir|].
  destruct (proj1 (C10_write_output_counts_the_push_once Scenario.healthy Scenario.cfg
                     Scenario.exporter Hurl) ["meshtastic_up 1"] Scenario.fresh Hdir)
    as [_ [(_ & H & _) | (Hacc & _)]]; [exact H | discriminate Hacc].
Defined.

(** ** C6: the names of the per-device files *)
Lemma mem_char_app c (a b : string) :
  Py.mem_char c (a +:+ b) = Py.mem_char c a || Py.mem_char c b.
Proof.
  induction a as [|x a IH]; simpl; [reflexivity|]. now rewrite IH, orb_assoc.
Qed.

Lemma mem_char_replaced c r s :
  Py.mem_char c r = false -> Py.mem_char c (Py.replace c r s) = false.
Proof.
  intros Hr. induction s as [|x s IH]; simpl; [reflexivity|].
  destruct (Ascii.eqb x c) eqn:E.
  - now rewrite mem_char_app, Hr, IH.
  - simpl. now rewrite E, IH.
Qed.

Lemma mem_char_replace_keeps c d r s :
  Py.mem_char c s = false -> Py.mem_char c r = false ->
  Py.mem_char c (Py.replace d r s) = false.
Proof.
  intros Hs Hr. induction s as [|x s IH]; simpl in *; [reflexivity|].
  apply orb_false_iff in Hs as [Hx Hs].
  destruct (Ascii.eqb x d).
  - now rewrite mem_char_app, Hr, IH.
  - simpl. now rewrite Hx, IH.
Qed.

Lemma sanitize_filename_clean node_id :
  Py.mem_char "!"%char (PrometheusFormatter.sanitize_filename node_id) = false
  /\ Py.mem_char "/"%char (PrometheusFormatter.sanitize_filename node_id) = false
  /\ Py.mem_char Py.backslash (PrometheusFormatter.sanitize_filename node_id) = false.
Proof.
  unfold PrometheusFormatter.sanitize_filename. split; [|split].
  - apply mem_char_replace_keeps; [|reflexivity].
    apply mem_char_replace_keeps; [|reflexivity].
    now apply mem_char_replaced.
  - apply mem_char_replace_keeps; [|reflexivity]. now apply mem_char_replaced.
  - now apply mem_char_replaced.
Qed.

Lemma split_last_none s : Py.mem_char "/"%char s = false -> PathLib.split_last s = None.
Proof.
  induction s as [|x s IH]; simpl; [reflexivity|]. intros H.
  apply orb_false_iff in H as [Hx Hs]. now rewrite (IH Hs), Hx.
Qed.

Lemma individual_filename_clean node_id :
  Py.mem_char "/"%char (PrometheusFileWriter.individual_filename node_id) = false
  /\ Py.mem_char Py.backslash (PrometheusFileWriter.individual_filename node_id) = false.
Proof.
  unfold PrometheusFileWriter.individual_filename.
  destruct (sanitize_filename_clean node_id) as (_ & Hs & Hb).
  rewrite !mem_char_app, Hs, Hb. split; reflexivity.
Qed.

(** The daemon's own [write_output] builds the name from the raw node
    identifier: a separator in it leaves the output directory. *)
Lemma daemon_filename_keeps_separators :
  PathLib.join "/var/lib/node_exporter/textfile_collector"
    (Daemon.individual_filename "x/../../../../etc/cron.d/job")
  = Path "/var/lib/node_exporter/textfile_collector/meshtastic-x/../../../../etc/cron.d"
         "job.prom".
Proof. reflexivity. Qed.

(** C6, as stated, fails: the sanitizer maps distinct node identifiers to
    one file name, so the lines of two nodes are written to the same path
    and the second write replaces the first. *)
Lemma C6_counterexample_filename_collision :
  "!a1b2c3d4" <> "a1b2c3d4"
  /\ PrometheusFileWriter.individual_filename "!a1b2c3d4"
     = PrometheusFileWriter.individual_filename "a1b2c3d4"
  /\ PrometheusFileWriter.individual_filename "a/b"
     = PrometheusFileWriter.individual_filename "a_b"
  /\ PrometheusFileWriter.individual_targets "/out"
       (PrometheusFormatter.format_prometheus_metrics PrometheusFormatter.default_formatter
          "!a1b2c3d4" [("Battery", VInt 87)] ∅
        ++ PrometheusFormatter.format_prometheus_metrics PrometheusFormatter.default_formatter
          "a1b2c3d4" [("Battery", VInt 12)] ∅)%list
     = [Path "/out" "meshtastic-a1b2c3d4.prom"; Path "/out" "meshtastic-a1b2c3d4.prom"]
  /\ ~ NoDup (PrometheusFileWriter.individual_targets "/out"
       (PrometheusFormatter.format_prometheus_metrics PrometheusFormatter.default_formatter
          "!a1b2c3d4" [("Battery", VInt 87)] ∅
        ++ PrometheusFormatter.format_prometheus_metrics PrometheusFormatter.default_formatter
          "a1b2c3d4" [("Battery", VInt 12)] ∅)%list).
Proof.
  split; [discriminate|]. split; [reflexivity|]. split; [reflexivity|].
  assert (H : PrometheusFileWriter.individual_targets "/out"
       (PrometheusFormatter.format_prometheus_metrics PrometheusFormatter.default_formatter
          "!a1b2c3d4" [("Battery", VInt 87)] ∅
        ++ PrometheusFormatter.format_prometheus_metrics PrometheusFormatter.default_formatter
          "a1b2c3d4" [("Battery", VInt 12)] ∅)%list
     = [Path "/out" "meshtastic-a1b2c3d4.prom"; Path "/out" "meshtastic-a1b2c3d4.prom"])
    by (vm_compute; reflexivity).
  split; [exact H|]. rewrite H. intros Hnd. inversion Hnd as [|? ? Hnotin _]; subst.
  apply Hnotin. now left.
Qed.

(** C6, amended.  In the library's per-device mode the file written for a
    node is named [meshtastic-] + the sanitized identifier + [.prom], where
    the sanitized identifier holds neither the sigil [!] nor a slash nor a
    backslash; the name therefore holds no path separator, and every file
    of the mode lies directly in the output directory.  (Distinct
    identifiers may still share one file name.) *)
Theorem C6_per_device_names_stay_in_the_directory :
  forall (node_id dir : string) (all_output_lines : list string),
    let sanitized := PrometheusFormatter.sanitize_filename node_id in
    let filename := PrometheusFileWriter.individual_filename node_id in
    filename = "meshtastic-" +:+ sanitized +:+ ".prom"
    /\ Py.mem_char "!"%char sanitized = false
    /\ Py.mem_char "/"%char filename = false
    /\ Py.mem_char Py.backslash filename = false
    /\ PathLib.join dir filename = Path dir filename
    /\ Forall (fun p => parent p = dir)
         (PrometheusFileWriter.individual_targets dir all_output_lines).
Proof.
  intros node_id dir all_output_lines sanitized filename.
  subst sanitized filename.
  destruct (sanitize_filename_clean node_id) as (Hbang & _ & _).
  destruct (individual_filename_clean node_id) as (Hslash & Hback).
  split; [reflexivity|]. split; [exact Hbang|]. split; [exact Hslash|].
  split; [exact Hback|]. split.
  - unfold PathLib.join. now rewrite (split_last_none _ Hslash).
  - unfold PrometheusFileWriter.individual_targets. apply Forall_map.
    apply Forall_forall. intros [n ls] _. simpl.
    destruct (individual_filename_clean n) as (Hs & _).
    unfold PathLib.join. now rewrite (split_last_none _ Hs).
Qed.

(** ** C1: atomic publication of one file *)
Lemma tmp_path_fresh (filepath : path) (infix : string) :
  Os.tmp_path filepath infix <> filepath
  /\ parent (Os.tmp_path filepath infix) = parent filepath.
Proof.
  split; [|reflexivity]. destruct filepath as [d n]. unfold Os.tmp_path. simpl.
  intros H. injection H as H. apply (f_equal String.length) in H.
  repeat (rewrite ?str_app_length in H; simpl in H). lia.
Qed.

Lemma first_free_spec fs filepath names tmp :
  Os.first_free fs filepath names = Some tmp ->
  fs !! tmp = None /\ tmp <> filepath /\ parent tmp = parent filepath.
Proof.
  induction names as [|r rest IH]; simpl; [discriminate|].
  destruct (fs !! Os.tmp_path filepath r) eqn:E; [exact IH|].
  intros [= <-]. split; [exact E|]. apply tmp_path_fresh.
Qed.


Ltac map_norm Hne :=
  repeat first
    [ progress cbn -[lookup insert delete] in *
    | rewrite lookup_insert_eq
    | rewrite lookup_delete_eq
    | rewrite (lookup_insert_ne _ _ _ _ Hne)
    | rewrite (lookup_delete_ne _ _ _ Hne)
    | rewrite lookup_insert_ne by congruence
    | rewrite lookup_delete_ne by congruence
    | match goal with H : _ !! _ = _ |- _ => rewrite H end ].

Ltac give_steps :=
  lazymatch goal with
  | |- ex (fun steps => ?h = (steps ++ ?h0)%list /\ _) =>
      let rec go h :=
        lazymatch h with
        | ?x :: ?t => let r := go t in constr:(x :: r)
        | _ => constr:(@nil (event * gmap path string))
        end in
      let s := go h in exists s
  end.

Ltac map_solve :=
  apply map_eq; intros ?i;
  rewrite ?lookup_delete, ?lookup_insert, ?lookup_delete, ?lookup_insert;
  repeat case_decide; subst; congruence.

Lemma take_str_0 (s : string) : Re.take_str 0 s = "".
Proof. now destruct s. Qed.

Ltac map_point :=
  intros ?p ?Hp;
  rewrite ?lookup_delete, ?lookup_insert, ?lookup_delete, ?lookup_insert,
    ?lookup_delete, ?lookup_insert;
  repeat case_decide; subst; congruence.

Ltac transit :=
  unfold Claims.in_transit;
  first [ left; congruence
        | right; exists 0%nat; now rewrite take_str_0
        | right; eexists; reflexivity ].

Ltac target_ok Hne :=
  unfold Claims.target_state_ok; map_norm Hne;
  first [ left; congruence
        | right; left; congruence
        | right; right; split; [congruence | transit] ].

Ltac events_done :=
  unfold Claims.publication_events, Claims.copies;
  repeat match goal with
         | H : rename_error _ = _ |- _ => rewrite H
         | H : platform _ = _ |- _ => rewrite H
         end;
  reflexivity.

Ltac atomic_done Hfree Hne Hpar :=
  map_norm Hne;
  split;
  [ give_steps; split; [reflexivity|]; split;
    [ repeat (constructor; [target_ok Hne|]); constructor
    | first [ discriminate
            | intros _; eexists; split; [exact Hpar|]; split; [exact Hne|];
              split; [exact Hfree|]; events_done ] ]
  | split;
    [ first [ discriminate | intros _; map_solve ]
    | first [ intros H; exfalso; apply H; reflexivity
            | intros _; split;
              [ first [ left; congruence
                      | right; split;
                        [congruence | first [left; congruence | right; transit]] ]
              | first [ discriminate
                      | intros H; discriminate H
                      | intros _; left; map_solve
                      | intros _; right; split; [congruence | map_point] ] ] ] ] ].

Ltac cleaned Hfree Hne Hpar :=
  map_norm Hne;
  match goal with
  | pl := plan_for _ _ |- _ => destruct (unlink_error pl) eqn:Eun
  end;
  atomic_done Hfree Hne Hpar.

Ltac moved Hfree Hne Hpar :=
  match goal with
  | pl := plan_for _ _ |- _ =>
      destruct (rename_error pl) eqn:Ern; map_norm Hne;
      [ destruct (copy_open_error pl) eqn:Eco; map_norm Hne;
        [ cleaned Hfree Hne Hpar
        | destruct (copy_write_error pl) as [k|] eqn:Ecw; map_norm Hne;
          [ cleaned Hfree Hne Hpar
          | destruct (copystat_error pl) eqn:Ecs; map_norm Hne;
            [ cleaned Hfree Hne Hpar
            | destruct (move_unlink_error pl) eqn:Emu; map_norm Hne;
              [ cleaned Hfree Hne Hpar | atomic_done Hfree Hne Hpar ] ] ] ]
      | atomic_done Hfree Hne Hpar ]
  end.

Ltac atomic_cases E filepath w :=
  unfold Atomic.try_block, Atomic.cleanup, Os.mkstemp;
  set (pl := plan_for E filepath);
  destruct (mkstemp_error pl) eqn:Emk;
  [ simpl; split; [exists []; repeat split; [constructor | discriminate]|];
    split; [discriminate|]; intros _; split; [now left | intros _; now left] |];
  destruct (Os.first_free (files w) filepath (tmp_names pl)) as [tmp|] eqn:Eff;
  [| simpl; split; [exists []; repeat split; [constructor | discriminate]|];
     split; [discriminate|]; intros _; split; [now left | intros _; now left] ];
  destruct (first_free_spec _ _ _ _ Eff) as (Hfree & Hne & Hpar);
  unfold Os.move, Os.rename_nt, Os.copy2;
  unfold bind, log, Os.write_flush, Os.fsync, Os.rename, Os.exists_, try_except, Os.unlink;
  destruct (write_error pl) as [n|] eqn:Ewr;
  [ cleaned Hfree Hne Hpar |];
  destruct (fsync_error pl) eqn:Efs;
  [ cleaned Hfree Hne Hpar |];
  destruct (platform E) eqn:Eos;
  [ destruct (rename_error pl) eqn:Ern;
    [ cleaned Hfree Hne Hpar
    | atomic_done Hfree Hne Hpar ]
  | map_norm Hne; destruct (files w !! filepath) as [oldc|] eqn:Eold; map_norm Hne;
    [ destruct (target_unlink_error pl) eqn:Etu; map_norm Hne;
      [ cleaned Hfree Hne Hpar
      | moved Hfree Hne Hpar ]
    | moved Hfree Hne Hpar ] ].

Lemma library_write_is_atomic (E : env) (content : string) (filepath : path) (w : world) :
  Claims.atomic_publication (platform E) (plan_for E filepath) content filepath
    (PrometheusFileWriter.write_output_atomic E content filepath) w.
Proof.
  unfold Claims.atomic_publication, PrometheusFileWriter.write_output_atomic.
  atomic_cases E filepath w.
Qed.

Lemma daemon_write_is_atomic (E : env) (content : string) (filepath : path) (w : world) :
  Claims.atomic_publication (platform E) (plan_for E filepath) content filepath
    (Daemon.write_output_atomic E content filepath) w.
Proof.
  unfold Claims.atomic_publication, Daemon.write_output_atomic.
  atomic_cases E filepath w.
Qed.

(** C1, as stated, fails in two ways.  On Windows the code unlinks the
    target before it moves the temporary file over it, so at one instant
    the target path holds neither the previous nor the new content; and
    when the unlink of the temporary file fails during the clean-up, the
    failure is swallowed and the partly written temporary file stays. *)
Lemma C1_counterexample_target_absent_and_temp_left :
  (let r := PrometheusFileWriter.write_output_atomic Scenario.windows
              "meshtastic_up{node=!a1b2c3d4} 0" Scenario.target Scenario.published in
   fst r = Ok tt
   /\ map (fun st => (fst st, snd st !! Scenario.target)) (rev (history (snd r)))
      = [ (Created (Os.tmp_path Scenario.target "k3x9q2ab"),
           Some "meshtastic_up{node=!a1b2c3d4} 1");
          (Wrote (Os.tmp_path Scenario.target "k3x9q2ab") "meshtastic_up{node=!a1b2c3d4} 0",
           Some "meshtastic_up{node=!a1b2c3d4} 1");
          (Synced (Os.tmp_path Scenario.target "k3x9q2ab"),
           Some "meshtastic_up{node=!a1b2c3d4} 1");
          (Unlinked Scenario.target, None);
          (Renamed (Os.tmp_path Scenario.target "k3x9q2ab") Scenario.target,
           Some "meshtastic_up{node=!a1b2c3d4} 0") ])
  /\ (let r := PrometheusFileWriter.write_output_atomic Scenario.disk_full
                 "meshtastic_up{node=!a1b2c3d4} 0" Scenario.target Scenario.published in
      fst r = Raise (PyException
                "Failed to write file atomically /var/lib/node_exporter/textfile_collector/meshtastic.prom: write")
      /\ files (snd r) !! Scenario.target = Some "meshtastic_up{node=!a1b2c3d4} 1"
      /\ files (snd r) !! Os.tmp_path Scenario.target "k3x9q2ab" = Some "meshtastic").
Proof. vm_compute. repeat split; reflexivity. Qed.

(** On Windows, when the rename of the move fails, [shutil.move] copies
    the temporary file onto the target in place; a copy that is cut leaves
    the target with the first part of the new content. *)
Example windows_move_copies_in_place :
  let r := PrometheusFileWriter.write_output_atomic Scenario.windows_busy
             "meshtastic_up{node=!a1b2c3d4} 0" Scenario.target Scenario.published in
  fst r = Raise (PyException
            "Failed to write file atomically /var/lib/node_exporter/textfile_collector/meshtastic.prom: copy: write")
  /\ files (snd r) !! Scenario.target = Some "meshtastic"
  /\ files (snd r) !! Os.tmp_path Scenario.target "k3x9q2ab" = None.
Proof. vm_compute. repeat split; reflexivity. Qed.

(** C1, amended.  For every content, target path, fault plan and starting
    state, in the library writer and in the daemon's own copy: the run
    creates a temporary file in the directory of the target under a name
    that differs from the target and was free, writes all of the content
    to it, syncs it, and then moves it onto the target
    ([atomic_publication], events of a successful run): by a rename, or,
    on Windows when the rename fails, by the copy in place that
    [shutil.move] falls back to.  On a POSIX system every file-system
    state of the run shows at the target path the complete previous
    content (or no file, if there was none) or the complete new content.
    On Windows an existing target is unlinked before the move and a
    fallback copy writes the target in place, so there the target may
    also be absent or hold the new content in part.  A successful run
    changes the file system only at the target, which then holds the
    content.  A failed run on a POSIX system leaves the target as it was,
    and the whole file system as it was when the unlink of the temporary
    file does not fail; on Windows a failed run may leave the target
    removed or holding the new content in part or in whole, and, when the
    unlink of the temporary file does not fail, every other path as it
    was. *)
Theorem C1_atomic_publication_of_a_file :
  forall (E : env) (content : string) (filepath : path) (w : world),
    Claims.atomic_publication (platform E) (plan_for E filepath) content filepath
      (PrometheusFileWriter.write_output_atomic E content filepath) w
    /\ Claims.atomic_publication (platform E) (plan_for E filepath) content filepath
      (Daemon.write_output_atomic E content filepath) w.
Proof.
  intros E content filepath w. split.
  - apply library_write_is_atomic.
  - apply daemon_write_is_atomic.
Qed.

(** ** The roster cipher: inverses of the building blocks *)
Import Bytes.

Ltac bits_of b :=
  rewrite <- (Byte.of_bits_to_bits b);
  generalize (Byte.to_bits b); clear b;
  intros [?b0 [?b1 [?b2 [?b3 [?b4 [?b5 [?b6 ?b7]]]]]]].

Ltac byte_eq :=
  unfold Aes.xor4, Aes.mul2, Aes.mul3, Aes.mul9, Aes.mul11, Aes.mul13, Aes.mul14,
    Aes.xtime, bxor, xor8;
  repeat (rewrite !Byte.to_bits_of_bits; cbv beta iota);
  f_equal; repeat f_equal; btauto.

Lemma bxor_involutive (a k : byte) : bxor (bxor a k) k = a.
Proof. bits_of a. bits_of k. byte_eq. Qed.

Lemma xor_bytes_involutive (s k : bytes) : xor_bytes (xor_bytes s k) k = s.
Proof.
  revert k. induction s as [|a s IH]; intros [|b k]; simpl; try reflexivity.
  now rewrite bxor_involutive, IH.
Qed.

Lemma xor_bytes_length (s k : bytes) : List.length (xor_bytes s k) = List.length s.
Proof.
  revert k. induction s as [|a s IH]; intros [|b k]; simpl; try reflexivity.
  now rewrite IH.
Qed.

Lemma inv_sbox_sbox (b : byte) : Aes.inv_sbox (Aes.sbox b) = b.
Proof. destruct b; vm_compute; reflexivity. Qed.

Lemma inv_sub_bytes_sub_bytes (s : bytes) : Aes.inv_sub_bytes (Aes.sub_bytes s) = s.
Proof.
  unfold Aes.inv_sub_bytes, Aes.sub_bytes. rewrite map_map.
  induction s as [|b s IH]; simpl; [reflexivity|]. now rewrite inv_sbox_sbox, IH.
Qed.

Lemma inv_shift_rows_shift_rows (s : bytes) : Aes.inv_shift_rows (Aes.shift_rows s) = s.
Proof.
  do 17 (destruct s as [|? s]; [reflexivity|]). reflexivity.
Qed.

Lemma shift_rows_length (s : bytes) : List.length (Aes.shift_rows s) = List.length s.
Proof.
  do 17 (destruct s as [|? s]; [reflexivity|]). reflexivity.
Qed.

Lemma inv_mix_column (a0 a1 a2 a3 : byte) :
  let m0 := Aes.xor4 (Aes.mul2 a0) (Aes.mul3 a1) a2 a3 in
  let m1 := Aes.xor4 a0 (Aes.mul2 a1) (Aes.mul3 a2) a3 in
  let m2 := Aes.xor4 a0 a1 (Aes.mul2 a2) (Aes.mul3 a3) in
  let m3 := Aes.xor4 (Aes.mul3 a0) a1 a2 (Aes.mul2 a3) in
  Aes.xor4 (Aes.mul14 m0) (Aes.mul11 m1) (Aes.mul13 m2) (Aes.mul9 m3) = a0
  /\ Aes.xor4 (Aes.mul9 m0) (Aes.mul14 m1) (Aes.mul11 m2) (Aes.mul13 m3) = a1
  /\ Aes.xor4 (Aes.mul13 m0) (Aes.mul9 m1) (Aes.mul14 m2) (Aes.mul11 m3) = a2
  /\ Aes.xor4 (Aes.mul11 m0) (Aes.mul13 m1) (Aes.mul9 m2) (Aes.mul14 m3) = a3.
Proof.
  intros m0 m1 m2 m3. subst m0 m1 m2 m3.
  bits_of a0. bits_of a1. bits_of a2. bits_of a3.
  repeat split; byte_eq.
Qed.

(** Induction over a list four elements at a time. *)
Lemma list_ind4 {A} (P : list A -> Prop) :
  (forall l, (List.length l < 4)%nat -> P l) ->
  (forall a b c d l, P l -> P (a :: b :: c :: d :: l)) ->
  forall l, P l.
Proof.
  intros Hshort Hstep.
  assert (H : forall n l, (List.length l <= n)%nat -> P l).
  { induction n as [|n IH]; intros l Hl.
    - apply Hshort. lia.
    - destruct l as [|a [|b [|c [|d l]]]]; try (apply Hshort; simpl; lia).
      apply Hstep. apply IH. simpl in Hl. lia. }
  intros l. apply (H (List.length l)). lia.
Qed.

Lemma inv_mix_columns_mix_columns (s : bytes) :
  Aes.inv_mix_columns (Aes.mix_columns s) = s.
Proof.
  induction s as [l Hl | a b c d l IH] using list_ind4.
  - destruct l as [|a [|b [|c [|d l]]]]; try reflexivity. simpl in Hl. lia.
  - cbn [Aes.mix_columns Aes.inv_mix_columns]. rewrite IH.
    destruct (inv_mix_column a b c d) as (-> & -> & -> & ->). reflexivity.
Qed.

Lemma mix_columns_length (s : bytes) : List.length (Aes.mix_columns s) = List.length s.
Proof.
  induction s as [l Hl | a b c d l IH] using list_ind4.
  - destruct l as [|a [|b [|c [|d l]]]]; try reflexivity. simpl in Hl. lia.
  - cbn [Aes.mix_columns List.length]. now rewrite IH.
Qed.

Lemma dec_round_enc_round (s k : bytes) : Aes.dec_round (Aes.enc_round s k) k = s.
Proof.
  unfold Aes.dec_round, Aes.enc_round, Aes.add_round_key.
  now rewrite xor_bytes_involutive, inv_mix_columns_mix_columns,
    inv_shift_rows_shift_rows, inv_sub_bytes_sub_bytes.
Qed.

Lemma enc_round_length (s k : bytes) : List.length (Aes.enc_round s k) = List.length s.
Proof.
  unfold Aes.enc_round, Aes.add_round_key, Aes.sub_bytes.
  now rewrite xor_bytes_length, mix_columns_length, shift_rows_length, length_map.
Qed.

Lemma dec_rounds_enc_rounds (ks : list bytes) (s : bytes) :
  fold_left Aes.dec_round (rev ks) (fold_left Aes.enc_round ks s) = s.
Proof.
  revert s. induction ks as [|k ks IH]; intros s; simpl; [reflexivity|].
  rewrite fold_left_app. simpl. rewrite IH. apply dec_round_enc_round.
Qed.

Lemma enc_rounds_length (ks : list bytes) (s : bytes) :
  List.length (fold_left Aes.enc_round ks s) = List.length s.
Proof.
  revert s. induction ks as [|k ks IH]; intros s; simpl; [reflexivity|].
  now rewrite IH, enc_round_length.
Qed.

(** Decryption of a block undoes its encryption, whatever the round keys. *)
Lemma decrypt_with_encrypt_with (keys : list bytes) (block : bytes) :
  Aes.decrypt_with keys (Aes.encrypt_with keys block) = block.
Proof.
  destruct keys as [|k0 rest]; [reflexivity|].
  unfold Aes.decrypt_with, Aes.encrypt_with, Aes.add_round_key.
  rewrite xor_bytes_involutive, inv_shift_rows_shift_rows, inv_sub_bytes_sub_bytes,
    dec_rounds_enc_rounds.
  apply xor_bytes_involutive.
Qed.

Lemma encrypt_with_length (keys : list bytes) (block : bytes) :
  List.length (Aes.encrypt_with keys block) = List.length block.
Proof.
  destruct keys as [|k0 rest]; [reflexivity|].
  unfold Aes.encrypt_with, Aes.add_round_key, Aes.sub_bytes.
  now rewrite xor_bytes_length, shift_rows_length, length_map, enc_rounds_length,
    xor_bytes_length.
Qed.

(** ** The CBC mode, the padding, base64 and text *)
Lemma firstn_app_exact {A} (a b : list A) (n : nat) :
  List.length a = n -> firstn n (a ++ b)%list = a.
Proof.
  intros <-. induction a as [|x a IH]; simpl; [now destruct b | now rewrite IH].
Qed.

Lemma skipn_app_exact {A} (a b : list A) (n : nat) :
  List.length a = n -> skipn n (a ++ b)%list = b.
Proof. intros <-. induction a as [|x a IH]; simpl; [reflexivity | exact IH]. Qed.

Lemma encrypt_blocks_length (n : nat) (keys : list bytes) (prev data : bytes) :
  (16 * n <= List.length data)%nat ->
  List.length (Cbc.encrypt_blocks n keys prev data) = (16 * n)%nat.
Proof.
  revert prev data. induction n as [|n IH]; intros prev data Hlen; [reflexivity|].
  cbn [Cbc.encrypt_blocks]. rewrite length_app, encrypt_with_length, xor_bytes_length.
  rewrite length_firstn, IH by (rewrite length_skipn; lia). lia.
Qed.

Lemma decrypt_blocks_encrypt_blocks (n : nat) (keys : list bytes) (prev data : bytes) :
  List.length data = (16 * n)%nat ->
  Cbc.decrypt_blocks n keys prev (Cbc.encrypt_blocks n keys prev data) = data.
Proof.
  revert prev data. induction n as [|n IH]; intros prev data Hlen.
  - destruct data; [reflexivity | discriminate].
  - cbn [Cbc.encrypt_blocks Cbc.decrypt_blocks].
    set (c := Aes.encrypt_with keys (xor_bytes (firstn 16 data) prev)).
    assert (Hc : List.length c = 16%nat).
    { unfold c. rewrite encrypt_with_length, xor_bytes_length, length_firstn. lia. }
    rewrite (firstn_app_exact _ _ _ Hc), (skipn_app_exact _ _ _ Hc).
    rewrite IH by (rewrite length_skipn; lia).
    unfold c. rewrite decrypt_with_encrypt_with, xor_bytes_involutive.
    apply firstn_skipn.
Qed.

Lemma cbc_decrypt_encrypt (key iv data : bytes) :
  Nat.modulo (List.length data) 16 = 0%nat ->
  Cbc.decrypt key iv (Cbc.encrypt key iv data) = Ok data.
Proof.
  intros Hmod. unfold Cbc.decrypt, Cbc.encrypt.
  assert (Hlen : List.length data = (16 * Nat.div (List.length data) 16)%nat).
  { pose proof (Nat.div_mod_eq (List.length data) 16). lia. }
  rewrite encrypt_blocks_length by lia. rewrite <- Hlen, Hmod. cbn [Nat.eqb].
  now rewrite decrypt_blocks_encrypt_blocks.
Qed.

Lemma to_string_of_string (s : string) : to_string (of_string s) = s.
Proof.
  unfold to_string, of_string. rewrite map_map.
  rewrite (map_ext _ (fun a => a)) by apply ascii_of_byte_of_ascii.
  rewrite map_id. apply string_of_list_ascii_of_string.
Qed.

Lemma of_string_to_string (bs : bytes) : of_string (to_string bs) = bs.
Proof.
  unfold to_string, of_string. rewrite list_ascii_of_string_of_list_ascii, map_map.
  rewrite (map_ext _ (fun a => a)) by apply byte_of_ascii_of_byte.
  apply map_id.
Qed.

Lemma startswith_app (prefix rest : bytes) : startswith prefix (prefix ++ rest)%list = true.
Proof.
  induction prefix as [|p prefix IH]; simpl; [reflexivity|].
  now rewrite (Byte.byte_dec_lb (eq_refl p)), IH.
Qed.

(** *** PKCS7 *)
Lemma small_byte (n : nat) :
  (n <= 16)%nat -> N.to_nat (Byte.to_N (of_N (N.of_nat n))) = n.
Proof.
  intros Hn. do 17 (destruct n as [|n]; [reflexivity|]). lia.
Qed.

Lemma pkcs7_pad_spec (data : bytes) :
  exists n, (1 <= n <= 16)%nat
    /\ Claims.pkcs7_pad data = (data ++ repeat (of_N (N.of_nat n)) n)%list
    /\ Nat.modulo (List.length (Claims.pkcs7_pad data)) 16 = 0%nat.
Proof.
  unfold Claims.pkcs7_pad.
  pose proof (Nat.mod_upper_bound (List.length data) 16 ltac:(lia)) as Hlt.
  pose proof (Nat.div_mod_eq (List.length data) 16) as Hdm.
  set (r := Nat.modulo (List.length data) 16) in *.
  exists (16 - r)%nat. split; [lia|]. split; [reflexivity|].
  rewrite length_app, repeat_length.
  replace (List.length data + (16 - r))%nat
    with ((S (Nat.div (List.length data) 16)) * 16)%nat by lia.
  apply Nat.Div0.mod_mul.
Qed.

Lemma last_byte_app (data : bytes) (b : byte) (n : nat) :
  last_byte (data ++ repeat b (S n))%list = Some b.
Proof.
  unfold last_byte. rewrite map_app.
  replace (repeat b (S n)) with (repeat b n ++ [b])%list
    by (rewrite <- repeat_cons; reflexivity).
  rewrite map_app, app_assoc. cbn [map]. apply last_last.
Qed.

Lemma slice_to_minus_app (data tail : bytes) :
  tail <> [] -> slice_to_minus (List.length tail) (data ++ tail)%list = data.
Proof.
  intros Hne. unfold slice_to_minus. destruct tail as [|t tail]; [congruence|].
  cbn [List.length]. rewrite length_app. cbn [List.length].
  replace (List.length data + S (List.length tail) - S (List.length tail))%nat
    with (List.length data + 0)%nat by lia.
  rewrite firstn_app_2. cbn [firstn]. apply app_nil_r.
Qed.

(** The slice of the code takes a PKCS7 padding off again. *)
Lemma unpad_pkcs7_pad (data : bytes) :
  exists padding_length,
    last_byte (Claims.pkcs7_pad data) = Some padding_length
    /\ slice_to_minus (N.to_nat (Byte.to_N padding_length)) (Claims.pkcs7_pad data) = data.
Proof.
  destruct (pkcs7_pad_spec data) as (n & Hn & -> & _).
  exists (of_N (N.of_nat n)). destruct n as [|n]; [lia|]. split.
  - apply last_byte_app.
  - rewrite small_byte by lia.
    rewrite <- (repeat_length (of_N (N.of_nat (S n))) (S n)) at 1.
    apply slice_to_minus_app. discriminate.
Qed.

(** *** Base64 *)
Lemma table_a2b_alphabet (s : Base64.sextet) :
  Base64.table_a2b (Base64.alphabet s) = Some s
  /\ Byte.eqb (Base64.alphabet s) Base64.pad_char = false.
Proof.
  destruct s as [[[[[s5 s4] s3] s2] s1] s0].
  destruct s5, s4, s3, s2, s1, s0; vm_compute; split; reflexivity.
Qed.

Lemma a2b_base64_char (s : Base64.sextet) (rest : bytes) (q : Base64.quad)
    (pads : nat) (out : bytes) :
  Base64.a2b_base64 (Base64.alphabet s :: rest) q pads out
  = Base64.a2b_base64 rest (fst (Base64.feed q s)) 0
      (match snd (Base64.feed q s) with Some b => out ++ [b] | None => out end)%list.
Proof.
  destruct (table_a2b_alphabet s) as [Ht Hp].
  cbn [Base64.a2b_base64]. rewrite Hp, Ht. now destruct (Base64.feed q s).
Qed.

Lemma a2b_base64_encode3 (x y z : byte) (rest : bytes) (pads : nat) (out : bytes) :
  Base64.a2b_base64 (Base64.encode3 x y z ++ rest)%list Base64.Q0 pads out
  = Base64.a2b_base64 rest Base64.Q0 0 (out ++ [x; y; z])%list.
Proof.
  unfold Base64.encode3.
  pose proof (Byte.of_bits_to_bits x) as Hx.
  pose proof (Byte.of_bits_to_bits y) as Hy.
  pose proof (Byte.of_bits_to_bits z) as Hz.
  destruct (Byte.to_bits x) as [x0 [x1 [x2 [x3 [x4 [x5 [x6 x7]]]]]]].
  destruct (Byte.to_bits y) as [y0 [y1 [y2 [y3 [y4 [y5 [y6 y7]]]]]]].
  destruct (Byte.to_bits z) as [z0 [z1 [z2 [z3 [z4 [z5 [z6 z7]]]]]]].
  cbn [app]. rewrite !a2b_base64_char. cbn [Base64.feed fst snd].
  rewrite Hx, Hy, Hz, <- !app_assoc. reflexivity.
Qed.

Lemma list_ind3 {A} (P : list A -> Prop) :
  P [] -> (forall a, P [a]) -> (forall a b, P [a; b]) ->
  (forall a b c l, P l -> P (a :: b :: c :: l)) ->
  forall l, P l.
Proof.
  intros H0 H1 H2 Hstep.
  assert (H : forall n l, (List.length l <= n)%nat -> P l).
  { induction n as [|n IH]; intros l Hl.
    - destruct l; [exact H0 | simpl in Hl; lia].
    - destruct l as [|a [|b [|c l]]]; auto.
      apply Hstep. apply IH. simpl in Hl. lia. }
  intros l. apply (H (List.length l)). lia.
Qed.

Lemma a2b_base64_b64encode (s out : bytes) :
  Base64.a2b_base64 (Base64.b64encode s) Base64.Q0 0 out = Ok (out ++ s)%list.
Proof.
  revert out. induction s as [| x | x y | x y z s IH] using list_ind3; intros out.
  - cbn. now rewrite app_nil_r.
  - cbn [Base64.b64encode]. unfold Base64.encode3.
    pose proof (Byte.of_bits_to_bits x) as Hx.
    destruct (Byte.to_bits x) as [x0 [x1 [x2 [x3 [x4 [x5 [x6 x7]]]]]]].
    cbn [firstn app Byte.to_bits]. rewrite !a2b_base64_char. cbn [Base64.feed fst snd].
    rewrite Hx. reflexivity.
  - cbn [Base64.b64encode]. unfold Base64.encode3.
    pose proof (Byte.of_bits_to_bits x) as Hx.
    pose proof (Byte.of_bits_to_bits y) as Hy.
    destruct (Byte.to_bits x) as [x0 [x1 [x2 [x3 [x4 [x5 [x6 x7]]]]]]].
    destruct (Byte.to_bits y) as [y0 [y1 [y2 [y3 [y4 [y5 [y6 y7]]]]]]].
    cbn [firstn app Byte.to_bits]. rewrite !a2b_base64_char. cbn [Base64.feed fst snd].
    rewrite Hx, Hy, <- !app_assoc. reflexivity.
  - cbn [Base64.b64encode]. rewrite a2b_base64_encode3, IH, <- app_assoc. reflexivity.
Qed.

(** The lenient decoder undoes the encoder. *)
Lemma b64decode_b64encode (s : bytes) : Base64.b64decode (Base64.b64encode s) = Ok s.
Proof. unfold Base64.b64decode. apply a2b_base64_b64encode. Qed.

(** ** C8 and C7: the encrypted device file *)
Lemma utf8_decode_valid (s : string) :
  Utf8.valid (of_string s) = true -> Utf8.decode (of_string s) = Ok s.
Proof. intros H. unfold Utf8.decode. now rewrite H, to_string_of_string. Qed.

Lemma read_bytes_holds (w : world) (filepath : path) (content : bytes) :
  Claims.holds w filepath content -> Daemon.read_bytes filepath w = (Ok content, w).
Proof.
  unfold Claims.holds, Daemon.read_bytes. intros ->. now rewrite of_string_to_string.
Qed.

Lemma split_salt_marked (salt ciphertext : bytes) :
  List.length salt = 8%nat ->
  Daemon.split_salt (of_string "Salted__" ++ salt ++ ciphertext)%list = (salt, ciphertext).
Proof.
  intros Hlen. unfold Daemon.split_salt. rewrite startswith_app.
  unfold slice, slice_from.
  do 9 (destruct salt as [|? salt]; try discriminate Hlen). reflexivity.
Qed.

(** The payload of a roster is decrypted to the roster. *)
Lemma decrypt_payload_ciphertext (salt : bytes) (password roster : string) :
  Utf8.valid (of_string roster) = true ->
  Daemon.decrypt_payload (Daemon.derive_key_iv salt password)
    (Claims.roster_ciphertext salt password roster) = Ok roster.
Proof.
  intros Hvalid. unfold Daemon.decrypt_payload, Claims.roster_ciphertext, Daemon.derive_key_iv.
  destruct (pkcs7_pad_spec (of_string roster)) as (n & _ & _ & Hmod).
  rewrite (cbc_decrypt_encrypt _ _ _ Hmod). cbn [rbind].
  destruct (unpad_pkcs7_pad (of_string roster)) as (p & -> & ->).
  now apply utf8_decode_valid.
Qed.

Lemma decrypt_bytes_encrypted (wrap : bool) (salt : option bytes) (password roster : string) :
  Utf8.valid (of_string roster) = true ->
  (forall s, salt = Some s -> List.length s = 8%nat) ->
  (salt = None ->
   startswith (of_string "Salted__") (Claims.roster_payload None password roster) = false) ->
  (wrap = false ->
   returns (Base64.b64decode (Claims.roster_payload salt password roster)) = false) ->
  Daemon.decrypt_bytes (Claims.encrypt_device_file wrap salt password roster) password
  = Ok roster.
Proof.
  intros Hvalid Hsalt Hmark Hraw. unfold Daemon.decrypt_bytes.
  assert (Hun : Daemon.unwrap_base64 (Claims.encrypt_device_file wrap salt password roster)
                = Claims.roster_payload salt password roster).
  { unfold Daemon.unwrap_base64, Claims.encrypt_device_file. destruct wrap.
    - now rewrite b64decode_b64encode.
    - specialize (Hraw eq_refl).
      destruct (Base64.b64decode _); [discriminate Hraw | reflexivity]. }
  rewrite Hun. destruct salt as [s|].
  - cbn [Claims.roster_payload]. rewrite (split_salt_marked _ _ (Hsalt s eq_refl)).
    now apply decrypt_payload_ciphertext.
  - unfold Daemon.split_salt. rewrite (Hmark eq_refl). cbn [Claims.roster_payload].
    now apply decrypt_payload_ciphertext.
Qed.

(** C8, as stated, fails for the empty password: the loader takes an empty
    password as no password and reads the encrypted file as the roster
    text.  Here the roster of one device is encrypted with the empty
    password and a salt, base64-wrapped; loading it with the same password
    yields the base64 text, not the roster. *)
Lemma C8_counterexample_empty_password :
  let file := Claims.encrypt_device_file true (Some (of_string "saltsalt")) ""
                Scenario.roster in
  let w := {| files := <[Scenario.roster_path := to_string file]> ∅; history := [];
              requests := []; logged := []; daemon_stats := Daemon.initial_stats |} in
  fst (Daemon.device_file_content true Scenario.roster_path (Some "") w)
  = Ok "U2FsdGVkX19zYWx0c2FsdNhi2Mu3+0x0EcJuqENk0V8="
  /\ fst (Daemon.device_file_content true Scenario.roster_path (Some "") w)
     <> Ok Scenario.roster.
Proof.
  assert (H : fst (Daemon.device_file_content true Scenario.roster_path (Some "")
                {| files := <[Scenario.roster_path :=
                     to_string (Claims.encrypt_device_file true (Some (of_string "saltsalt")) ""
                                  Scenario.roster)]> ∅;
                   history := []; requests := []; logged := [];
                   daemon_stats := Daemon.initial_stats |})
              = Ok "U2FsdGVkX19zYWx0c2FsdNhi2Mu3+0x0EcJuqENk0V8=")
    by (vm_compute; reflexivity).
  cbv zeta. split; [exact H|]. rewrite H. discriminate.
Qed.

(** C8, amended.  For every roster text (valid UTF-8), every password that
    is not empty and every salt of eight bytes: a file that holds the
    roster encrypted with the documented scheme and base64-wrapped is
    loaded, with the same password, as exactly the roster, and the world is
    left as it was.  The same holds for the variant without the marker
    (fallback salt) when the cipher text does not itself begin with the
    marker, and for the variant without the base64 wrapping when the
    lenient base64 decoder rejects the raw payload. *)
Theorem C8_encrypted_roster_round_trip :
  forall (wrap : bool) (salt : option bytes) (password roster : string)
         (filepath : path) (w : world),
    password <> "" ->
    Utf8.valid (of_string roster) = true ->
    (forall s, salt = Some s -> List.length s = 8%nat) ->
    (salt = None ->
     startswith (of_string "Salted__") (Claims.roster_payload None password roster) = false) ->
    (wrap = false ->
     returns (Base64.b64decode (Claims.roster_payload salt password roster)) = false) ->
    Claims.holds w filepath (Claims.encrypt_device_file wrap salt password roster) ->
    Daemon.device_file_content true filepath (Some password) w = (Ok roster, w).
Proof.
  intros wrap salt password roster filepath w Hpw Hvalid Hsalt Hmark Hraw Hfile.
  unfold Daemon.device_file_content.
  destruct password as [|c password]; [congruence|]. cbn [Py.truthy].
  unfold Daemon.decrypt_device_file. cbn [negb]. unfold bind.
  rewrite (read_bytes_holds _ _ _ Hfile). unfold lift.
  now rewrite decrypt_bytes_encrypted.
Qed.

Lemma C8_round_trip_witness :
  Daemon.device_file_content true Scenario.roster_path (Some "correct horse")
    {| files := <[Scenario.roster_path :=
                    to_string (Claims.encrypt_device_file true (Some (of_string "saltsalt"))
                                 "correct horse" Scenario.roster)]> ∅;
       history := []; requests := []; logged := [];
       daemon_stats := Daemon.initial_stats |}
  = (Ok Scenario.roster,
     {| files := <[Scenario.roster_path :=
                    to_string (Claims.encrypt_device_file true (Some (of_string "saltsalt"))
                                 "correct horse" Scenario.roster)]> ∅;
       history := []; requests := []; logged := [];
       daemon_stats := Daemon.initial_stats |}).
Proof.
  apply (C8_encrypted_roster_round_trip true (Some (of_string "saltsalt"))
           "correct horse" Scenario.roster).
  - discriminate.
  - reflexivity.
  - intros s [= <-]. reflexivity.
  - discriminate.
  - discriminate.
  - unfold Claims.holds. cbn [files]. apply lookup_insert_eq.
Defined.

(** The file of the scenario is the roster encrypted with the password
    [correct horse], and is loaded as the roster with that password. *)
Lemma encrypted_roster_is_the_roster :
  to_string (Claims.encrypt_device_file true (Some (of_string "saltsalt"))
               "correct horse" Scenario.roster)
  = Scenario.encrypted_roster.
Proof. vm_compute. reflexivity. Qed.

(** C7: the code at the failing input.  The roster file of the scenario is
    loaded with the wrong password [wrong]: the last byte of the garbled
    plain text, 73, is taken as the padding length, the slice is empty, and
    the loader returns the empty text without any error. *)
Theorem C7_wrong_password_returns_empty_text :
  Daemon.device_file_content true Scenario.roster_path (Some "wrong") Scenario.with_roster
  = (Ok "", Scenario.with_roster).
Proof. vm_compute. reflexivity. Qed.

(** * Further properties of the code *)

(** ** File names and URLs *)
Lemma replace_absent (c : ascii) (r s : string) :
  Py.mem_char c s = false -> Py.replace c r s = s.
Proof.
  induction s as [|a s IH]; simpl; [reflexivity|]. intros H.
  apply orb_false_iff in H as [Ha Hs]. now rewrite Ha, (IH Hs).
Qed.

(** X1.  [sanitize_filename] (prometheus_manager.py, lines 40 to 42) is
    idempotent, and it leaves a node identifier unchanged exactly when the
    identifier holds no [!], no slash and no backslash. *)
Theorem X1_sanitize_filename_fixed_points :
  forall node_id : string,
    PrometheusFormatter.sanitize_filename (PrometheusFormatter.sanitize_filename node_id)
    = PrometheusFormatter.sanitize_filename node_id
    /\ (PrometheusFormatter.sanitize_filename node_id = node_id
        <-> Py.mem_char "!"%char node_id || Py.mem_char "/"%char node_id
            || Py.mem_char Py.backslash node_id = false).
Proof.
  intros node_id.
  assert (Hfix : forall s,
             Py.mem_char "!"%char s || Py.mem_char "/"%char s
             || Py.mem_char Py.backslash s = false ->
             PrometheusFormatter.sanitize_filename s = s).
  { intros s H. apply orb_false_iff in H as [H Hb]. apply orb_false_iff in H as [Hx Hs].
    unfold PrometheusFormatter.sanitize_filename.
    now rewrite (replace_absent _ _ _ Hx), (replace_absent _ _ _ Hs),
      (replace_absent _ _ _ Hb). }
  destruct (sanitize_filename_clean node_id) as (Hx & Hs & Hb).
  split; [|split].
  - apply Hfix. now rewrite Hx, Hs, Hb.
  - intros Heq. rewrite <- Heq. now rewrite Hx, Hs, Hb.
  - apply Hfix.
Qed.

Lemma split_last_some (s : string) :
  Py.mem_char "/"%char s = true -> exists pre last, PathLib.split_last s = Some (pre, last).
Proof.
  induction s as [|a s IH]; simpl; [discriminate|]. intros H.
  destruct (PathLib.split_last s) as [[pre last]|] eqn:E; [eauto|].
  destruct (Ascii.eqb a "/"%char) eqn:Ea; [eauto|].
  apply orb_true_iff in H as [H|H].
  - congruence.
  - destruct (IH H) as (? & ? & ?). discriminate.
Qed.

Lemma app_not_self (d x : string) : x <> "" -> d +:+ x <> d.
Proof.
  intros Hx Heq. apply (f_equal String.length) in Heq.
  rewrite str_app_length in Heq. destruct x; [congruence | simpl in Heq; lia].
Qed.

(** X2.  The daemon's [write_output] (meshmetricsd.py, lines 640 to 643)
    names a per-device file after the node identifier as it is: the file
    lies directly in the output directory exactly when the identifier holds
    no slash; with a slash it is written to a directory below (or, through
    [..], outside) the output directory. *)
Theorem X2_daemon_per_device_file_leaves_directory :
  forall (dir node_id : string),
    parent (PathLib.join dir (Daemon.individual_filename node_id)) = dir
    <-> Py.mem_char "/"%char node_id = false.
Proof.
  intros dir node_id. unfold Daemon.individual_filename, PathLib.join.
  destruct (Py.mem_char "/"%char node_id) eqn:Hm.
  - destruct (split_last_some ("meshtastic-" +:+ node_id +:+ ".prom")) as (pre & last & ->).
    { rewrite !mem_char_app, Hm. reflexivity. }
    cbn [PathLib.is_absolute String.append]. change (Ascii.eqb "m" "/") with false.
    cbn [parent]. split; [|discriminate]. intros H. exfalso.
    revert H. apply app_not_self. discriminate.
  - rewrite split_last_none by (rewrite !mem_char_app, Hm; reflexivity).
    split; reflexivity.
Qed.

Import Props.

Lemma hex_digit_spec (n : nat) :
  (n < 16)%nat -> Url.is_unreserved (Url.hex_digit n) = true
                  /\ Url.hex_digit n <> "%"%char.
Proof.
  intros Hn. do 16 (destruct n as [|n]; [split; [reflexivity | discriminate]|]). lia.
Qed.

Lemma hex_digit_inj (n m : nat) :
  (n < 16)%nat -> (m < 16)%nat -> Url.hex_digit n = Url.hex_digit m -> n = m.
Proof.
  intros Hn Hm.
  do 16 (destruct n as [|n];
         [do 16 (destruct m as [|m]; [first [reflexivity | discriminate]|]); lia|]).
  lia.
Qed.

Lemma hex_pair_inj (c d : ascii) :
  Url.hex_digit (nat_of_ascii c / 16) = Url.hex_digit (nat_of_ascii d / 16) ->
  Url.hex_digit (nat_of_ascii c mod 16) = Url.hex_digit (nat_of_ascii d mod 16) ->
  c = d.
Proof.
  intros Hh Hl.
  pose proof (nat_ascii_bounded c) as Hc. pose proof (nat_ascii_bounded d) as Hd.
  apply hex_digit_inj in Hh;
    [| apply Nat.Div0.div_lt_upper_bound; lia | apply Nat.Div0.div_lt_upper_bound; lia].
  apply hex_digit_inj in Hl; [| apply Nat.mod_upper_bound; lia | apply Nat.mod_upper_bound; lia].
  rewrite <- (ascii_nat_embedding c), <- (ascii_nat_embedding d). f_equal.
  rewrite (Nat.div_mod_eq (nat_of_ascii c) 16), (Nat.div_mod_eq (nat_of_ascii d) 16). lia.
Qed.

Lemma quote_unfold (c : ascii) (t : string) :
  Url.quote (String c t)
  = if quote_safe c then String c (Url.quote t)
    else String "%"%char
           (String (Url.hex_digit (nat_of_ascii c / 16))
              (String (Url.hex_digit (nat_of_ascii c mod 16)) (Url.quote t))).
Proof. reflexivity. Qed.

Lemma percent_not_safe : quote_safe "%"%char = false.
Proof. reflexivity. Qed.

Lemma quote_length (a : string) : (String.length a <= String.length (Url.quote a))%nat.
Proof.
  induction a as [|c a IH]; [reflexivity|]. rewrite quote_unfold.
  destruct (quote_safe c); simpl; lia.
Qed.

Lemma quote_injective (a b : string) : Url.quote a = Url.quote b -> a = b.
Proof.
  revert b. induction a as [|c a IH]; intros [|d b].
  - reflexivity.
  - rewrite quote_unfold. destruct (quote_safe d); discriminate.
  - rewrite quote_unfold. destruct (quote_safe c); discriminate.
  - rewrite !quote_unfold.
    destruct (quote_safe c) eqn:Hc, (quote_safe d) eqn:Hd; intros H.
    + injection H as -> H. now rewrite (IH _ H).
    + injection H as -> _. rewrite percent_not_safe in Hc. discriminate.
    + injection H as <- _. rewrite percent_not_safe in Hd. discriminate.
    + injection H as Hh Hl H. rewrite (hex_pair_inj c d Hh Hl). now rewrite (IH _ H).
Qed.

(** X3.  [urllib.parse.quote], as [push_metrics] applies it to the job
    name and the instance (prometheus_manager.py, lines 258 to 261): the
    result holds only letters, digits, [_.-~], the slash and the percent
    sign; a text is left as it is exactly when it holds only the characters
    that pass (the slash among them, which is therefore never escaped); and
    distinct texts are quoted to distinct texts. *)
Theorem X3_quote_is_safe_and_injective :
  forall a b : string,
    Props.all_chars Props.url_char (Url.quote a) = true
    /\ (Url.quote a = a
        <-> Props.all_chars Props.quote_safe a = true)
    /\ (Url.quote a = Url.quote b <-> a = b).
Proof.
  intros a b. split; [|split].
  - induction a as [|c a IH]; [reflexivity|]. rewrite quote_unfold.
    destruct (quote_safe c) eqn:Hc.
    + cbn [Props.all_chars]. rewrite IH. unfold Props.url_char.
      fold (quote_safe c). now rewrite Hc.
    + pose proof (nat_ascii_bounded c) as Hb.
      destruct (hex_digit_spec (nat_of_ascii c / 16)) as [H1 _];
        [apply Nat.Div0.div_lt_upper_bound; lia|].
      destruct (hex_digit_spec (nat_of_ascii c mod 16)) as [H2 _];
        [apply Nat.mod_upper_bound; lia|].
      cbn [Props.all_chars]. rewrite IH. unfold Props.url_char. now rewrite H1, H2.
  - induction a as [|c a IH]; [split; reflexivity|]. rewrite quote_unfold.
    cbn [Props.all_chars]. fold (quote_safe c). destruct (quote_safe c) eqn:Hc.
    + cbn [andb]. rewrite <- IH. split; [intros [= H]; exact H | intros ->; reflexivity].
    + cbn [andb]. split; [|intros H; discriminate H]. intros H. injection H as _ H.
      apply (f_equal String.length) in H. pose proof (quote_length a). simpl in H. lia.
  - split; [apply quote_injective | intros ->; reflexivity].
Qed.

(** X4.  The collector's renderer (mesh_metrics.py, lines 200 to 237)
    gives, line for line, the output of the library renderer
    (prometheus_manager.py, lines 44 to 82) set to the [clean] node format
    and to the collector's version. *)
Theorem X4_collector_renders_as_the_clean_library_formatter :
  forall (node_id : string) (telemetry_data : telemetry) (device_info : gmap string string),
    Collector.format_prometheus_output node_id telemetry_data device_info
    = PrometheusFormatter.format_prometheus_metrics
        {| PrometheusFormatter.node_id_format := "clean";
           PrometheusFormatter.version := Collector.VERSION |}
        node_id telemetry_data device_info.
Proof.
  intros node_id telemetry_data device_info.
  unfold Collector.format_prometheus_output, PrometheusFormatter.format_prometheus_metrics,
    PrometheusFormatter.metadata_lines, PrometheusFormatter.opt_line,
    PrometheusFormatter.up_line, PrometheusFormatter.up_value,
    PrometheusFormatter.format_node_id_for_metric.
  cbn [PrometheusFormatter.node_id_format PrometheusFormatter.version String.eqb Ascii.eqb
       Bool.eqb andb].
  cbv zeta. rewrite <- !app_assoc. f_equal.
  apply map_ext. intros [key v]. reflexivity.
Qed.

(** ** What the file sink leaves alone *)
Section Frame.
Context {B : Type} (proj : world -> B) (Hblind : Props.file_blind proj).

Lemma frame_set_files ev fs w : proj (set_files ev fs w) = proj w.
Proof. apply Hblind. Qed.

Lemma frame_ret {A} (a : A) : Props.keeps proj (ret a).
Proof. intros w. reflexivity. Qed.

Lemma frame_raise {A} (e : pyexn) : Props.keeps proj (@raise A e).
Proof. intros w. reflexivity. Qed.

Lemma frame_log level msg : Props.keeps proj (log level msg).
Proof. intros w. apply Hblind. Qed.

Lemma frame_bind {A C} (m : M A) (f : A -> M C) :
  Props.keeps proj m -> (forall a, Props.keeps proj (f a)) -> Props.keeps proj (bind m f).
Proof.
  intros Hm Hf w. unfold bind. specialize (Hm w).
  destruct (m w) as [[a|e] w1]; simpl in *; [now rewrite Hf | exact Hm].
Qed.

Lemma frame_try {A} (m : M A) (h : pyexn -> M A) :
  Props.keeps proj m -> (forall e, Props.keeps proj (h e)) ->
  Props.keeps proj (try_except m h).
Proof.
  intros Hm Hh w. unfold try_except. specialize (Hm w).
  destruct (m w) as [[a|e] w1]; simpl in *; [exact Hm | now rewrite Hh].
Qed.

Lemma frame_if {A} (c : bool) (m1 m2 : M A) :
  Props.keeps proj m1 -> Props.keeps proj m2 -> Props.keeps proj (if c then m1 else m2).
Proof. now destruct c. Qed.

Lemma frame_for_each {A} (l : list A) (body : A -> M unit) :
  (forall a, Props.keeps proj (body a)) -> Props.keeps proj (for_each l body).
Proof.
  intros Hb. induction l as [|a l IH]; simpl; [apply frame_ret|].
  apply frame_bind; [apply Hb | intros _; exact IH].
Qed.

Lemma frame_write_flush pl p c : Props.keeps proj (Os.write_flush pl p c).
Proof.
  intros w. unfold Os.write_flush. destruct (write_error pl); apply frame_set_files.
Qed.

Lemma frame_open_w pl p : Props.keeps proj (Os.open_w pl p).
Proof.
  intros w. unfold Os.open_w. destruct (open_error pl); [reflexivity | apply frame_set_files].
Qed.

Lemma frame_unlink f p : Props.keeps proj (Os.unlink f p).
Proof.
  intros w. unfold Os.unlink. destruct f; [reflexivity|].
  destruct (files w !! p); [apply frame_set_files | reflexivity].
Qed.

Lemma frame_rename pl a b : Props.keeps proj (Os.rename pl a b).
Proof.
  intros w. unfold Os.rename. destruct (rename_error pl); [reflexivity|].
  destruct (files w !! a); [apply frame_set_files | reflexivity].
Qed.

Lemma frame_rename_nt pl a b : Props.keeps proj (Os.rename_nt pl a b).
Proof.
  intros w. unfold Os.rename_nt. destruct (files w !! b); [reflexivity | apply frame_rename].
Qed.

Lemma frame_copy2 pl a b : Props.keeps proj (Os.copy2 pl a b).
Proof.
  intros w. unfold Os.copy2. destruct (files w !! a); [|reflexivity].
  destruct (copy_open_error pl); [reflexivity|].
  destruct (copy_write_error pl); cbv zeta; cbn [snd];
    [now rewrite !frame_set_files|].
  destruct (copystat_error pl); cbn [snd]; now rewrite !frame_set_files.
Qed.

Lemma frame_move pl a b : Props.keeps proj (Os.move pl a b).
Proof.
  unfold Os.move. apply frame_try; [apply frame_rename_nt|].
  intros e. destruct e; try apply frame_raise.
  apply frame_bind; [apply frame_copy2 | intros _; apply frame_unlink].
Qed.

Lemma frame_fsync pl p : Props.keeps proj (Os.fsync pl p).
Proof.
  intros w. unfold Os.fsync. destruct (fsync_error pl); [reflexivity | apply frame_set_files].
Qed.

Lemma frame_mkdir E d : Props.keeps proj (PrometheusFileWriter.mkdir E d).
Proof.
  unfold PrometheusFileWriter.mkdir. apply frame_if; [apply frame_raise | apply frame_ret].
Qed.

Lemma frame_cleanup pl tp : Props.keeps proj (Atomic.cleanup pl tp).
Proof.
  destruct tp as [tmp|]; simpl; [|apply frame_ret].
  apply frame_bind; [intros w; reflexivity|]. intros present.
  apply frame_if; [|apply frame_ret].
  apply frame_try; [apply frame_unlink | intros _; apply frame_ret].
Qed.

Lemma frame_try_block os pl content filepath w :
  proj (snd (Atomic.try_block os pl content filepath w)) = proj w.
Proof.
  unfold Atomic.try_block, Os.mkstemp.
  destruct (mkstemp_error pl); [reflexivity|].
  destruct (Os.first_free _ _ _) as [tmp|]; [|reflexivity].
  set (w1 := set_files _ _ w).
  assert (H1 : proj w1 = proj w) by apply frame_set_files.
  pose proof (frame_bind _ _ (frame_write_flush pl tmp content)
                (fun _ => frame_fsync pl tmp) w1) as H2.
  destruct (bind _ _ w1) as [[[]|e] w2]; simpl in H2; [|simpl; congruence].
  assert (H3 : Props.keeps proj
                 (match os with
                  | nt => bind (Os.exists_ filepath) (fun present =>
                            bind (if present then Os.unlink (target_unlink_error pl) filepath
                                  else ret tt)
                                 (fun _ => Os.move pl tmp filepath))
                  | posix => Os.rename pl tmp filepath
                  end)).
  { destruct os; [apply frame_rename|].
    apply frame_bind; [intros ?; reflexivity|]. intros present.
    apply frame_bind; [|intros _; apply frame_move].
    apply frame_if; [apply frame_unlink | apply frame_ret]. }
  specialize (H3 w2). destruct (_ w2) as [[[]|e] w3]; simpl in *; congruence.
Qed.

Lemma frame_library_atomic E content filepath :
  Props.keeps proj (PrometheusFileWriter.write_output_atomic E content filepath).
Proof.
  intros w. unfold PrometheusFileWriter.write_output_atomic.
  pose proof (frame_try_block (platform E) (plan_for E filepath) content filepath w) as H.
  destruct (Atomic.try_block _ _ _ _ w) as [[[[]|e] tp] w1]; simpl in *; [exact H|].
  rewrite <- H.
  apply (frame_bind _ _ (frame_cleanup (plan_for E filepath) tp) (fun _ => frame_raise _)).
Qed.

Lemma frame_daemon_atomic E content filepath :
  Props.keeps proj (Daemon.write_output_atomic E content filepath).
Proof.
  intros w. unfold Daemon.write_output_atomic.
  pose proof (frame_try_block (platform E) (plan_for E filepath) content filepath w) as H.
  destruct (Atomic.try_block _ _ _ _ w) as [[[[]|e] tp] w1]; simpl in *.
  - rewrite <- H. apply frame_log.
  - rewrite <- H.
    apply (frame_bind _ _ (frame_log _ _)
             (fun _ => frame_bind _ _ (frame_cleanup (plan_for E filepath) tp)
                         (fun _ => frame_raise _))).
Qed.

Lemma frame_write_plain E content filepath :
  Props.keeps proj (PrometheusFileWriter.write_plain E content filepath).
Proof.
  unfold PrometheusFileWriter.write_plain.
  apply frame_bind; [apply frame_open_w | intros _; apply frame_write_flush].
Qed.

Lemma frame_write_metrics_files E self lines :
  Props.keeps proj (PrometheusFileWriter.write_metrics_files E self lines).
Proof.
  unfold PrometheusFileWriter.write_metrics_files.
  destruct (PrometheusFileWriter.output_dir self) as [dir|]; [|apply frame_ret].
  assert (Hone : forall c p, Props.keeps proj (PrometheusFileWriter.write_one E self c p)).
  { intros c p. unfold PrometheusFileWriter.write_one.
    apply frame_if; [apply frame_library_atomic | apply frame_write_plain]. }
  apply frame_try; [|intros e; apply frame_raise].
  apply frame_bind; [apply frame_mkdir|]. intros _. apply frame_if.
  - unfold PrometheusFileWriter._write_individual_files.
    apply frame_bind; [|intros _; apply frame_ret].
    apply frame_for_each. intros [node_id ls].
    apply frame_try; [apply Hone | intros e; apply frame_raise].
  - unfold PrometheusFileWriter._write_single_file.
    apply frame_try; [|intros e; apply frame_raise].
    apply frame_bind; [apply Hone | intros _; apply frame_ret].
Qed.

Lemma frame_daemon_write_files E cfg lines :
  Props.keeps proj (Daemon.write_files E cfg lines).
Proof.
  unfold Daemon.write_files.
  assert (Hone : forall what c p, Props.keeps proj (Daemon.write_logged E cfg what c p)).
  { intros what c p. unfold Daemon.write_logged.
    apply frame_try; [|intros e; apply frame_log].
    apply frame_if; [apply frame_daemon_atomic | apply frame_write_plain]. }
  apply frame_if; [|apply frame_ret].
  apply frame_bind; [apply frame_mkdir|]. intros _. apply frame_if; [|apply Hone].
  apply frame_for_each. intros [node_id ls]. apply Hone.
Qed.

End Frame.

Lemma requests_file_blind : Props.file_blind requests.
Proof. split; reflexivity. Qed.

Lemma stats_file_blind : Props.file_blind daemon_stats.
Proof. split; reflexivity. Qed.

(** ** The sinks together *)
Lemma write_metrics_files_result (E : env) (self : PrometheusFileWriter.t)
    (lines : list string) (w : world) :
  fst (PrometheusFileWriter.write_metrics_files E self lines w) = Ok true
  \/ exists msg,
       fst (PrometheusFileWriter.write_metrics_files E self lines w)
       = Raise (PyException ("Failed to write metrics files: " +:+ msg)).
Proof.
  unfold PrometheusFileWriter.write_metrics_files.
  destruct (PrometheusFileWriter.output_dir self) as [dir|]; [|now left].
  unfold try_except.
  match goal with |- context [match ?m w with _ => _ end] => destruct (m w) as [[b|e] w1] eqn:Hm end.
  - left. cbn [fst]. f_equal.
    unfold bind in Hm. destruct (PrometheusFileWriter.mkdir E dir w) as [[[]|e] w0]; [|discriminate].
    destruct (PrometheusFileWriter.individual_files self).
    + unfold PrometheusFileWriter._write_individual_files, bind in Hm.
      destruct (for_each _ _ w0) as [[[]|e] w2]; [|discriminate].
      now injection Hm as <- _.
    + unfold PrometheusFileWriter._write_single_file, try_except, bind in Hm.
      destruct (PrometheusFileWriter.write_one _ _ _ _ w0) as [[[]|e] w2].
      * now injection Hm as <- _.
      * discriminate.
  - right. eexists. reflexivity.
Qed.

(** X5.  [write_metrics_files] (prometheus_manager.py, lines 147 to 224)
    never returns [False]: it returns [True] or raises an exception whose
    text begins with [Failed to write metrics files]; without an output
    directory it returns [True] and touches nothing. *)
Theorem X5_write_metrics_files_never_returns_false :
  forall (E : env) (self : PrometheusFileWriter.t) (all_output_lines : list string)
         (w : world),
    (fst (PrometheusFileWriter.write_metrics_files E self all_output_lines w) = Ok true
     \/ exists msg,
          fst (PrometheusFileWriter.write_metrics_files E self all_output_lines w)
          = Raise (PyException ("Failed to write metrics files: " +:+ msg)))
    /\ (PrometheusFileWriter.output_dir self = None ->
        PrometheusFileWriter.write_metrics_files E self all_output_lines w = (Ok true, w)).
Proof.
  intros E self lines w. split; [apply write_metrics_files_result|].
  intros Hdir. unfold PrometheusFileWriter.write_metrics_files. now rewrite Hdir.
Qed.

Lemma write_part_result (E : env) (self : PrometheusManager.t) (lines : list string)
    (w : world) :
  exists ok errs w',
    PrometheusManager.write_part E self lines w = (Ok (ok, errs), w')
    /\ requests w' = requests w
    /\ ((ok = true /\ errs = []) \/ (ok = false /\ exists m, errs = [String "F" m])).
Proof.
  unfold PrometheusManager.write_part.
  destruct (PrometheusManager.file_writer self) as [fw|].
  2:{ exists true, [], w. repeat split. now left. }
  pose proof (frame_write_metrics_files requests requests_file_blind E fw lines w) as Hreq.
  destruct (write_metrics_files_result E fw lines w) as [Hok | [msg Hraise]].
  - unfold try_except, bind.
    destruct (PrometheusFileWriter.write_metrics_files E fw lines w) as [r w1].
    cbn [fst snd] in *. subst r. cbn.
    eexists _, _, _. split; [reflexivity|]. split; [exact Hreq | now left].
  - unfold try_except, bind.
    destruct (PrometheusFileWriter.write_metrics_files E fw lines w) as [r w1].
    cbn [fst snd] in *. subst r. cbn.
    eexists _, _, _. split; [reflexivity|]. split; [exact Hreq|]. right. eauto.
Qed.

Lemma push_part_result (E : env) (self : PrometheusManager.t) (lines : list string)
    (w : world) :
  exists ok errs w',
    PrometheusManager.push_part E self lines w = (Ok (ok, errs), w')
    /\ ((ok = true /\ errs = []) \/ (ok = false /\ exists m, errs = [String "P" m]))
    /\ match PrometheusManager.push_gateway self with
       | Some pg =>
           requests w' = (requests w ++ Claims.sent E pg lines)%list
           /\ (ok = true <->
               PrometheusPushGateway.push_url pg = ""
               \/ Claims.delivered E pg lines = true)
       | None => requests w' = requests w /\ ok = true
       end.
Proof.
  unfold PrometheusManager.push_part.
  destruct (PrometheusManager.push_gateway self) as [pg|].
  2:{ exists true, [], w. split; [reflexivity|]. split; [now left | now split]. }
  destruct (library_push_returns E pg lines w)
    as (ok & reason & w1 & Hrun & Hok & _ & _ & _ & Hreq & _).
  unfold try_except, bind. rewrite Hrun. cbn [fst snd]. destruct ok; cbn.
  - eexists _, _, _. split; [reflexivity|]. split; [now left | now split].
  - eexists _, _, _. split; [reflexivity|]. split; [right; eauto | now split].
Qed.

(** X6.  [write_and_push_metrics] (prometheus_manager.py, lines 334 to
    376) never raises.  Its error text is empty exactly when both flags are
    true.  A failure of the file sink does not keep the push from being
    attempted: whatever the file sink did, the requests sent are those of
    the push alone (the one request to the gateway, with all the lines,
    when its URL is set and [Request] accepts it, and none otherwise), and
    the push flag is true exactly when no URL is set or that push was
    delivered.  Without a push gateway nothing is sent and the push flag
    is true. *)
Theorem X6_manager_pushes_whatever_the_file_sink_does :
  forall (E : env) (self : PrometheusManager.t) (all_output_lines : list string) (w : world),
  exists file_success push_success error_message w',
    PrometheusManager.write_and_push_metrics E self all_output_lines w
    = (Ok (file_success, push_success, error_message), w')
    /\ (error_message = "" <-> file_success = true /\ push_success = true)
    /\ match PrometheusManager.push_gateway self with
       | Some pg =>
           requests w' = (requests w ++ Claims.sent E pg all_output_lines)%list
           /\ (push_success = true <->
               PrometheusPushGateway.push_url pg = ""
               \/ Claims.delivered E pg all_output_lines = true)
       | None => requests w' = requests w /\ push_success = true
       end.
Proof.
  intros E self lines w. unfold PrometheusManager.write_and_push_metrics.
  destruct (write_part_result E self lines w) as (fs & e1 & w1 & Hw & Hreq1 & Hf).
  destruct (push_part_result E self lines w1) as (ps & e2 & w2 & Hp & Hs & Hreq2).
  rewrite (bind_ok _ _ _ _ _ Hw). cbv beta. rewrite (bind_ok _ _ _ _ _ Hp). cbv beta.
  cbn [fst snd ret]. eexists _, _, _, _. split; [reflexivity|]. split.
  - destruct Hf as [[-> ->] | [-> [m1 ->]]], Hs as [[-> ->] | [-> [m2 ->]]]; cbn;
      split; try discriminate; try (intros [? ?]; discriminate); auto.
  - rewrite <- Hreq1. exact Hreq2.
Qed.

(** X7.  The daemon's [write_output] (meshmetricsd.py, lines 616 to 674)
    with a push URL: once the output directory exists or can be made, no
    failure of a file write keeps the push from happening: the call
    returns and the requests sent are those of the push, the one request
    carrying all the lines when [Request] accepts the URL, and none when it
    does not.  When the directory cannot be made, the call raises and
    nothing is pushed. *)
Theorem X7_daemon_pushes_whatever_the_file_writes_do :
  forall (E : env) (cfg : Daemon.config) (exporter : PrometheusPushGateway.t)
         (all_output_lines : list string) (w : world),
    Py.truthy (PrometheusPushGateway.push_url exporter) = true ->
    let r := Daemon.write_output E cfg exporter all_output_lines w in
    let req := PrometheusPushGateway.build_request exporter all_output_lines in
    (if Py.truthy (Daemon.output_directory cfg)
        && mkdir_error E (Daemon.output_directory cfg)
     then fst r = Raise (OSError "mkdir") /\ requests (snd r) = requests w
     else fst r = Ok tt
          /\ requests (snd r)
             = (requests w
                ++ match PrometheusPushGateway.request_error E req with
                   | None => [req]
                   | Some _ => []
                   end)%list).
Proof.
  intros E cfg exporter lines w Hurl r req. subst r. unfold Daemon.write_output.
  pose proof (frame_daemon_write_files requests requests_file_blind E cfg lines w) as Hreq.
  destruct (Py.truthy (Daemon.output_directory cfg)
            && mkdir_error E (Daemon.output_directory cfg)) eqn:Hd.
  - apply andb_true_iff in Hd as [Hdir Hmk].
    unfold Daemon.write_files in *. rewrite Hdir in *.
    unfold bind, PrometheusFileWriter.mkdir in *. rewrite Hmk in *. cbn. split; reflexivity.
  - assert (Hok : fst (Daemon.write_files E cfg lines w) = Ok tt).
    { apply write_files_returns. intros Hdir. rewrite Hdir in Hd. exact Hd. }
    unfold Daemon.push_and_count. rewrite Hurl.
    unfold bind. destruct (Daemon.write_files E cfg lines w) as [r1 w1].
    cbn [fst snd] in *. subst r1.
    destruct (daemon_push_returns E exporter lines w1)
      as (ok & w2 & Hrun & _ & _ & _ & Hone & _).
    rewrite Hrun. unfold Claims.sent in Hone. rewrite Hurl in Hone. fold req in Hone.
    rewrite Hreq in Hone.
    destruct ok; cbn; split; try reflexivity; exact Hone.
Qed.

Lemma X7_daemon_push_witness :
  requests (snd (Daemon.write_output Scenario.healthy Scenario.cfg Scenario.exporter
                   ["meshtastic_up{node=x} 1"] Scenario.fresh))
  = [PrometheusPushGateway.build_request Scenario.exporter ["meshtastic_up{node=x} 1"]].
Proof.
  exact (proj2 (X7_daemon_pushes_whatever_the_file_writes_do Scenario.healthy Scenario.cfg
                  Scenario.exporter ["meshtastic_up{node=x} 1"] Scenario.fresh eq_refl)).
Defined.

(** ** Grouping the lines by node *)
Fixpoint group_lookup (k : string) (acc : list (string * list string)) : option (list string) :=
  match acc with
  | [] => None
  | (n, ls) :: rest => if String.eqb n k then Some ls else group_lookup k rest
  end.

Lemma group_lookup_add (k k' line : string) (acc : list (string * list string)) :
  group_lookup k' (PrometheusFileWriter.add_line k line acc)
  = if String.eqb k k'
    then Some (match group_lookup k acc with Some ls => ls ++ [line] | None => [line] end)%list
    else group_lookup k' acc.
Proof.
  induction acc as [|[n ls] acc IH]; cbn [PrometheusFileWriter.add_line group_lookup].
  - reflexivity.
  - destruct (String.eqb n k) eqn:Hnk; cbn [group_lookup].
    + apply String.eqb_eq in Hnk. subst n. destruct (String.eqb k k'); reflexivity.
    + rewrite IH. destruct (String.eqb k k') eqn:Hkk; [|reflexivity].
      apply String.eqb_eq in Hkk. subst k'. now rewrite Hnk.
Qed.

Lemma group_keys_add (k line : string) (acc : list (string * list string)) :
  map fst (PrometheusFileWriter.add_line k line acc)
  = match group_lookup k acc with
    | Some _ => map fst acc
    | None => (map fst acc ++ [k])%list
    end.
Proof.
  induction acc as [|[n ls] acc IH]; cbn [PrometheusFileWriter.add_line group_lookup map fst].
  - reflexivity.
  - destruct (String.eqb n k); cbn [map fst]; [reflexivity|]. rewrite IH.
    now destruct (group_lookup k acc).
Qed.

Lemma group_lookup_keys (k : string) (acc : list (string * list string)) :
  group_lookup k acc = None <-> ~ In k (map fst acc).
Proof.
  induction acc as [|[n ls] acc IH]; cbn [group_lookup map fst In]; [tauto|].
  destruct (String.eqb n k) eqn:Hnk.
  - apply String.eqb_eq in Hnk. split; [discriminate | tauto].
  - apply String.eqb_neq in Hnk. tauto.
Qed.

Lemma group_lookup_in (k : string) (ls : list string) (acc : list (string * list string)) :
  NoDup (map fst acc) -> (In (k, ls) acc <-> group_lookup k acc = Some ls).
Proof.
  induction acc as [|[n l] acc IH]; cbn [group_lookup map fst In]; intros Hnd.
  - split; [tauto | discriminate].
  - apply NoDup_cons in Hnd as [Hn Hnd]. specialize (IH Hnd).
    destruct (String.eqb n k) eqn:Hnk.
    + apply String.eqb_eq in Hnk. subst n. split.
      * intros [[= ->] | Hin]; [reflexivity|]. exfalso. apply Hn.
        apply list_elem_of_In. change k with (fst (k, ls)). now apply in_map.
      * intros [= ->]. now left.
    + apply String.eqb_neq in Hnk. rewrite <- IH. split; [|tauto].
      intros [[= ? ?] | Hin]; [congruence | exact Hin].
Qed.

(** What the loop of lines 175 to 183 has built after the lines [seen]. *)
Definition grouped (seen : list string) (acc : list (string * list string)) : Prop :=
  NoDup (map fst acc)
  /\ forall k, group_lookup k acc
               = match List.filter (Props.filed_under k) seen with
                 | [] => None
                 | ls => Some ls
                 end.

Definition group_step (acc : list (string * list string)) (line : string) :=
  match Re.re_search Re.node_re line with
  | Some (node_id :: _) => PrometheusFileWriter.add_line node_id line acc
  | _ => acc
  end.

Lemma grouped_step (seen : list string) (acc : list (string * list string)) (line : string) :
  grouped seen acc -> grouped (seen ++ [line]) (group_step acc line).
Proof.
  intros [Hnd Hlook]. unfold grouped, group_step.
  assert (Hfilter : forall k,
             List.filter (Props.filed_under k) (seen ++ [line])
             = (List.filter (Props.filed_under k) seen
                ++ if Props.filed_under k line then [line] else [])%list).
  { intros k. rewrite List.filter_app. cbn [List.filter].
    now destruct (Props.filed_under k line). }
  unfold Props.filed_under, Props.node_of in *.
  destruct (Re.re_search Re.node_re line) as [[|n caps]|] eqn:Hre.
  - split; [exact Hnd|]. intros k. rewrite Hfilter, Hlook, app_nil_r. reflexivity.
  - split.
    + rewrite group_keys_add. destruct (group_lookup n acc) eqn:Hn; [exact Hnd|].
      apply NoDup_app. split; [exact Hnd|]. split; [|apply NoDup_singleton].
      intros x Hx Hk. apply list_elem_of_singleton in Hk. subst x.
      apply group_lookup_keys in Hn. apply Hn. now apply list_elem_of_In.
    + intros k. rewrite group_lookup_add, Hfilter, !Hlook.
      destruct (String.eqb n k) eqn:Hnk.
      * apply String.eqb_eq in Hnk. subst k.
        destruct (List.filter _ seen); reflexivity.
      * rewrite app_nil_r. reflexivity.
  - split; [exact Hnd|]. intros k. rewrite Hfilter, Hlook, app_nil_r. reflexivity.
Qed.

Lemma grouped_fold (lines seen : list string) (acc : list (string * list string)) :
  grouped seen acc -> grouped (seen ++ lines) (fold_left group_step lines acc).
Proof.
  revert seen acc. induction lines as [|x lines IH]; intros seen acc H.
  - now rewrite app_nil_r.
  - cbn [fold_left]. replace (seen ++ x :: lines)%list with ((seen ++ [x]) ++ lines)%list
      by (rewrite <- app_assoc; reflexivity).
    apply IH. now apply grouped_step.
Qed.

Lemma group_by_node_grouped (lines : list string) :
  grouped lines (PrometheusFileWriter.group_by_node lines).
Proof.
  apply (grouped_fold lines [] []). split; [constructor | reflexivity].
Qed.

(** X8.  The grouping of the output lines by node (prometheus_manager.py,
    lines 172 to 183; meshmetricsd.py, lines 629 to 637): the node
    identifiers of the groups are pairwise distinct; the group of a node is
    not empty and holds exactly the lines filed under that node, in their
    order; and every line that names a node is in the group of that node.
    A line without a node label is in no group. *)
Theorem X8_group_by_node_partitions_the_lines :
  forall all_output_lines : list string,
    let node_outputs := PrometheusFileWriter.group_by_node all_output_lines in
    NoDup (map fst node_outputs)
    /\ (forall node_id lines,
           In (node_id, lines) node_outputs <->
           lines <> [] /\ lines = List.filter (Props.filed_under node_id) all_output_lines)
    /\ (forall line, In line all_output_lines ->
           match Props.node_of line with
           | Some node_id =>
               exists lines, In (node_id, lines) node_outputs /\ In line lines
           | None => forall node_id lines, In (node_id, lines) node_outputs -> ~ In line lines
           end).
Proof.
  intros lines node_outputs. subst node_outputs.
  destruct (group_by_node_grouped lines) as [Hnd Hlook].
  assert (Hin : forall node_id ls,
             In (node_id, ls) (PrometheusFileWriter.group_by_node lines) <->
             ls <> [] /\ ls = List.filter (Props.filed_under node_id) lines).
  { intros k ls. rewrite (group_lookup_in _ _ _ Hnd), Hlook.
    destruct (List.filter (Props.filed_under k) lines) as [|x f].
    - split; [discriminate | intros [Hne ->]; congruence].
    - split; [intros [= <-]; split; [discriminate | reflexivity] | intros [_ ->]; reflexivity]. }
  split; [exact Hnd|]. split; [exact Hin|].
  intros line Hline. destruct (Props.node_of line) as [k|] eqn:Hk.
  - exists (List.filter (Props.filed_under k) lines).
    assert (Hf : In line (List.filter (Props.filed_under k) lines)).
    { apply List.filter_In. split; [exact Hline|]. unfold Props.filed_under.
      rewrite Hk. apply String.eqb_refl. }
    split; [|exact Hf]. apply Hin. split; [|reflexivity].
    intros Hnil. rewrite Hnil in Hf. exact Hf.
  - intros k ls Hg Hl. apply Hin in Hg as [_ ->].
    apply List.filter_In in Hl as [_ Hl]. unfold Props.filed_under in Hl.
    rewrite Hk in Hl. discriminate.
Qed.

(** ** The node label of a rendered line *)
Lemma go_lit_needs_prefix (p : string) (r : Re.regex) (i : nat) (s : string)
    (caps : list string) (k : nat -> string -> list string -> option (list string)) :
  Py.startswith p s = false -> Re.go (Re.lit p r) i s caps k = None.
Proof.
  revert i s. induction p as [|c p IH]; intros i s H; [discriminate H|].
  cbn [Re.lit Re.go]. destruct s as [|a s]; [reflexivity|].
  cbn [Py.startswith] in H. rewrite Ascii.eqb_sym in H.
  destruct (Ascii.eqb a c); [|reflexivity]. now apply IH.
Qed.

Lemma go_lit_prefix (p : string) (r : Re.regex) (i : nat) (t : string)
    (caps : list string) (k : nat -> string -> list string -> option (list string)) :
  Re.go (Re.lit p r) i (p +:+ t) caps k = Re.go r (i + String.length p) t caps k.
Proof.
  revert i. induction p as [|c p IH]; intros i.
  - cbn. now rewrite Nat.add_0_r.
  - cbn [Re.lit Re.go String.append String.length]. rewrite Ascii.eqb_refl, IH.
    f_equal. lia.
Qed.

Lemma no_dq_cons (c : ascii) (s : string) :
  Props.no_dq (String c s) = true -> Ascii.eqb Py.dq c = false /\ Props.no_dq s = true.
Proof.
  unfold Props.no_dq. cbn [Py.mem_char]. intros H. apply negb_true_iff in H.
  apply orb_false_iff in H as [H1 H2]. rewrite Ascii.eqb_sym, H1, H2. split; reflexivity.
Qed.

(** Inside a text without a double quote that is followed by the label, the
    label's opening cannot begin. *)
Lemma no_opening_inside (m rest : string) :
  Props.no_dq m = true ->
  Py.startswith node_open (m +:+ "{" +:+ node_open +:+ rest) = false.
Proof.
  intros H. unfold node_open.
  destruct m as [|c0 m]; [reflexivity|]. apply no_dq_cons in H as [H0 H].
  destruct m as [|c1 m]; [cbn; btauto|]. apply no_dq_cons in H as [H1 H].
  destruct m as [|c2 m]; [cbn; btauto|]. apply no_dq_cons in H as [H2 H].
  destruct m as [|c3 m]; [cbn; btauto|]. apply no_dq_cons in H as [H3 H].
  destruct m as [|c4 m]; [cbn; btauto|]. apply no_dq_cons in H as [H4 H].
  destruct m as [|c5 m]; [cbn; btauto|]. apply no_dq_cons in H as [H5 H].
  cbn [String.append Py.str1 Py.startswith]. unfold Py.dq in *. rewrite H5. btauto.
Qed.

Lemma search_skips_name (name rest : string) (i : nat) :
  Props.no_dq name = true ->
  Re.search_from Re.node_re i (name +:+ "{" +:+ node_open +:+ rest)
  = Re.search_from Re.node_re (i + String.length name) ("{" +:+ node_open +:+ rest).
Proof.
  revert i. induction name as [|c name IH]; intros i H.
  - cbn [String.append String.length]. now rewrite Nat.add_0_r.
  - pose proof (no_opening_inside (String c name) rest H) as Hno.
    apply no_dq_cons in H as [_ H].
    cbn [String.append] in *. cbn [Re.search_from].
    change Re.node_re with (Re.lit node_open (Re.Seq (Re.Grp (Re.PlusCls Re.not_dq))
                                                     (Re.Chr Py.dq))) at 1.
    rewrite (go_lit_needs_prefix _ _ _ _ _ _ Hno).
    rewrite (IH (S i) H). cbn [String.length]. rewrite Nat.add_succ_r. reflexivity.
Qed.

Lemma star_not_dq_run (id rest : string) (i : nat) {R}
    (k : nat -> string -> option R) (r : R) :
  Props.no_dq id = true ->
  k (i + String.length id)%nat (String Py.dq rest) = Some r ->
  Re.star_cls Re.not_dq i (id +:+ String Py.dq rest) k = Some r.
Proof.
  revert i. induction id as [|c id IH]; intros i Hid Hk.
  - cbn in *. rewrite Nat.add_0_r in Hk. exact Hk.
  - apply no_dq_cons in Hid as [Hc Hid].
    cbn [String.append Re.star_cls]. unfold Re.not_dq at 1.
    rewrite Ascii.eqb_sym, Hc. cbn [negb].
    rewrite IH; [reflexivity | exact Hid |]. cbn [String.length] in Hk.
    now replace (S i + String.length id)%nat with (i + S (String.length id))%nat by lia.
Qed.

Lemma take_str_app (a b : string) : Re.take_str (String.length a) (a +:+ b) = a.
Proof.
  unfold Re.take_str. induction a as [|c a IH]; cbn.
  - now destruct b.
  - now rewrite IH.
Qed.

Lemma search_from_unfold (r : Re.regex) (i : nat) (s : string) :
  Re.search_from r i s
  = match Re.go r i s [] (fun _ _ caps => Some caps) with
    | Some caps => Some caps
    | None => match s with
              | EmptyString => None
              | String _ t => Re.search_from r (S i) t
              end
    end.
Proof. destruct s; reflexivity. Qed.

(** The first match of the node pattern in a line whose metric name holds
    no double quote is the label that the renderer wrote. *)
Lemma node_of_labelled (name id rest : string) :
  Props.no_dq name = true -> Props.no_dq id = true -> id <> "" ->
  Props.node_of (name +:+ "{" +:+ node_open +:+ id +:+ String Py.dq rest) = Some id.
Proof.
  intros Hname Hid Hne. unfold Props.node_of, Re.re_search.
  rewrite (search_skips_name name _ 0 Hname).
  set (t := node_open +:+ id +:+ String Py.dq rest).
  change ("{" +:+ t) with (String "{"%char t). cbn [Re.search_from].
  change Re.node_re with (Re.lit node_open (Re.Seq (Re.Grp (Re.PlusCls Re.not_dq))
                                                   (Re.Chr Py.dq))).
  rewrite go_lit_needs_prefix by reflexivity.
  rewrite search_from_unfold. subst t. rewrite go_lit_prefix. cbn [Re.go].
  destruct id as [|c id]; [congruence|]. apply no_dq_cons in Hid as [Hc Hid].
  cbn [String.append]. unfold Re.not_dq at 1. rewrite Ascii.eqb_sym, Hc. cbn [negb].
  erewrite star_not_dq_run; [| exact Hid |].
  2:{ cbn [Re.go]. rewrite Ascii.eqb_refl. reflexivity. }
  cbn [app]. f_equal.
  match goal with |- Re.take_str ?n _ = _ =>
    replace n with (String.length (String c id)) by (cbn [String.length]; lia) end.
  apply (take_str_app (String c id)).
Qed.

Lemma label_shape (id rest : string) :
  PrometheusFormatter.node_label id +:+ rest
  = "{" +:+ node_open +:+ id +:+ String Py.dq rest.
Proof.
  unfold PrometheusFormatter.node_label, node_open.
  rewrite !str_app_assoc. reflexivity.
Qed.

Lemma lower_char_dq (c : ascii) : Ascii.eqb (Py.lower_char c) Py.dq = Ascii.eqb c Py.dq.
Proof. destruct c as [[] [] [] [] [] [] [] []]; reflexivity. Qed.

Lemma no_dq_lower (s : string) : Props.no_dq (Py.lower s) = Props.no_dq s.
Proof.
  unfold Props.no_dq. f_equal. induction s as [|c s IH]; [reflexivity|].
  cbn [Py.lower Py.mem_char]. now rewrite lower_char_dq, IH.
Qed.

Lemma no_dq_metric_name (key : string) :
  Props.no_dq key = true -> Props.no_dq (PrometheusFormatter.metric_name key) = true.
Proof.
  intros H. unfold PrometheusFormatter.metric_name, Props.no_dq in *.
  apply negb_true_iff. apply negb_true_iff in H. rewrite mem_char_app. cbn [orb].
  change (Py.mem_char Py.dq "meshtastic_") with false. cbn [orb].
  apply mem_char_replace_keeps; [|reflexivity].
  pose proof (no_dq_lower key) as Hl. unfold Props.no_dq in Hl.
  apply (f_equal negb) in Hl. rewrite !negb_involutive in Hl. congruence.
Qed.

Lemma node_of_numeric_line (name id v : string) :
  Props.no_dq name = true -> Props.no_dq id = true -> id <> "" ->
  Props.node_of (PrometheusFormatter.numeric_line name id v) = Some id.
Proof.
  intros. unfold PrometheusFormatter.numeric_line. rewrite label_shape.
  now apply node_of_labelled.
Qed.

Lemma node_of_labelled_line (name id lname lval v : string) :
  Props.no_dq name = true -> Props.no_dq id = true -> id <> "" ->
  Props.node_of (PrometheusFormatter.labelled_line name id lname lval v) = Some id.
Proof.
  intros. unfold PrometheusFormatter.labelled_line. rewrite label_shape.
  now apply node_of_labelled.
Qed.

Lemma node_of_rendered (self : PrometheusFormatter.t) (node_id : string)
    (telemetry_data : telemetry) (device_info : gmap string string) :
  let id := PrometheusFormatter.format_node_id_for_metric self node_id in
  Props.no_dq id = true -> id <> "" ->
  Forall (fun kv => Props.no_dq (fst kv) = true) telemetry_data ->
  Forall (fun line => Props.node_of line = Some id)
    (PrometheusFormatter.format_prometheus_metrics self node_id telemetry_data device_info).
Proof.
  intros id Hid Hne Hkeys.
  unfold PrometheusFormatter.format_prometheus_metrics, PrometheusFormatter.metadata_lines,
    PrometheusFormatter.opt_line, PrometheusFormatter.up_line.
  fold id. repeat apply Forall_app_2.
  - apply Forall_map. eapply Forall_impl; [exact Hkeys|]. intros [key v] Hk.
    cbn [fst] in Hk. unfold PrometheusFormatter.reading_line.
    destruct (PrometheusFormatter.is_numeric v).
    + apply node_of_numeric_line; auto using no_dq_metric_name.
    + apply node_of_labelled_line; auto using no_dq_metric_name.
  - destruct (field_set device_info "contact_name"); repeat constructor.
    now apply node_of_labelled_line.
  - destruct (field_set device_info "location"); repeat constructor.
    now apply node_of_labelled_line.
  - destruct (field_set device_info "latitude"); repeat constructor.
    now apply node_of_numeric_line.
  - destruct (field_set device_info "longitude"); repeat constructor.
    now apply node_of_numeric_line.
  - repeat constructor. now apply node_of_labelled_line.
Qed.

Lemma group_step_same (id line : string) (acc : list (string * list string)) :
  Props.node_of line = Some id ->
  group_step acc line = PrometheusFileWriter.add_line id line acc.
Proof.
  unfold Props.node_of, group_step.
  destruct (Re.re_search Re.node_re line) as [[|n caps]|]; try discriminate.
  now intros [= ->].
Qed.

Lemma group_one_node (id : string) (lines seen : list string) :
  Forall (fun line => Props.node_of line = Some id) lines ->
  fold_left group_step lines [(id, seen)] = [(id, (seen ++ lines)%list)].
Proof.
  revert seen. induction lines as [|x lines IH]; intros seen H.
  - now rewrite app_nil_r.
  - apply Forall_cons in H as [Hx H]. cbn [fold_left].
    rewrite (group_step_same id x _ Hx). cbn [PrometheusFileWriter.add_line].
    rewrite String.eqb_refl, (IH _ H), <- app_assoc. reflexivity.
Qed.

(** X9.  The renderer and the per-device mode together (prometheus_manager.py,
    lines 44 to 82 and 172 to 194).  When the node identifier put into the
    lines is not empty and neither it nor a reading key holds a double
    quote, every rendered line is filed under that identifier, the
    grouping gives one group that holds all the lines in their order, and
    the per-device mode writes one file, named after the sanitized
    identifier. *)
Theorem X9_rendered_lines_form_one_group :
  forall (self : PrometheusFormatter.t) (node_id dir : string)
         (telemetry_data : telemetry) (device_info : gmap string string),
    let id := PrometheusFormatter.format_node_id_for_metric self node_id in
    let out := PrometheusFormatter.format_prometheus_metrics self node_id telemetry_data
                 device_info in
    Props.no_dq id = true -> id <> "" ->
    Forall (fun kv => Props.no_dq (fst kv) = true) telemetry_data ->
    Forall (fun line => Props.node_of line = Some id) out
    /\ PrometheusFileWriter.group_by_node out = [(id, out)]
    /\ PrometheusFileWriter.individual_targets dir out
       = [Path dir ("meshtastic-" +:+ PrometheusFormatter.sanitize_filename id +:+ ".prom")].
Proof.
  intros self node_id dir telemetry_data device_info id out Hid Hne Hkeys.
  pose proof (node_of_rendered self node_id telemetry_data device_info Hid Hne Hkeys) as Hall.
  fold id in Hall. fold out in Hall.
  assert (Hgroup : PrometheusFileWriter.group_by_node out = [(id, out)]).
  { unfold PrometheusFileWriter.group_by_node. fold group_step.
    destruct out as [|x rest] eqn:Hout.
    - exfalso. unfold out, PrometheusFormatter.format_prometheus_metrics in Hout.
      apply (f_equal (@List.length string)) in Hout.
      rewrite !length_app in Hout. cbn in Hout. lia.
    - apply Forall_cons in Hall as [Hx Hrest]. cbn [fold_left].
      rewrite (group_step_same id x _ Hx). cbn [PrometheusFileWriter.add_line].
      apply (group_one_node id rest [x] Hrest). }
  split; [exact Hall|]. split; [exact Hgroup|].
  unfold PrometheusFileWriter.individual_targets. rewrite Hgroup. cbn [map].
  destruct (individual_filename_clean id) as [Hslash _].
  unfold PathLib.join. rewrite (split_last_none _ Hslash). reflexivity.
Qed.

Lemma X9_one_group_witness :
  PrometheusFileWriter.group_by_node
    (PrometheusFormatter.format_prometheus_metrics PrometheusFormatter.default_formatter
       "!a1b2c3d4" [("Battery", VInt 87); ("Voltage", VStr "4.1")] ∅)
  = [("!a1b2c3d4",
      PrometheusFormatter.format_prometheus_metrics PrometheusFormatter.default_formatter
        "!a1b2c3d4" [("Battery", VInt 87); ("Voltage", VStr "4.1")] ∅)].
Proof.
  refine (proj1 (proj2 (X9_rendered_lines_form_one_group PrometheusFormatter.default_formatter
                          "!a1b2c3d4" "/out" [("Battery", VInt 87); ("Voltage", VStr "4.1")]
                          ∅ _ _ _))).
  - reflexivity.
  - discriminate.
  - repeat constructor.
Defined.

(** ** Reading the device file *)
(** X10.  [decrypt_device_file] (meshmetricsd.py, lines 364 to 406) has no
    padding error.  Whatever the file and the password, the decryption
    proper ends in one of three exceptions only: the [ValueError] of the
    cipher for a length that is not a multiple of the block length, an
    [IndexError] and a [UnicodeDecodeError].  A [ValueError] is raised
    exactly when the cipher text is not a whole number of 16-byte blocks,
    so never for the padding; an empty cipher text (an empty file, for
    instance) raises [IndexError]. *)
Theorem X10_decryption_errors :
  forall (encrypted_data : bytes) (password : string),
    let body := snd (Daemon.split_salt (Daemon.unwrap_base64 encrypted_data)) in
    (Nat.modulo (List.length body) 16 <> 0%nat
     <-> exists what, Daemon.decrypt_bytes encrypted_data password = Raise (ValueError what))
    /\ (body = [] ->
        Daemon.decrypt_bytes encrypted_data password = Raise (IndexError "index out of range"))
    /\ (forall e, Daemon.decrypt_bytes encrypted_data password = Raise e ->
          e = ValueError "The length of the provided data is not a multiple of the block length."
          \/ e = IndexError "index out of range"
          \/ e = UnicodeDecodeError).
Proof.
  intros encrypted_data password body. subst body. unfold Daemon.decrypt_bytes.
  destruct (Daemon.split_salt (Daemon.unwrap_base64 encrypted_data)) as [salt body].
  cbn [snd]. generalize (Daemon.derive_key_iv salt password). intros key_iv.
  unfold Daemon.decrypt_payload, Cbc.decrypt. split; [|split].
  - destruct (Nat.eqb_spec (Nat.modulo (List.length body) 16) 0) as [Hz|Hnz]; cbn [rbind].
    + split; [intros H; contradiction|]. intros [what H].
      destruct (last_byte _); [|discriminate H].
      unfold Utf8.decode in H. destruct (Utf8.valid _); discriminate H.
    + split; [intros _; eexists; reflexivity | intros _; exact Hnz].
  - intros ->. reflexivity.
  - intros e. destruct (Nat.eqb _ 0); cbn [rbind]; [|intros [= <-]; now left].
    destruct (last_byte _); [|intros [= <-]; right; now left].
    unfold Utf8.decode. destruct (Utf8.valid _); [discriminate | intros [= <-]; now right; right].
Qed.

Lemma universal_newlines_plain (s : string) :
  Py.mem_char "013"%char s = false -> Py.universal_newlines s = s.
Proof.
  induction s as [|c s IH]; [reflexivity|]. cbn [Py.mem_char Py.universal_newlines].
  intros H. apply orb_false_iff in H as [Hc Hs]. now rewrite Hc, (IH Hs).
Qed.

(** X11.  [parse_device_file] without a password, or with an empty one
    (meshmetricsd.py, lines 412 to 416), does not decrypt: the file is read
    as text, whether or not the cryptography package is there, and a file
    of valid UTF-8 without carriage returns is read as it is. *)
Theorem X11_no_password_reads_the_file_as_text :
  forall (crypto_available : bool) (filepath : path) (password : option string)
         (content : string) (w : world),
    password = None \/ password = Some "" ->
    files w !! filepath = Some content ->
    Utf8.valid (of_string content) = true ->
    Daemon.device_file_content crypto_available filepath password w
    = (Ok (Py.universal_newlines content), w)
    /\ (Py.mem_char "013"%char content = false ->
        Daemon.device_file_content crypto_available filepath password w = (Ok content, w)).
Proof.
  intros ca filepath password content w Hpw Hfile Hvalid.
  assert (H : Daemon.device_file_content ca filepath password w
              = (Ok (Py.universal_newlines content), w)).
  { destruct Hpw as [-> | ->]; cbn [Daemon.device_file_content Py.truthy];
      unfold Daemon.read_text; rewrite Hfile; unfold Utf8.decode; rewrite Hvalid;
      cbn [rbind]; now rewrite to_string_of_string. }
  split; [exact H|]. intros Hcr. now rewrite H, universal_newlines_plain.
Qed.

Lemma X11_plain_roster_witness :
  Daemon.device_file_content false Scenario.roster_path None
    {| files := <[Scenario.roster_path := Scenario.roster]> ∅; history := [];
       requests := []; logged := []; daemon_stats := Daemon.initial_stats |}
  = (Ok Scenario.roster,
     {| files := <[Scenario.roster_path := Scenario.roster]> ∅; history := [];
        requests := []; logged := []; daemon_stats := Daemon.initial_stats |}).
Proof.
  refine (proj2 (X11_no_password_reads_the_file_as_text false Scenario.roster_path None
                   Scenario.roster _ _ _ _) _).
  - now left.
  - cbn [files]. apply lookup_insert_eq.
  - reflexivity.
  - reflexivity.
Defined.

(** ** A poll cycle *)
(** X12.  [poll_devices] (meshmetricsd.py, lines 701 to 741): a cycle that
    reaches its first device ends in the [NameError] of the renderer, before
    anything is written, pushed or counted: the files, the requests sent
    and the statistics are as before the cycle. *)
Theorem X12_cycle_with_a_device_raises_NameError :
  forall (E : env) (cfg : Daemon.config) (exporter : PrometheusPushGateway.t)
         (device : gmap string string) (rest : list (gmap string string)) (w : world),
    running_at E 0 = true ->
    let r := Daemon.poll_devices E cfg exporter (device :: rest) w in
    fst r = Raise (NameError "clean_node_id")
    /\ files (snd r) = files w
    /\ requests (snd r) = requests w
    /\ daemon_stats (snd r) = daemon_stats w.
Proof.
  intros E cfg exporter device rest w Hrun r. subst r.
  unfold Daemon.poll_devices, Daemon.poll_devices_in. cbn [Daemon.poll_loop_in].
  rewrite Hrun. cbn [negb].
  rewrite (format_prometheus_output_unbound _ module_globals_unbound).
  unfold bind, log, lift. cbn [fst snd].
  destruct (telemetry_of E (field device "node_id")); cbn; repeat split; reflexivity.
Qed.

Lemma X12_cycle_witness :
  fst (Daemon.poll_devices Scenario.healthy Scenario.cfg Scenario.exporter
         [Scenario.device] Scenario.fresh)
  = Raise (NameError "clean_node_id").
Proof.
  exact (proj1 (X12_cycle_with_a_device_raises_NameError Scenario.healthy Scenario.cfg
                  Scenario.exporter Scenario.device [] Scenario.fresh eq_refl)).
Defined.

(** ** The statistics file *)
Lemma write_plain_no_faults (E : env) (content : string) (filepath : path) (w : world) :
  open_error (plan_for E filepath) = false ->
  write_error (plan_for E filepath) = None ->
  fst (PrometheusFileWriter.write_plain E content filepath w) = Ok tt
  /\ files (snd (PrometheusFileWriter.write_plain E content filepath w))
     = <[filepath := content]> (files w).
Proof.
  intros Ho Hw. unfold PrometheusFileWriter.write_plain, bind, Os.open_w, Os.write_flush.
  rewrite Ho, Hw. cbn. split; [reflexivity|]. apply insert_insert_eq.
Qed.

(** X13.  [update_stats] with the statistics file enabled (meshmetricsd.py,
    lines 676 to 699).  When the directory of the file cannot be made, the
    call raises (that [os.makedirs] is outside the [try]); otherwise it
    returns, a failure to write the file being logged only.  When the file
    can be opened and written, it holds afterwards the statistics as
    JSON with this poll counted in. *)
Theorem X13_update_stats_writes_the_counted_poll :
  forall (E : env) (cfg : Daemon.config) (nodes_processed nodes_successful : Z) (w : world),
    Daemon.enable_stats cfg = true ->
    let stats_path := PathLib.of_text (Daemon.stats_file cfg) in
    let stats_dir := PathLib.dirname (Daemon.stats_file cfg) in
    let r := Daemon.update_stats E cfg nodes_processed nodes_successful w in
    (if Py.truthy stats_dir && mkdir_error E stats_dir
     then fst r = Raise (OSError "mkdir") /\ files (snd r) = files w
     else fst r = Ok tt
          /\ (open_error (plan_for E stats_path) = false ->
              write_error (plan_for E stats_path) = None ->
              files (snd r)
              = <[stats_path :=
                    Daemon.stats_json
                      (Daemon.count_poll (now E) nodes_processed nodes_successful
                         (daemon_stats w))]> (files w))).
Proof.
  intros E cfg processed successful w Hen stats_path stats_dir r.
  set (w1 := set_stats (Daemon.count_poll (now E) processed successful (daemon_stats w)) w).
  set (content := Daemon.stats_json
                    (Daemon.count_poll (now E) processed successful (daemon_stats w))).
  assert (Hf : files w1 = files w) by reflexivity.
  unfold r, Daemon.update_stats. rewrite Hen. fold stats_dir. fold stats_path.
  rewrite (bind_ok get_stats _ w (daemon_stats w) w eq_refl). cbv beta.
  rewrite (bind_ok (put_stats _) _ w tt w1 eq_refl). cbv beta.
  destruct (Py.truthy stats_dir && mkdir_error E stats_dir) eqn:Hd.
  - apply andb_true_iff in Hd as [Ht Hm]. rewrite Ht.
    unfold bind, PrometheusFileWriter.mkdir. rewrite Hm. cbn. split; [reflexivity | exact Hf].
  - assert (Hmk : (if Py.truthy stats_dir then PrometheusFileWriter.mkdir E stats_dir
                   else ret tt) w1 = (Ok tt, w1)).
    { destruct (Py.truthy stats_dir); [|reflexivity]. cbn [andb] in Hd.
      unfold PrometheusFileWriter.mkdir. now rewrite Hd. }
    rewrite (bind_ok _ _ _ _ _ Hmk). cbv beta. unfold try_except.
    rewrite (bind_ok get_stats _ w1 (daemon_stats w1) w1 eq_refl). cbv beta.
    change (Daemon.stats_json (daemon_stats w1)) with content.
    split.
    + destruct (PrometheusFileWriter.write_plain E content stats_path w1) as [[[]|e] w2];
        reflexivity.
    + intros Ho Hw.
      destruct (write_plain_no_faults E content stats_path w1 Ho Hw) as [Hok Hfiles].
      destruct (PrometheusFileWriter.write_plain E content stats_path w1) as [[[]|e] w2];
        cbn [fst snd] in *; [now rewrite Hfiles, Hf | discriminate Hok].
Qed.

Lemma X13_stats_file_witness :
  files (snd (Daemon.update_stats Scenario.healthy Scenario.cfg 1 1 Scenario.fresh))
  = <[PathLib.of_text (Daemon.stats_file Scenario.cfg) :=
        Daemon.stats_json
          (Daemon.count_poll (now Scenario.healthy) 1 1 (daemon_stats Scenario.fresh))]>
      (files Scenario.fresh).
Proof.
  exact (proj2 (X13_update_stats_writes_the_counted_poll Scenario.healthy Scenario.cfg 1 1
                  Scenario.fresh eq_refl) eq_refl eq_refl).
Defined.

(** ** The two atomic writers *)
Lemma cleanup_after_log (pl : plan) (tp : option path) (level msg : string) (w : world) :
  Atomic.cleanup pl tp (add_log level msg w)
  = (fst (Atomic.cleanup pl tp w), add_log level msg (snd (Atomic.cleanup pl tp w))).
Proof.
  destruct tp as [tmp|]; [|reflexivity].
  unfold Atomic.cleanup, bind, Os.exists_, try_except, Os.unlink. cbv beta.
  change (files (add_log level msg w)) with (files w). cbn [fst snd].
  destruct (bool_decide _); [|reflexivity].
  destruct (unlink_error pl); [reflexivity|]. cbv beta.
  change (files (add_log level msg w)) with (files w).
  destruct (files w !! tmp); reflexivity.
Qed.

Lemma cleanup_returns (pl : plan) (tp : option path) (w : world) :
  fst (Atomic.cleanup pl tp w) = Ok tt.
Proof.
  destruct tp as [tmp|]; [|reflexivity].
  unfold Atomic.cleanup, bind, Os.exists_, try_except, Os.unlink. cbn [fst snd].
  destruct (bool_decide _); [|reflexivity].
  destruct (unlink_error pl); [reflexivity|].
  destruct (files w !! tmp); reflexivity.
Qed.

(** X14.  The daemon's copy of the atomic writer (meshmetricsd.py, lines
    568 to 614) and the library's (prometheus_manager.py, lines 101 to
    145) do the same to the file system, step for step, and succeed on the
    same runs; the daemon leaves the world of the library with one log
    entry added.  They differ in what a failure raises: the daemon
    re-raises the exception itself, the library wraps its text in a new
    exception. *)
Theorem X14_the_two_atomic_writers_agree :
  forall (E : env) (content : string) (filepath : path) (w : world),
    let a := PrometheusFileWriter.write_output_atomic E content filepath w in
    let b := Daemon.write_output_atomic E content filepath w in
    files (snd a) = files (snd b)
    /\ history (snd a) = history (snd b)
    /\ (fst a = Ok tt <-> fst b = Ok tt)
    /\ (fst b = Ok tt ->
        snd b = add_log "debug" ("Atomically wrote file: " +:+ path_text filepath) (snd a))
    /\ (forall e, fst b = Raise e ->
          let text := "Failed to write file atomically " +:+ path_text filepath
                      +:+ ": " +:+ exn_text e in
          fst a = Raise (PyException text) /\ snd b = add_log "error" text (snd a)).
Proof.
  intros E content filepath w a b. subst a b.
  unfold PrometheusFileWriter.write_output_atomic, Daemon.write_output_atomic.
  destruct (Atomic.try_block (platform E) (plan_for E filepath) content filepath w)
    as [[[[]|e] tp] w1].
  - cbn. repeat split; try reflexivity; intros; discriminate.
  - unfold bind, log, raise. rewrite cleanup_after_log.
    pose proof (cleanup_returns (plan_for E filepath) tp w1) as Hc.
    destruct (Atomic.cleanup (plan_for E filepath) tp w1) as [rc w2].
    cbn [fst snd] in *. subst rc. cbn.
    repeat split; try reflexivity; try discriminate;
      match goal with H : Raise _ = Raise _ |- _ => injection H as <- end; reflexivity.
Qed.

Lemma atomic_write_succeeds (E : env) (content : string) (filepath : path) (w : world)
    (names : list string) :
  plan_for E filepath = no_faults names ->
  Os.first_free (files w) filepath names <> None ->
  fst (PrometheusFileWriter.write_output_atomic E content filepath w) = Ok tt.
Proof.
  intros Hplan Hfree.
  destruct (Os.first_free (files w) filepath names) as [tmp|] eqn:Hff; [|congruence].
  destruct (first_free_spec _ _ _ _ Hff) as (Hnone & Hne & _).
  unfold PrometheusFileWriter.write_output_atomic, Atomic.try_block, Os.mkstemp.
  rewrite Hplan. cbn [no_faults mkstemp_error tmp_names]. rewrite Hff.
  unfold Os.move, Os.rename_nt, try_except.
  unfold bind, Os.write_flush, Os.fsync, Os.rename, Os.exists_, Os.unlink.
  cbn [no_faults write_error fsync_error rename_error target_unlink_error].
  destruct (platform E).
  - map_norm Hne. reflexivity.
  - map_norm Hne. destruct (files w !! filepath) eqn:Hold; map_norm Hne; reflexivity.
Qed.

(** X15.  The single-file mode on a system without faults
    (prometheus_manager.py, lines 147 to 170 and 207 to 224): when the
    directory can be made, no step of the write fails and, for the atomic
    mode, a temporary name is free, [write_metrics_files] returns [True]
    and the only change to the files is that [meshtastic.prom] in the
    output directory holds the lines, each ended by a newline. *)
Theorem X15_single_file_holds_the_lines :
  forall (E : env) (self : PrometheusFileWriter.t) (dir : string)
         (all_output_lines names : list string) (w : world),
    let target := Path dir "meshtastic.prom" in
    PrometheusFileWriter.output_dir self = Some dir ->
    PrometheusFileWriter.individual_files self = false ->
    mkdir_error E dir = false ->
    plan_for E target = no_faults names ->
    (PrometheusFileWriter.atomic_writes self = true ->
     Os.first_free (files w) target names <> None) ->
    let r := PrometheusFileWriter.write_metrics_files E self all_output_lines w in
    fst r = Ok true
    /\ files (snd r)
       = <[target := Py.join (Py.str1 Py.nl) all_output_lines +:+ Py.str1 Py.nl]> (files w).
Proof.
  intros E self dir lines names w target Hdir Hind Hmk Hplan Hfree r. subst r.
  unfold PrometheusFileWriter.write_metrics_files. rewrite Hdir, Hind.
  unfold PrometheusFileWriter.mkdir. rewrite Hmk.
  unfold PrometheusFileWriter._write_single_file, try_except, bind, ret.
  cbv beta iota.
  change (PathLib.join dir "meshtastic.prom") with target.
  fold (PrometheusFileWriter.file_content lines).
  set (content := PrometheusFileWriter.file_content lines).
  assert (Hone : fst (PrometheusFileWriter.write_one E self content target w) = Ok tt
                 /\ files (snd (PrometheusFileWriter.write_one E self content target w))
                    = <[target := content]> (files w)).
  { unfold PrometheusFileWriter.write_one.
    destruct (PrometheusFileWriter.atomic_writes self).
    - pose proof (atomic_write_succeeds E content target w names Hplan (Hfree eq_refl)) as Hok.
      split; [exact Hok|].
      destruct (library_write_is_atomic E content target w) as (_ & Hfiles & _).
      exact (Hfiles Hok).
    - apply write_plain_no_faults; rewrite Hplan; reflexivity. }
  destruct Hone as [Hok Hfiles].
  destruct (PrometheusFileWriter.write_one E self content target w) as [[[]|e] w1];
    cbn [fst snd] in *; [split; [reflexivity | exact Hfiles] | discriminate Hok].
Qed.

Lemma X15_single_file_witness :
  files (snd (PrometheusFileWriter.write_metrics_files Scenario.healthy
                (PrometheusFileWriter.make "/out" true false)
                ["meshtastic_up{node=x} 1"] Scenario.fresh))
  = <[Path "/out" "meshtastic.prom" :=
        Py.join (Py.str1 Py.nl) ["meshtastic_up{node=x} 1"] +:+ Py.str1 Py.nl]>
      (files Scenario.fresh).
Proof.
  refine (proj2 (X15_single_file_holds_the_lines Scenario.healthy
                   (PrometheusFileWriter.make "/out" true false) "/out"
                   ["meshtastic_up{node=x} 1"] ["k3x9q2ab"] Scenario.fresh
                   eq_refl eq_refl eq_refl eq_refl _)).
  intros _. vm_compute. discriminate.
Defined.

(** ** The two push clients *)
(** X16.  The daemon's [PrometheusExporter.push_metrics] (meshmetricsd.py,
    lines 140 to 183) and the library's [push_metrics]
    (prometheus_manager.py, lines 245 to 293) send the same request and
    agree on the outcome; what the library returns as the reason of a
    failure is what the daemon logs as an error. *)
Theorem X16_the_two_push_clients_agree :
  forall (E : env) (self : PrometheusPushGateway.t) (metrics_data : list string) (w : world),
    let a := PrometheusPushGateway.push_metrics E self metrics_data w in
    let b := Daemon.push_metrics E self metrics_data w in
    exists ok reason,
      fst a = Ok (ok, reason)
      /\ fst b = Ok ok
      /\ requests (snd a) = requests (snd b)
      /\ files (snd a) = files (snd b)
      /\ (ok = true -> reason = "")
      /\ (ok = false -> logged (snd b) = (logged (snd a) ++ [("error", reason)])%list).
Proof.
  intros E self lines w a b. subst a b.
  unfold PrometheusPushGateway.push_metrics, Daemon.push_metrics.
  destruct (Py.truthy (PrometheusPushGateway.push_url self)) eqn:Hurl; cbn [negb].
  2:{ exists true, "". cbn. repeat split; try reflexivity. discriminate. }
  unfold try_except, bind, log.
  destruct (send_cases E self lines w Hurl)
    as [(Hrun & _) | [(status & Hne & Hrun & _) | [(e & Hrun & _) | (e & Hrun & _)]]];
    rewrite Hrun.
  - eexists _, _; cbn; repeat split; try reflexivity; discriminate.
  - apply Z.eqb_neq in Hne. rewrite Hne.
    eexists _, _; cbn; repeat split; try reflexivity; discriminate.
  - destruct (is_URLError e); eexists _, _; cbn; repeat split; try reflexivity; discriminate.
  - destruct (is_URLError e); eexists _, _; cbn; repeat split; try reflexivity; discriminate.
Qed.

(** ** Metric names *)
Lemma lower_char_facts (c : ascii) :
  Py.is_upper (Py.lower_char c) = false
  /\ Py.lower_char (Py.lower_char c) = Py.lower_char c
  /\ Ascii.eqb (Py.lower_char c) " "%char = Ascii.eqb c " "%char
  /\ Py.lower_char "_"%char = "_"%char.
Proof. destruct c as [[] [] [] [] [] [] [] []]; repeat split; reflexivity. Qed.

Lemma lower_idempotent (s : string) : Py.lower (Py.lower s) = Py.lower s.
Proof.
  induction s as [|c s IH]; [reflexivity|]. cbn [Py.lower].
  destruct (lower_char_facts c) as (_ & -> & _). now rewrite IH.
Qed.

Lemma lower_replace_space (s : string) :
  Py.lower (Py.replace " "%char "_" s) = Py.replace " "%char "_" (Py.lower s).
Proof.
  induction s as [|c s IH]; [reflexivity|]. cbn [Py.lower Py.replace].
  destruct (lower_char_facts c) as (_ & _ & -> & _).
  destruct (Ascii.eqb c " "%char); cbn [String.append Py.lower]; now rewrite IH.
Qed.

Lemma replace_space_idempotent (s : string) :
  Py.replace " "%char "_" (Py.replace " "%char "_" s) = Py.replace " "%char "_" s.
Proof.
  apply replace_absent. now apply mem_char_replaced.
Qed.

Lemma normalised_chars (s : string) :
  Props.all_chars name_char (Py.replace " "%char "_" (Py.lower s)) = true.
Proof.
  induction s as [|c s IH]; [reflexivity|]. cbn [Py.lower Py.replace].
  destruct (lower_char_facts c) as (Hup & _ & Hsp & _).
  destruct (Ascii.eqb (Py.lower_char c) " "%char) eqn:Hc.
  - cbn [String.append Props.all_chars]. now rewrite IH.
  - cbn [Props.all_chars]. unfold name_char at 1. now rewrite Hup, Hc, IH.
Qed.

Lemma normalised_ascii (s : string) :
  Props.all_chars Props.is_ascii s = true ->
  Props.all_chars Props.is_ascii (Py.replace " "%char "_" (Py.lower s)) = true.
Proof.
  induction s as [|c s IH]; [reflexivity|]. cbn [Py.lower Py.replace Props.all_chars].
  intros H. apply andb_true_iff in H as [Hc Hs].
  assert (Hl : Props.is_ascii (Py.lower_char c) = true).
  { unfold Py.lower_char. destruct (Py.is_upper c) eqn:Hu; [|exact Hc].
    unfold Py.is_upper in Hu. apply andb_true_iff in Hu as [H1 H2].
    apply Nat.leb_le in H1, H2. unfold Props.is_ascii.
    rewrite nat_ascii_embedding by lia. apply Nat.ltb_lt. lia. }
  destruct (Ascii.eqb (Py.lower_char c) " "%char).
  - cbn [String.append Props.all_chars]. now rewrite (IH Hs).
  - cbn [Props.all_chars]. now rewrite Hl, (IH Hs).
Qed.

(** X17.  The metric name of a reading key of ASCII characters
    (prometheus_manager.py, line 51; meshmetricsd.py, line 538): it begins
    with [meshtastic_] and holds, after that, no upper-case letter and no
    space; ASCII keys that differ only in letter case, or in a space
    against an underscore, get the same metric name. *)
Theorem X17_metric_names_are_normalised :
  forall key : string,
    Props.all_chars Props.is_ascii key = true ->
    Py.startswith "meshtastic_" (PrometheusFormatter.metric_name key) = true
    /\ Props.all_chars name_char (PrometheusFormatter.metric_name key) = true
    /\ Props.all_chars Props.is_ascii (PrometheusFormatter.metric_name key) = true
    /\ PrometheusFormatter.metric_name (Py.lower key) = PrometheusFormatter.metric_name key
    /\ PrometheusFormatter.metric_name (Py.replace " "%char "_" key)
       = PrometheusFormatter.metric_name key.
Proof.
  intros key Hascii. unfold PrometheusFormatter.metric_name. split; [reflexivity|].
  split; [|split; [|split]].
  - cbn [String.append Props.all_chars]. apply normalised_chars.
  - cbn [String.append Props.all_chars]. cbn. now apply normalised_ascii.
  - now rewrite lower_idempotent.
  - now rewrite lower_replace_space, replace_space_idempotent.
Qed.

Lemma X17_metric_name_witness :
  PrometheusFormatter.metric_name "Battery Level" = "meshtastic_battery_level"
  /\ PrometheusFormatter.metric_name (Py.lower "Battery Level")
     = PrometheusFormatter.metric_name "Battery Level".
Proof.
  split; [reflexivity|].
  exact (proj1 (proj2 (proj2 (proj2
    (X17_metric_names_are_normalised "Battery Level" eq_refl))))).
Defined.

(** ** The base64 layer of the device file *)
Lemma a2b_base64_filter (data : bytes) (q : Base64.quad) (pads : nat) (out : bytes) :
  Base64.a2b_base64 data q pads out
  = Base64.a2b_base64 (List.filter Props.base64_significant data) q pads out.
Proof.
  revert q pads out. induction data as [|c data IH]; intros q pads out; [reflexivity|].
  cbn [List.filter]. unfold Props.base64_significant at 1.
  destruct (Byte.eqb c Base64.pad_char) eqn:Hpad.
  - cbn [orb Base64.a2b_base64]. rewrite Hpad.
    destruct (2 <=? Base64.quad_pos q)%nat; [|apply IH].
    destruct (4 <=? Base64.quad_pos q + S pads)%nat; [reflexivity | apply IH].
  - cbn [orb]. destruct (Base64.table_a2b c) as [v|] eqn:Ht.
    + cbn [Base64.a2b_base64]. rewrite Hpad, Ht. destruct (Base64.feed q v). apply IH.
    + cbn [Base64.a2b_base64]. rewrite Hpad, Ht. apply IH.
Qed.

(** X18.  The base64 layer of [decrypt_device_file] (meshmetricsd.py, lines
    372 to 376) is decoded leniently: bytes outside the base64 alphabet,
    such as line breaks, are skipped.  A file whose significant bytes are
    the base64 text of a payload is therefore unwrapped to that payload,
    however the text is broken into lines. *)
Theorem X18_base64_text_may_be_broken_into_lines :
  forall (encrypted_data payload : bytes),
    List.filter Props.base64_significant encrypted_data = Base64.b64encode payload ->
    Base64.b64decode encrypted_data = Ok payload
    /\ Daemon.unwrap_base64 encrypted_data = payload.
Proof.
  intros data payload H.
  assert (Hd : Base64.b64decode data = Ok payload).
  { unfold Base64.b64decode. rewrite a2b_base64_filter, H. apply a2b_base64_b64encode. }
  split; [exact Hd|]. unfold Daemon.unwrap_base64. now rewrite Hd.
Qed.

Lemma X18_line_breaks_witness :
  Daemon.unwrap_base64
    (of_string ("U2FsdGVk" +:+ Py.str1 Py.nl +:+ "X19zYWx0" +:+ Py.str1 Py.nl
                +:+ "c2FsdA==" +:+ Py.str1 Py.nl))
  = of_string "Salted__saltsalt".
Proof.
  refine (proj2 (X18_base64_text_may_be_broken_into_lines _ (of_string "Salted__saltsalt") _)).
  vm_compute. reflexivity.
Defined.

(** ** The push URL *)
Lemma rstrip_app_char (c : ascii) (s : string) :
  Py.rstrip c (s +:+ Py.str1 c) = Py.rstrip c s.
Proof.
  induction s as [|a s IH].
  - cbn. now rewrite Ascii.eqb_refl.
  - cbn [String.append Py.rstrip]. now rewrite IH.
Qed.

Lemma rstrip_no_trailing (c : ascii) (s t : string) :
  Py.rstrip c s <> t +:+ Py.str1 c.
Proof.
  revert t. induction s as [|a s IH]; intros t.
  - cbn. destruct t; discriminate.
  - cbn [Py.rstrip]. destruct (Py.rstrip c s) as [|b r] eqn:Hr.
    + destruct (Ascii.eqb a c) eqn:Ha; [destruct t; discriminate|].
      destruct t as [|x t]; cbn; [|destruct t; discriminate].
      intros [= ->]. rewrite Ascii.eqb_refl in Ha. discriminate.
    + destruct t as [|x t]; cbn; [discriminate|].
      intros [= -> Ht]. exact (IH t Ht).
Qed.

(** X19.  The URL that [push_metrics] posts to (prometheus_manager.py,
    lines 257 to 263; meshmetricsd.py, lines 147 to 152): it is the
    configured URL without its trailing slashes, then [/metrics/job/] and
    the quoted job name, then, when an instance is set, [/instance/] and
    the quoted instance.  The part taken from the configured URL never
    ends in a slash, and a slash added at the end of the configured URL
    changes nothing. *)
Theorem X19_push_url_ignores_trailing_slashes :
  forall (self : PrometheusPushGateway.t),
    let base := Py.rstrip "/"%char (PrometheusPushGateway.push_url self) in
    PrometheusPushGateway.target_url self
    = base +:+ "/metrics/job/" +:+ Url.quote (PrometheusPushGateway.job_name self)
      +:+ (if Py.truthy (PrometheusPushGateway.instance self)
           then "/instance/" +:+ Url.quote (PrometheusPushGateway.instance self)
           else "")
    /\ (forall t, base <> t +:+ "/")
    /\ PrometheusPushGateway.target_url
         {| PrometheusPushGateway.push_url := PrometheusPushGateway.push_url self +:+ "/";
            PrometheusPushGateway.job_name := PrometheusPushGateway.job_name self;
            PrometheusPushGateway.instance := PrometheusPushGateway.instance self;
            PrometheusPushGateway.timeout := PrometheusPushGateway.timeout self |}
       = PrometheusPushGateway.target_url self.
Proof.
  intros self base. split; [|split].
  - unfold PrometheusPushGateway.target_url. fold base.
    destruct (Py.truthy (PrometheusPushGateway.instance self));
      cbn [app Py.join]; rewrite ?str_app_assoc, ?str_app_nil_r; reflexivity.
  - intros t. apply (rstrip_no_trailing "/"%char).
  - unfold PrometheusPushGateway.target_url.
    cbn [PrometheusPushGateway.push_url PrometheusPushGateway.job_name
         PrometheusPushGateway.instance].
    now rewrite (rstrip_app_char "/"%char).
Qed.
